(** * NGL representation → buffer pipeline: a shallow embedding

    Sources embedded here:
    - [src/representation/rocket-representation.js]: [RocketRepresentation],
      its [init], [createData] and [updateData];
    - [src/representation/label-representation.js]: [updateData] of
      [LabelRepresentation]; [init], [getDistanceData], [create] and
      [updateData] of [DistanceRepresentation];
    - the constructor of [HyperballStickImpostorBuffer] and its callback
      [matrixCalc];
    - [setOrientation] and [getOrientation] and the mutators [translate],
      [center], [zoom], [distance], [spin], [align], [applyMatrix],
      [centerScene], [zoomScene], [centerView] and [alignView] of
      [ViewerControls].

    Typed arrays are lists of numbers, ordinary arrays are lists of
    optional values (an empty slot is [None]), objects with fixed keys are
    records, and objects used as maps from channel names are
    [gmap string _].  Where a method mutates its arguments in place, the
    embedding returns the mutated value.  A call that throws returns [None],
    or the outcome [Threw] with the state reached at the throw.

    The file has four parts: the embedding of the sources, the vocabulary
    of the statements, concrete inputs, and the lemmas and theorems. *)

From stdpp Require Import gmap strings list fin_maps pretty.

Set Default Proof Using "Type".

(* ===================================================================== *)
(** * Numbers *)
(* ===================================================================== *)

(** The elements of the typed arrays are JavaScript numbers.  Their
    arithmetic (IEEE doubles, narrowed when stored into a [Float32Array]) is
    kept abstract: the development only relies on which operation is applied
    to which operands. *)
Class Number (num : Type) := {
  num_zero : num;                      (* content of a fresh typed array *)
  num_add  : num → num → num;          (* a + b *)
  num_sub  : num → num → num;          (* a - b *)
  num_mul  : num → num → num;          (* a * b *)
  num_neg  : num → num;                (* -a *)
  num_half : num → num;                (* a / 2 *)
  num_sqrt : num → num;                (* Math.sqrt( a ) *)
  toFixed  : num → nat → string;       (* a.toFixed( digits ) *)
  num_decimal : Z → nat → num;         (* the literal m / 10^d, as in 0.14 *)
}.

(* ===================================================================== *)
(** * Typed arrays and JavaScript arrays *)
(* ===================================================================== *)

Module TypedArray.

(** [new Float32Array( n )] *)
Definition alloc `{Number num} (n : nat) : list num := replicate n num_zero.

(** [dst.set( src, offset )]: copies [src] into [dst] starting at [offset];
    throws a [RangeError] when [src] does not fit. *)
Definition set {A} (dst src : list A) (offset : nat) : option (list A) :=
  if decide (offset + length src ≤ length dst)
  then Some (take offset dst ++ src ++ drop (offset + length src) dst)
  else None.

(** [a.subarray( b, e )] *)
Definition subarray {A} (a : list A) (b e : nat) : list A :=
  take (e - b) (drop b a).

End TypedArray.

Module JsArray.

(** [new Array( n )]: [n] empty slots. *)
Definition alloc {A} (n : nat) : list (option A) := replicate n None.

(** [a[ i ] = v] on an ordinary array: an index past the end extends the
    array, leaving empty slots in between. *)
Definition store {A} (a : list (option A)) (i : nat) (v : A) : list (option A) :=
  if decide (i < length a) then <[i := Some v]> a
  else a ++ replicate (i - length a) None ++ [Some v].

(** [a.forEach( function( x, i ){ ... } )] threading the state the callback
    mutates; [i] is the index of the first element of [l]. *)
Fixpoint forEach {A St} (f : St → A → nat → St) (l : list A) (i : nat) (st : St) : St :=
  match l with
  | [] => st
  | x :: l' => forEach f l' (S i) (f st x i)
  end.

End JsArray.

(* ===================================================================== *)
(** * Change-sets *)
(* ===================================================================== *)

Module What.

(** The [what] object handed to [updateData]: a missing key reads as
    [false]. *)
Record t := {
  position   : bool;
  color      : bool;
  radius     : bool;
  scale      : bool;
  labelSize  : bool;
  labelColor : bool;
}.

(** [{}] *)
Definition empty : t :=
  {| position := false; color := false; radius := false; scale := false;
     labelSize := false; labelColor := false |}.

End What.

(* ===================================================================== *)
(** * Buffers *)
(* ===================================================================== *)

Module Buffer.
Section Buffer.
Context `{Number num}.

(** Attribute types of [addAttributes] declarations. *)
Inductive AttributeType := type_f | type_v2 | type_v3 | type_c.

(** The stride of a channel: the numbers it holds per entity. *)
Definition itemSize (t : AttributeType) : nat :=
  match t with type_f => 1 | type_v2 => 2 | type_v3 => 3 | type_c => 3 end.

(** A buffer: its named attribute channels, its uniforms that hold a plain
    number, and its flags. *)
Record t := {
  count      : nat;
  attributes : gmap string (list num);
  uniforms   : gmap string num;
  impostor   : bool;
  pickable   : bool;
}.

(** Modelled from the spec: the in-place store of a supplied array into the
    storage of one channel (part of [Buffer.setAttributes], which is absent
    from the sources).  The channel keeps its length: lengths are not
    validated at the buffer boundary, and an attribute array's length stays
    entity-count × channel-stride. *)
Definition write (channel data : list num) : list num :=
  take (length channel) data ++ drop (length data) channel.

(** Modelled from the spec: [Buffer.setAttributes( data )] (absent from the
    sources) accepts a subset of named channels and updates only those;
    every channel that is not named in [data] stays as it is. *)
Definition setAttributes (data : gmap string (list num)) (b : t) : t :=
  {| count := count b;
     attributes :=
       map_imap (λ name channel,
                   Some (match data !! name with
                         | Some array => write channel array
                         | None => channel
                         end)) (attributes b);
     uniforms := uniforms b;
     impostor := impostor b;
     pickable := pickable b |}.

(** Modelled from the spec: [Buffer.addAttributes( declarations )] (absent
    from the sources) allocates one array per declared channel, of length
    entity-count × channel-stride. *)
Definition addAttributes (decls : list (string * AttributeType)) (b : t) : t :=
  {| count := count b;
     attributes :=
       foldl (λ m d, <[d.1 := TypedArray.alloc (count b * itemSize d.2)]> m)
             (attributes b) decls;
     uniforms := uniforms b;
     impostor := impostor b;
     pickable := pickable b |}.

(** Modelled from the spec: [Buffer.addUniforms( uniforms )] (absent from
    the sources), restricted to the uniforms that hold a plain number. *)
Definition addUniforms (us : list (string * num)) (b : t) : t :=
  {| count := count b;
     attributes := attributes b;
     uniforms := foldl (λ m u, <[u.1 := u.2]> m) (uniforms b) us;
     impostor := impostor b;
     pickable := pickable b |}.

(** Modelled from the spec: a buffer that owns the arrays it is constructed
    from, one per named channel, without validating their lengths; it is
    pickable iff a picking-color channel is supplied.  Stands for the
    constructors of [TextBuffer] and [CylinderBuffer], which are absent from
    the sources. *)
Definition ofChannels (n : nat) (channels : list (string * list num))
    (picking : bool) : t :=
  {| count := n;
     attributes := foldl (λ m ch, <[ch.1 := ch.2]> m) ∅ channels;
     uniforms := ∅;
     impostor := false;
     pickable := picking |}.

End Buffer.
Arguments t : clear implicits.
End Buffer.

(* ===================================================================== *)
(** * Array utilities *)
(* ===================================================================== *)

Module ArrayUtils.
Section ArrayUtils.
Context `{Number num}.

(** Modelled from the spec: [uniformArray( n, a )] of [math/array-utils.js]
    (absent from the sources): an array of [n] entries, stride one, all equal
    to [a]. *)
Definition uniformArray (n : nat) (a : num) : list num := replicate n a.

(** Modelled from the spec: [uniformArray3( n, a, b, c )] of
    [math/array-utils.js] (absent from the sources): an array of [n]
    entries, stride three, all equal to [a, b, c]. *)
Definition uniformArray3 (n : nat) (a b c : num) : list num :=
  mjoin (replicate n [a; b; c]).

(** Modelled from the spec: [calculateCenterArray( array1, array2 )] of
    [math/array-utils.js] (absent from the sources): the componentwise
    midpoints, the virtual center of a bond. *)
Definition calculateCenterArray (array1 array2 : list num) : list num :=
  zip_with (λ a b, num_half (num_add a b)) array1 array2.

End ArrayUtils.
End ArrayUtils.

Module CylinderBuffer.

(** Modelled from the spec: the constructor
    [CylinderBuffer( from, to, color, color2, radius, pickingColor,
    pickingColor2, params )] of [buffer/cylinder-buffer.js] (absent from the
    sources): a buffer with two endpoint positions, a color per endpoint, a
    radius, the virtual center, and the picking colors when supplied.  The
    channel names are the ones the [updateData] methods pass to
    [setAttributes]. *)
Definition new `{Number num} (from to color color2 radius : list num)
    (pickingColor pickingColor2 : option (list num)) : Buffer.t num :=
  Buffer.ofChannels (length from / 3)
    ([("position", ArrayUtils.calculateCenterArray from to);
      ("position1", from); ("position2", to);
      ("color", color); ("color2", color2); ("radius", radius)]
     ++ match pickingColor, pickingColor2 with
        | Some p1, Some p2 => [("pickingColor", p1); ("pickingColor2", p2)]
        | _, _ => []
        end)
    (bool_decide (is_Some pickingColor)).

End CylinderBuffer.

Module TextBuffer.
Section TextBuffer.
Context `{Number num}.

(** A text buffer: the label texts and the attribute channels. *)
Record t := {
  text   : list (option string);
  buffer : Buffer.t num;
}.

(** Modelled from the spec: the constructor
    [TextBuffer( position, size, color, text, params )] of
    [buffer/text-buffer.js] (absent from the sources): a buffer with a
    position, a size and a color channel, together with the label texts. *)
Definition new (position size color : list num) (text : list (option string)) : t :=
  {| text := text;
     buffer := Buffer.ofChannels (length position / 3)
                 [("position", position); ("size", size); ("color", color)]
                 false |}.

(** [setAttributes] of the underlying buffer. *)
Definition setAttributes (data : gmap string (list num)) (b : t) : t :=
  {| text := text b; buffer := Buffer.setAttributes data (buffer b) |}.

End TextBuffer.
Arguments t num : clear implicits.
End TextBuffer.

(* ===================================================================== *)
(** * RocketRepresentation ([src/representation/rocket-representation.js]) *)
(* ===================================================================== *)

Module RocketRepresentation.
Section RocketRepresentation.
Context `{Number num}.

(** The result of [helixbundle.getAxis( ... )]: flat arrays with one entry
    per axis segment. *)
Record Axis := {
  begin        : list num;
  end_         : list num;
  size         : list num;
  color        : list num;
  pickingColor : list num;
}.

(** A [Helixbundle] (of [geometry/helixbundle.js], absent from the sources)
    is its method [getAxis( localAngle, centerDist, ssBorder, colorParams,
    radius, scale )]. *)
Record Helixbundle := {
  getAxis : num → num → bool → string → num → num → Axis;
}.

(** A polymer as [eachPolymer] hands it to the callback; [Helixbundle_new]
    is [new Helixbundle( polymer )]. *)
Record Polymer := {
  residueCount    : Z;
  isNucleic       : bool;
  Helixbundle_new : Helixbundle;
}.

(** The fields of [this] that [createData] and [updateData] read;
    [getColorParams] is the result of [this.getColorParams()]. *)
Record t := {
  localAngle      : num;
  centerDist      : num;
  ssBorder        : bool;
  radiusSegments  : Z;
  disableImpostor : bool;
  getColorParams  : string;
  radius          : num;
  scale           : num;
}.

(** The record [createData] returns. *)
Record Data := {
  bufferList      : list (Buffer.t num);
  axisList        : list Axis;
  helixbundleList : list Helixbundle;
  axisData        : Axis;
}.

(** [helixbundle.getAxis( this.localAngle, this.centerDist, this.ssBorder,
    this.getColorParams(), this.radius, this.scale )] *)
Definition axisOf (this : t) (helixbundle : Helixbundle) : Axis :=
  getAxis helixbundle
    (localAngle this) (centerDist this) (ssBorder this)
    (getColorParams this) (radius this) (scale this).

(** The callback of [this.structure.eachPolymer( ... )] in [createData],
    acting on the variables [length], [axisList] and [helixbundleList] it
    closes over. *)
Definition eachPolymer_callback (this : t)
    (st : nat * list Axis * list Helixbundle) (polymer : Polymer)
    : nat * list Axis * list Helixbundle :=
  let '(length_, axisList, helixbundleList) := st in
  if bool_decide (residueCount polymer < 4)%Z || isNucleic polymer then st
  else
    let helixbundle := Helixbundle_new polymer in
    let axis := axisOf this helixbundle in
    (length_ + length (size axis), axisList ++ [axis],
     helixbundleList ++ [helixbundle]).

(** The callback of [axisList.forEach( ... )] in [createData], acting on
    [axisData] and [offset]. *)
Definition axisList_callback (st : Axis * nat) (axis : Axis) : option (Axis * nat) :=
  let '(axisData, offset) := st in
  begin' ← TypedArray.set (begin axisData) (begin axis) (offset * 3);
  end' ← TypedArray.set (end_ axisData) (end_ axis) (offset * 3);
  size' ← TypedArray.set (size axisData) (size axis) offset;
  color' ← TypedArray.set (color axisData) (color axis) (offset * 3);
  pickingColor' ←
    TypedArray.set (pickingColor axisData) (pickingColor axis) (offset * 3);
  Some ({| begin := begin'; end_ := end'; size := size'; color := color';
           pickingColor := pickingColor' |},
        offset + length (size axis)).

(** [axisList.forEach( ... )]: a [RangeError] ends the loop. *)
Fixpoint axisList_forEach (axisList : list Axis) (st : Axis * nat)
    : option (Axis * nat) :=
  match axisList with
  | [] => Some st
  | axis :: rest => st' ← axisList_callback st axis; axisList_forEach rest st'
  end.

(** [createData( sview )]; [polymers] are the polymers that
    [this.structure.eachPolymer( _, sview.getSelection() )] iterates, in
    iteration order. *)
Definition createData (this : t) (polymers : list Polymer) : option Data :=
  let '(length_, axisList, helixbundleList) :=
    foldl (eachPolymer_callback this) (0, [], []) polymers in
  let axisData :=
    {| begin := TypedArray.alloc (length_ * 3);
       end_ := TypedArray.alloc (length_ * 3);
       size := TypedArray.alloc length_;
       color := TypedArray.alloc (length_ * 3);
       pickingColor := TypedArray.alloc (length_ * 3) |} in
  let offset := 0 in
  '(axisData, offset) ← axisList_forEach axisList (axisData, offset);
  let cylinderBuffer :=
    CylinderBuffer.new (begin axisData) (end_ axisData)
      (color axisData) (color axisData) (size axisData)
      (Some (pickingColor axisData)) (Some (pickingColor axisData)) in
  Some {| bufferList := [cylinderBuffer];
          axisList := axisList;
          helixbundleList := helixbundleList;
          axisData := axisData |}.

(** What a call of [updateData] does: it calls [this.build()] and returns,
    or it runs to its end on the data as patched in place, or it throws
    (a [RangeError] of a typed-array [set], a [TypeError] on an empty
    buffer list) and leaves the data as patched so far. *)
Inductive UpdateResult :=
  | Rebuild
  | Patched (data : Data)
  | Threw (data : Data).

(** [data] with its axis data as patched in place. *)
Definition withAxisData (data : Data) (axisData : Axis) : Data :=
  {| bufferList := bufferList data; axisList := axisList data;
     helixbundleList := helixbundleList data; axisData := axisData |}.

(** The callback of [data.helixbundleList.forEach( ... )] in [updateData],
    iterated; the boolean tells whether the loop ran to its end. *)
Fixpoint helixbundleList_forEach (this : t) (what : What.t)
    (helixbundleList : list Helixbundle) (axisData : Axis) (offset : nat)
    : Axis * bool :=
  match helixbundleList with
  | [] => (axisData, true)
  | helixbundle :: rest =>
    let axis := axisOf this helixbundle in
    match (if What.color what
           then color' ← TypedArray.set (color axisData) (color axis) (offset * 3);
                Some {| begin := begin axisData; end_ := end_ axisData;
                        size := size axisData; color := color';
                        pickingColor := pickingColor axisData |}
           else Some axisData) with
    | None => (axisData, false)
    | Some axisData1 =>
      match (if What.radius what || What.scale what
             then size' ← TypedArray.set (size axisData1) (size axis) offset;
                  Some {| begin := begin axisData1; end_ := end_ axisData1;
                          size := size'; color := color axisData1;
                          pickingColor := pickingColor axisData1 |}
             else Some axisData1) with
      | None => (axisData1, false)
      | Some axisData2 =>
        helixbundleList_forEach this what rest axisData2
          (offset + length (size axis))
      end
    end
  end.

(** [updateData( what, data )] *)
Definition updateData (this : t) (what : option What.t) (data : Data)
    : UpdateResult :=
  let what := default What.empty what in
  if What.position what then Rebuild
  else
    let cylinderData : gmap string (list num) := ∅ in
    let '(axisData, completed, cylinderData) :=
      if What.color what || What.radius what then
        let '(axisData, completed) :=
          helixbundleList_forEach this what (helixbundleList data)
            (axisData data) 0 in
        let cylinderData :=
          if What.color what
          then <["color2" := color axisData]>
                 (<["color" := color axisData]> cylinderData)
          else cylinderData in
        let cylinderData :=
          if What.radius what || What.scale what
          then <["radius" := size axisData]> cylinderData
          else cylinderData in
        (axisData, completed, cylinderData)
      else (axisData data, true, cylinderData) in
    if completed then
      match bufferList data with
      | buffer0 :: buffers =>
        Patched {| bufferList := Buffer.setAttributes cylinderData buffer0 :: buffers;
                   axisList := axisList data;
                   helixbundleList := helixbundleList data;
                   axisData := axisData |}
      | [] => Threw (withAxisData data axisData)
      end
    else Threw (withAxisData data axisData).

End RocketRepresentation.
Arguments Axis num : clear implicits.
Arguments Helixbundle num : clear implicits.
Arguments Polymer num : clear implicits.
Arguments t num : clear implicits.
Arguments Data num : clear implicits.
Arguments UpdateResult num : clear implicits.
End RocketRepresentation.

(* ===================================================================== *)
(** * LabelRepresentation ([src/representation/label-representation.js]) *)
(* ===================================================================== *)

Module LabelRepresentation.
Section LabelRepresentation.
Context `{Number num}.

(** The result of [sview.getAtomData( ... )]. *)
Record AtomData := {
  position : list num;
  radius   : list num;
  color    : list num;
}.

(** The structure view, as [updateData] uses it: [getAtomData what] is
    [sview.getAtomData( this.getAtomParams( what ) )]. *)
Record StructureView := {
  getAtomData : option What.t → AtomData;
}.

(** The record [createData] returns, with the view it was created for. *)
Record Data := {
  sview      : StructureView;
  bufferList : list (TextBuffer.t num);
}.

(** [!what || what.key] *)
Definition requested (what : option What.t) (key : What.t → bool) : bool :=
  match what with
  | None => true
  | Some w => key w
  end.

(** The object [textData] that [updateData] builds. *)
Definition textData (what : option What.t) (atomData : AtomData)
    : gmap string (list num) :=
  let textData : gmap string (list num) := ∅ in
  let textData :=
    if requested what What.position
    then <["position" := position atomData]> textData else textData in
  let textData :=
    if requested what What.radius
    then <["size" := radius atomData]> textData else textData in
  let textData :=
    if requested what What.color
    then <["color" := color atomData]> textData else textData in
  textData.

(** [updateData( what, data )]; [None] is the [TypeError] of an empty
    buffer list. *)
Definition updateData (what : option What.t) (data : Data) : option Data :=
  let atomData := getAtomData (sview data) what in
  match bufferList data with
  | buffer0 :: buffers =>
    Some {| sview := sview data;
            bufferList :=
              TextBuffer.setAttributes (textData what atomData) buffer0 :: buffers |}
  | [] => None
  end.

End LabelRepresentation.
Arguments AtomData num : clear implicits.
Arguments StructureView num : clear implicits.
Arguments Data num : clear implicits.
End LabelRepresentation.

(* ===================================================================== *)
(** * DistanceRepresentation ([src/representation/label-representation.js]) *)
(* ===================================================================== *)

Module DistanceRepresentation.
Section DistanceRepresentation.
Context `{Number num}.

(** A bond of the bond table: the two atom indices and the bond order. *)
Definition Bond : Type := nat * nat * nat.

(** The result of [sview.getBondData( ... )]. *)
Record BondData := {
  position1     : list num;
  position2     : list num;
  color1        : list num;
  color2        : list num;
  radius        : list num;
  pickingColor1 : option (list num);
  pickingColor2 : option (list num);
}.

(** The structure view: its atom count, the selection collaborator
    ([getAtomIndices] of a selection string, in view order), the atom
    coordinates an atom proxy reads at its index, and the bond-data
    extraction for a change-set, a bond set and a bond table. *)
Record StructureView := {
  atomCount      : nat;
  getAtomIndices : string → list nat;
  atom_x         : nat → num;
  atom_y         : nat → num;
  atom_z         : nat → num;
  getBondData    : option What.t → list bool → list Bond → BondData;
}.

(** Modelled from the spec: [ap1.distanceTo( ap2 )] of the atom proxy
    (absent from the sources): the Euclidean distance between the two
    atoms. *)
Definition distanceTo (sview : StructureView) (index1 index2 : nat) : num :=
  let dx := num_sub (atom_x sview index1) (atom_x sview index2) in
  let dy := num_sub (atom_y sview index1) (atom_y sview index2) in
  let dz := num_sub (atom_z sview index1) (atom_z sview index2) in
  num_sqrt (num_add (num_add (num_mul dx dx) (num_mul dy dy)) (num_mul dz dz)).

(** Modelled from the spec: [bondStore.addBond( ap1, ap2, bondOrder )] of
    [store/bond-store.js] (absent from the sources): registers a bond
    between the two atoms at the end of the bond table. *)
Definition addBond (bondStore : list Bond) (index1 index2 bondOrder : nat)
    : list Bond :=
  bondStore ++ [(index1, index2, bondOrder)].

(** The variables the [forEach] callback of [getDistanceData] closes over
    and mutates. *)
Record Loop := {
  j         : nat;
  text      : list (option string);
  position  : list num;
  bondStore : list Bond;
}.

(** The callback of [atomPair.forEach( function( pair, i ){ ... } )]. *)
Definition atomPair_callback (sview : StructureView) (st : Loop)
    (pair : string * string) (i : nat) : Loop :=
  let i := i - j st in
  let i3 := i * 3 in
  let atomIndices1 := getAtomIndices sview pair.1 in
  let atomIndices2 := getAtomIndices sview pair.2 in
  match atomIndices1, atomIndices2 with
  | index1 :: _, index2 :: _ =>
    {| j := j st;
       bondStore := addBond (bondStore st) index1 index2 1;
       text := JsArray.store (text st) i (toFixed (distanceTo sview index1 index2) 2);
       position :=
         <[i3 + 2 := num_half (num_add (atom_z sview index1) (atom_z sview index2))]>
         (<[i3 + 1 := num_half (num_add (atom_y sview index1) (atom_y sview index2))]>
         (<[i3 + 0 := num_half (num_add (atom_x sview index1) (atom_x sview index2))]>
            (position st))) |}
  | _, _ =>
    {| j := j st + 1; bondStore := bondStore st; text := text st;
       position := position st |}
  end.

(** The record [getDistanceData] returns. *)
Record DistanceData := {
  data_text      : list (option string);
  data_position  : list num;
  data_bondSet   : list bool;
  data_bondStore : list Bond;
}.

(** [getDistanceData( sview, atomPair )] *)
Definition getDistanceData (sview : StructureView)
    (atomPair : list (string * string)) : DistanceData :=
  let n := length atomPair in
  let st :=
    JsArray.forEach (atomPair_callback sview) atomPair 0
      {| j := 0; text := JsArray.alloc n; position := TypedArray.alloc (n * 3);
         bondStore := [] |} in
  let '(n, position) :=
    if bool_decide (0 < j st)
    then (n - j st, TypedArray.subarray (position st) 0 ((n - j st) * 3))
    else (n, position st) in
  {| data_text := text st;
     data_position := position;
     data_bondSet := replicate (length (bondStore st)) true;
     data_bondStore := bondStore st |}.

(** The two kinds of buffer of a distance representation. *)
Inductive AnyBuffer :=
  | Text (b : TextBuffer.t num)
  | Cylinder (b : Buffer.t num).

(** An entry of [this.dataList]. *)
Record Data := {
  sview             : StructureView;
  bondSet           : list bool;
  entry_bondStore   : list Bond;
  entry_position    : list num;
  bufferList        : list AnyBuffer;
}.

(** The fields of [this] that [create] reads and writes; [labelColor] is
    the [r], [g], [b] of [new THREE.Color( this.labelColor )]. *)
Record t := {
  structureView   : StructureView;
  atomPair        : list (string * string);
  labelSize       : num;
  labelColor      : num * num * num;
  labelVisible    : bool;
  radiusSegments  : Z;
  disableImpostor : bool;
  textBuffer      : option (TextBuffer.t num);
  cylinderBuffer  : option (Buffer.t num);
  dataList        : list Data;
}.

(** [create()] *)
Definition create (this : t) : t :=
  if bool_decide (atomCount (structureView this) = 0) then this
  else
    let n := length (atomPair this) in
    if bool_decide (n = 0) then this
    else
      let distanceData := getDistanceData (structureView this) (atomPair this) in
      let '(c_r, c_g, c_b) := labelColor this in
      let textBuffer :=
        TextBuffer.new
          (data_position distanceData)
          (ArrayUtils.uniformArray n (labelSize this))
          (ArrayUtils.uniformArray3 n c_r c_g c_b)
          (data_text distanceData) in
      let bondData :=
        getBondData (structureView this) None
          (data_bondSet distanceData) (data_bondStore distanceData) in
      let cylinderBuffer :=
        CylinderBuffer.new
          (position1 bondData) (position2 bondData)
          (color1 bondData) (color2 bondData) (radius bondData)
          (pickingColor1 bondData) (pickingColor2 bondData) in
      {| structureView := structureView this;
         atomPair := atomPair this;
         labelSize := labelSize this;
         labelColor := labelColor this;
         labelVisible := labelVisible this;
         radiusSegments := radiusSegments this;
         disableImpostor := disableImpostor this;
         textBuffer := Some textBuffer;
         cylinderBuffer := Some cylinderBuffer;
         dataList :=
           dataList this ++
           [ {| sview := structureView this;
                bondSet := data_bondSet distanceData;
                entry_bondStore := data_bondStore distanceData;
                entry_position := data_position distanceData;
                bufferList := [Text textBuffer; Cylinder cylinderBuffer] |} ] |}.

End DistanceRepresentation.
Arguments BondData num : clear implicits.
Arguments StructureView num : clear implicits.
Arguments Loop num : clear implicits.
Arguments DistanceData num : clear implicits.
Arguments AnyBuffer num : clear implicits.
Arguments Data num : clear implicits.
Arguments t num : clear implicits.
End DistanceRepresentation.

(* ===================================================================== *)
(** * HyperballStickImpostorBuffer *)
(* ===================================================================== *)

Module HyperballStickImpostorBuffer.
Section HyperballStickImpostorBuffer.
Context `{Number num}.

(** The [params] object. *)
Record Params := {
  shrink : option num;
}.

(** Modelled from the spec: [BoxBuffer.call( this, p )], the base
    constructor of [buffer/box-buffer.js] (absent from the sources), run on
    an object whose [count] and [impostor] are already set: the buffer owns
    a position channel of entity-count × 3 numbers, has no picking channel,
    and is not pickable. *)
Definition BoxBuffer (count : nat) (impostor : bool) : Buffer.t num :=
  {| Buffer.count := count;
     Buffer.attributes := {[ "position" := TypedArray.alloc (count * 3) ]};
     Buffer.uniforms := ∅;
     Buffer.impostor := impostor;
     Buffer.pickable := false |}.

(** [this.pickable = value] *)
Definition set_pickable (b : Buffer.t num) (value : bool) : Buffer.t num :=
  {| Buffer.count := Buffer.count b;
     Buffer.attributes := Buffer.attributes b;
     Buffer.uniforms := Buffer.uniforms b;
     Buffer.impostor := Buffer.impostor b;
     Buffer.pickable := value |}.

(** The constructor [HyperballStickImpostorBuffer( position1, position2,
    color, color2, radius1, radius2, pickingColor, pickingColor2, params )].
    A missing argument is [None].  [this.count] is [position1.length / 3],
    a whole number as the position arrays hold triples.  The three matrix
    uniforms and their [onUpdate] callback, the shader names and
    [makeMapping] do not act on the attribute channels or on the flags and
    are left out. *)
Definition new (position1 position2 color color2 radius1 radius2 : list num)
    (pickingColor pickingColor2 : option (list num)) (params : option Params)
    : Buffer.t num :=
  let p := default {| shrink := None |} params in
  let shrink := default (num_decimal 14 2) (shrink p) in
  let this := BoxBuffer (length position1 / 3) true in
  let this := Buffer.addUniforms [("shrink", shrink)] this in
  let this :=
    Buffer.addAttributes
      [("color", Buffer.type_c); ("color2", Buffer.type_c);
       ("radius", Buffer.type_f); ("radius2", Buffer.type_f);
       ("position1", Buffer.type_v3); ("position2", Buffer.type_v3)] this in
  let this :=
    Buffer.setAttributes
      (<["position" := ArrayUtils.calculateCenterArray position1 position2]>
      (<["position2" := position2]>
      (<["position1" := position1]>
      (<["radius2" := radius2]>
      (<["radius" := radius1]>
      (<["color2" := color2]>
      (<["color" := color]> ∅))))))) this in
  match pickingColor with
  | Some pickingColor =>
    let this :=
      Buffer.addAttributes
        [("pickingColor", Buffer.type_c); ("pickingColor2", Buffer.type_c)] this in
    let this :=
      Buffer.setAttributes
        (match pickingColor2 with
         | Some pickingColor2 =>
           <["pickingColor2" := pickingColor2]> (<["pickingColor" := pickingColor]> ∅)
         | None => <["pickingColor" := pickingColor]> ∅
         end) this in
    set_pickable this true
  | None => this
  end.

End HyperballStickImpostorBuffer.
Arguments Params num : clear implicits.
End HyperballStickImpostorBuffer.

(* ===================================================================== *)
(** * ViewerControls *)
(* ===================================================================== *)

Module ViewerControls.
Section ViewerControls.
Context `{Number num}.
(** The rotation group of the viewer (its quaternion and matrix), and the
    state of the viewer that the controls never read. *)
Context {Rotation Rest : Type}.

(** A [Vector3] of three.js. *)
Record Vector3 := {
  x : num;
  y : num;
  z : num;
}.

(** The viewer, as the controls see it: [rotationGroup],
    [translationGroup.position], [camera.position] and the rest. *)
Record Viewer := {
  rotationGroup             : Rotation;
  translationGroup_position : Vector3;
  camera_position           : Vector3;
  rest                      : Rest;
}.

(** The two methods of the viewer that the mutators call; they belong to
    the viewer (absent from the sources). *)
Class ViewerMethods := {
  updateZoom    : Viewer → Viewer;
  requestRender : Viewer → Viewer;
}.
Context `{ViewerMethods}.

(** [this.viewer.camera.position.z = value] *)
Definition set_camera_z (viewer : Viewer) (value : num) : Viewer :=
  {| rotationGroup := rotationGroup viewer;
     translationGroup_position := translationGroup_position viewer;
     camera_position :=
       {| x := x (camera_position viewer); y := y (camera_position viewer);
          z := value |};
     rest := rest viewer |}.

(** The viewer once [translationGroup.position] holds [value]. *)
Definition set_translation (viewer : Viewer) (value : Vector3) : Viewer :=
  {| rotationGroup := rotationGroup viewer;
     translationGroup_position := value;
     camera_position := camera_position viewer;
     rest := rest viewer |}.

(** [translate( vector )] *)
Definition translate (vector : Vector3) (viewer : Viewer) : Viewer :=
  let p := translationGroup_position viewer in
  requestRender
    (set_translation viewer
       {| x := num_add (x p) (x vector); y := num_add (y p) (y vector);
          z := num_add (z p) (z vector) |}).

(** [center( position )] *)
Definition center (position : Vector3) (viewer : Viewer) : Viewer :=
  requestRender
    (set_translation viewer
       {| x := num_neg (x position); y := num_neg (y position);
          z := num_neg (z position) |}).

(** [distance( z )] *)
Definition distance (z : num) (viewer : Viewer) : Viewer :=
  let viewer := set_camera_z viewer z in
  let viewer := updateZoom viewer in
  requestRender viewer.

(** [zoom( delta )] *)
Definition zoom (delta : num) (viewer : Viewer) : Viewer :=
  distance
    (num_mul (z (camera_position viewer)) (num_sub (num_decimal 1 0) delta))
    viewer.

End ViewerControls.
Arguments Vector3 num : clear implicits.
Arguments Viewer num Rotation Rest : clear implicits.
Arguments ViewerMethods num Rotation Rest : clear implicits.
End ViewerControls.

(* ===================================================================== *)
(** * ViewerControls, continued: the orientation *)
(* ===================================================================== *)

Module ViewerOrientation.
Import ViewerControls.
Section ViewerOrientation.
Context `{Number num}.
Context {Rotation Rest Matrix4 Quaternion : Type}.
Context `{!ViewerMethods num Rotation Rest}.

(** The three.js methods that [setOrientation] and [getOrientation] call,
    as functions of what they read: [m.decompose( p, q, s )] leaves the
    position, the quaternion and the scale of [m] in [p], [q] and [s];
    [m.scale( v )] and [m.setPosition( v )] act on a matrix; and, on the
    rotation group, [setRotationFromQuaternion( q )] and the field
    [matrix]. *)
Class OrientationMethods := {
  decompose                 : Matrix4 → Vector3 num * Quaternion * Vector3 num;
  scale                     : Matrix4 → Vector3 num → Matrix4;
  setPosition               : Matrix4 → Vector3 num → Matrix4;
  setRotationFromQuaternion : Rotation → Quaternion → Rotation;
  rotationGroup_matrix      : Rotation → Matrix4;
}.
Context `{!OrientationMethods}.



End ViewerOrientation.
Arguments OrientationMethods num Rotation Matrix4 Quaternion : clear implicits.
End ViewerOrientation.

(* ===================================================================== *)
(** * DistanceRepresentation, continued: [updateData] *)
(* ===================================================================== *)

Module DistanceUpdate.
Import DistanceRepresentation.
Section DistanceUpdate.
Context `{Number num}.

(** The buffer a [setAttributes] call is made on. *)
Inductive Target :=
  | this_textBuffer
  | this_cylinderBuffer.

(** What a call of [updateData] does: the entry [data] as mutated in place,
    the [setAttributes] calls made on [this.textBuffer] and
    [this.cylinderBuffer], in order and with the objects they are handed,
    and whether the method threw a [TypeError] (on reading a key of an
    undefined change-set, or on calling a method of a buffer that was
    never made). *)
Record Outcome := {
  data  : Data num;
  calls : list (Target * gmap string (list num));
  threw : bool;
}.

(** The first statement of [updateData]: under [!what || what.position]
    the selections are resolved again and the entry is overwritten. *)
Definition resolve (this : t num) (what : option What.t) (data : Data num)
    : Data num :=
  if match what with None => true | Some what => What.position what end
  then
    let distanceData := getDistanceData (sview data) (atomPair this) in
    {| sview := sview data;
       bondSet := data_bondSet distanceData;
       entry_bondStore := data_bondStore distanceData;
       entry_position := data_position distanceData;
       bufferList := bufferList data |}
  else data.

(** The object [textData] that [updateData] builds for a change-set. *)
Definition textData (this : t num) (what : What.t) (data : Data num)
    : gmap string (list num) :=
  let n := length (atomPair this) in
  let textData : gmap string (list num) := ∅ in
  let textData :=
    if What.position what
    then <["position" := entry_position data]> textData else textData in
  let textData :=
    if What.labelSize what
    then <["size" := ArrayUtils.uniformArray n (labelSize this)]> textData
    else textData in
  let textData :=
    if What.labelColor what
    then let '(c_r, c_g, c_b) := labelColor this in
         <["color" := ArrayUtils.uniformArray3 n c_r c_g c_b]> textData
    else textData in
  textData.

(** The object [cylinderData] that [updateData] builds for a change-set
    from the bond data. *)
Definition cylinderData (what : What.t) (bondData : BondData num)
    : gmap string (list num) :=
  let cylinderData : gmap string (list num) := ∅ in
  let cylinderData :=
    if What.position what
    then <["position2" := position2 bondData]>
         (<["position1" := position1 bondData]>
         (<["position" :=
              ArrayUtils.calculateCenterArray
                (position1 bondData) (position2 bondData)]> cylinderData))
    else cylinderData in
  let cylinderData :=
    if What.color what
    then <["color2" := color2 bondData]>
         (<["color" := color1 bondData]> cylinderData)
    else cylinderData in
  let cylinderData :=
    if What.radius what || What.scale what
    then <["radius" := radius bondData]> cylinderData
    else cylinderData in
  cylinderData.

(** [updateData( what, data )] *)
Definition updateData (this : t num) (what : option What.t) (data : Data num)
    : Outcome :=
  let data := resolve this what data in
  let bondData :=
    getBondData (sview data) what (bondSet data) (entry_bondStore data) in
  match what with
  | None => {| data := data; calls := []; threw := true |}
  | Some what =>
    let cylinderData := cylinderData what bondData in
    let textData := textData this what data in
    match textBuffer this with
    | None => {| data := data; calls := []; threw := true |}
    | Some _ =>
      match cylinderBuffer this with
      | None =>
        {| data := data; calls := [(this_textBuffer, textData)]; threw := true |}
      | Some _ =>
        {| data := data;
           calls := [(this_textBuffer, textData);
                     (this_cylinderBuffer, cylinderData)];
           threw := false |}
      end
    end
  end.

End DistanceUpdate.
Arguments Outcome num : clear implicits.
End DistanceUpdate.

(* ===================================================================== *)
(** * HyperballStickImpostorBuffer, continued: [matrixCalc] *)
(* ===================================================================== *)

Module MatrixCalc.
Section MatrixCalc.
(** The matrices of three.js. *)
Context {Matrix4 : Type}.

(** The methods of [THREE.Matrix4] that [matrixCalc] calls, as functions
    of the matrices they read: [a.getInverse( m )] leaves the inverse of
    [m] in [a], [a.transpose()] the transpose of [a], and
    [a.multiplyMatrices( m, n )] the product of [m] and [n]. *)
Class Matrix4Methods := {
  getInverse       : Matrix4 → Matrix4;
  transpose        : Matrix4 → Matrix4;
  multiplyMatrices : Matrix4 → Matrix4 → Matrix4;
}.
Context `{Matrix4Methods}.

(** The uniforms of [object.material.uniforms] that [matrixCalc] looks at:
    the [value] of each one that is there. *)
Record Uniforms := {
  modelViewMatrixInverse           : option Matrix4;
  modelViewMatrixInverseTranspose  : option Matrix4;
  modelViewProjectionMatrix        : option Matrix4;
  modelViewProjectionMatrixInverse : option Matrix4;
}.

(** The state [matrixCalc] acts on: the uniforms and the scratch [matrix]
    of the constructor's closure. *)
Record State := {
  u      : Uniforms;
  matrix : Matrix4;
}.

(** [matrixCalc( object, camera )], given [object.modelViewMatrix] and
    [camera.projectionMatrix]. *)
Definition matrixCalc (object_modelViewMatrix camera_projectionMatrix : Matrix4)
    (st : State) : State :=
  let u0 := u st in
  let modelViewMatrixInverse' :=
    match modelViewMatrixInverse u0 with
    | Some _ => Some (getInverse object_modelViewMatrix)
    | None => None
    end in
  let modelViewMatrixInverseTranspose' :=
    match modelViewMatrixInverseTranspose u0 with
    | Some _ =>
      match modelViewMatrixInverse' with
      | Some value => Some (transpose value)
      | None => Some (transpose (getInverse object_modelViewMatrix))
      end
    | None => None
    end in
  let modelViewProjectionMatrix' :=
    match modelViewProjectionMatrix u0 with
    | Some _ =>
      Some (multiplyMatrices camera_projectionMatrix object_modelViewMatrix)
    | None => None
    end in
  let '(modelViewProjectionMatrixInverse', matrix') :=
    match modelViewProjectionMatrixInverse u0 with
    | Some _ =>
      match modelViewProjectionMatrix' with
      | Some value =>
        let matrix := value in
        (Some (getInverse matrix), matrix)
      | None =>
        let matrix :=
          multiplyMatrices camera_projectionMatrix object_modelViewMatrix in
        (Some (getInverse matrix), matrix)
      end
    | None => (None, matrix st)
    end in
  {| u := {| modelViewMatrixInverse := modelViewMatrixInverse';
             modelViewMatrixInverseTranspose := modelViewMatrixInverseTranspose';
             modelViewProjectionMatrix := modelViewProjectionMatrix';
             modelViewProjectionMatrixInverse := modelViewProjectionMatrixInverse' |};
     matrix := matrix' |}.

End MatrixCalc.
Arguments Matrix4Methods Matrix4 : clear implicits.
Arguments Uniforms Matrix4 : clear implicits.
Arguments State Matrix4 : clear implicits.
End MatrixCalc.

(* ===================================================================== *)
(** * ViewerControls, continued *)
(* ===================================================================== *)

Module ViewerScene.
Import ViewerControls.
Section ViewerScene.
Context `{Number num}.
Context {Rotation Rest Matrix4 : Type}.
Context `{!ViewerMethods num Rotation Rest}.

(** What the scene mutators read from the viewer and the stage (absent
    from the sources): [viewer.boundingBox.isEmpty()],
    [viewer.boundingBox.center( target )] and
    [stage.getOptimalDistance()]. *)
Class SceneMethods := {
  boundingBox_isEmpty : Viewer num Rotation Rest → bool;
  boundingBox_center  : Viewer num Rotation Rest → Vector3 num;
  getOptimalDistance  : Viewer num Rotation Rest → num;
}.

(** The three.js methods the rotation mutators call, as functions of what
    they read: [rotationGroup.matrix], [a.getInverse( m )],
    [v.applyMatrix4( m )], [m.determinant()], the test [d < 0],
    [m.scale( v )], and, on the rotation group,
    [rotateOnAxis( axis, angle )], [setRotationFromMatrix( m )] and
    [applyMatrix( m )]. *)
Class RotationMethods := {
  rotationGroup_matrix  : Rotation → Matrix4;
  getInverse            : Matrix4 → Matrix4;
  applyMatrix4          : Vector3 num → Matrix4 → Vector3 num;
  determinant           : Matrix4 → num;
  negative              : num → bool;
  scale                 : Matrix4 → Vector3 num → Matrix4;
  rotateOnAxis          : Rotation → Vector3 num → num → Rotation;
  setRotationFromMatrix : Rotation → Matrix4 → Rotation;
  rotation_applyMatrix  : Rotation → Matrix4 → Rotation;
}.
Context `{!SceneMethods} `{!RotationMethods}.

(** The viewer once the rotation group is [value]. *)
Definition set_rotationGroup (viewer : Viewer num Rotation Rest) (value : Rotation)
    : Viewer num Rotation Rest :=
  {| rotationGroup := value;
     translationGroup_position := translationGroup_position viewer;
     camera_position := camera_position viewer;
     rest := rest viewer |}.

(** [negateVector], the constant [new Vector3( -1, -1, -1 )]. *)
Definition negateVector : Vector3 num :=
  {| x := num_decimal (-1) 0; y := num_decimal (-1) 0; z := num_decimal (-1) 0 |}.

(** [spin( axis, angle )] *)
Definition spin (axis : Vector3 num) (angle : num)
    (viewer : Viewer num Rotation Rest) : Viewer num Rotation Rest :=
  let tmpRotateMatrix := getInverse (rotationGroup_matrix (rotationGroup viewer)) in
  let tmpRotateVector := applyMatrix4 axis tmpRotateMatrix in
  requestRender
    (set_rotationGroup viewer
       (rotateOnAxis (rotationGroup viewer) tmpRotateVector angle)).

(** [align( basis )] *)
Definition align (basis : Matrix4) (viewer : Viewer num Rotation Rest)
    : Viewer num Rotation Rest :=
  let tmpAlignMatrix := getInverse basis in
  let tmpAlignMatrix :=
    if negative (determinant tmpAlignMatrix)
    then scale tmpAlignMatrix negateVector
    else tmpAlignMatrix in
  requestRender
    (set_rotationGroup viewer
       (setRotationFromMatrix (rotationGroup viewer) tmpAlignMatrix)).

(** [applyMatrix( matrix )] *)
Definition applyMatrix (matrix : Matrix4) (viewer : Viewer num Rotation Rest)
    : Viewer num Rotation Rest :=
  requestRender
    (set_rotationGroup viewer (rotation_applyMatrix (rotationGroup viewer) matrix)).

(** [centerScene()] *)
Definition centerScene (viewer : Viewer num Rotation Rest)
    : Viewer num Rotation Rest :=
  if negb (boundingBox_isEmpty viewer)
  then center (boundingBox_center viewer) viewer
  else viewer.

(** [zoomScene()] *)
Definition zoomScene (viewer : Viewer num Rotation Rest)
    : Viewer num Rotation Rest :=
  distance (num_neg (getOptimalDistance viewer)) viewer.

(** [centerView( zoom, position )]; an undefined [position] is [None]. *)
Definition centerView (zoom : bool) (position : option (Vector3 num))
    (viewer : Viewer num Rotation Rest) : Viewer num Rotation Rest :=
  let viewer :=
    match position with
    | None => centerScene viewer
    | Some position => center position viewer
    end in
  if zoom then zoomScene viewer else viewer.

(** [alignView( basis, position, zoom )] *)
Definition alignView (basis : Matrix4) (position : option (Vector3 num))
    (zoom : bool) (viewer : Viewer num Rotation Rest) : Viewer num Rotation Rest :=
  let viewer := align basis viewer in
  centerView zoom position viewer.

End ViewerScene.
Arguments SceneMethods num Rotation Rest : clear implicits.
Arguments RotationMethods num Rotation Matrix4 : clear implicits.
End ViewerScene.

(* ===================================================================== *)
(** * The [init] methods *)
(* ===================================================================== *)

(** Whether a JavaScript number is truthy (neither zero nor NaN). *)
Class Truthiness (num : Type) := {
  truthy : num → bool;
}.

Module Js.
Section Js.
Context {num : Type} `{!Truthiness num}.

(** [a || b] for a number [a] that may be undefined. *)
Definition number_or (a : option num) (b : num) : num :=
  match a with
  | Some a => if truthy a then a else b
  | None => b
  end.

(** [a || b] for a string [a] that may be undefined: the empty string is
    falsy. *)
Definition string_or (a : option string) (b : string) : string :=
  match a with
  | Some a => if decide (a = EmptyString) then b else a
  | None => b
  end.

(** [a || false] for a boolean [a] that may be undefined. *)
Definition boolean_or_false (a : option bool) : bool :=
  match a with
  | Some a => a
  | None => false
  end.

End Js.
End Js.

Module RocketInit.
Section RocketInit.
Context `{Number num} `{!Truthiness num}.

(** The keys of [params] that [init] reads; a missing key is [None]. *)
Record Params := {
  colorScheme     : option string;
  radius          : option num;
  scale           : option num;
  quality         : option string;
  radiusSegments  : option Z;
  disableImpostor : option bool;
  localAngle      : option num;
  centerDist      : option num;
  ssBorder        : option bool;
}.

(** [{}] *)
Definition empty : Params :=
  {| colorScheme := None; radius := None; scale := None; quality := None;
     radiusSegments := None; disableImpostor := None; localAngle := None;
     centerDist := None; ssBorder := None |}.

(** What [init] leaves: the fields of [this] it assigns, and the object
    [p] it hands on to [StructureRepresentation.prototype.init]. *)
Record Initialised := {
  this_radiusSegments  : Z;
  this_disableImpostor : bool;
  this_localAngle      : num;
  this_centerDist      : num;
  this_ssBorder        : bool;
  p                    : Params;
}.

(** [init( params )] of the rocket representation, up to the call of the
    base method. *)
Definition init (params : option Params) : Initialised :=
  let p := default empty params in
  let p :=
    {| colorScheme := Some (Js.string_or (colorScheme p) "sstruc");
       radius := Some (Js.number_or (radius p) (num_decimal 15 1));
       scale := Some (Js.number_or (scale p) (num_decimal 1 0));
       quality := quality p;
       radiusSegments := radiusSegments p;
       disableImpostor := disableImpostor p;
       localAngle := localAngle p;
       centerDist := centerDist p;
       ssBorder := ssBorder p |} in
  let this_radiusSegments :=
    if decide (quality p = Some "low") then 5%Z
    else if decide (quality p = Some "medium") then 10%Z
    else if decide (quality p = Some "high") then 20%Z
    else match radiusSegments p with
         | Some radiusSegments => radiusSegments
         | None => 10%Z
         end in
  {| this_radiusSegments := this_radiusSegments;
     this_disableImpostor := Js.boolean_or_false (disableImpostor p);
     this_localAngle := Js.number_or (localAngle p) (num_decimal 30 0);
     this_centerDist := Js.number_or (centerDist p) (num_decimal 25 1);
     this_ssBorder :=
       match ssBorder p with
       | None => false
       | Some ssBorder => ssBorder
       end;
     p := p |}.

End RocketInit.
Arguments Params num : clear implicits.
Arguments Initialised num : clear implicits.
End RocketInit.

Module DistanceInit.
Section DistanceInit.
Context `{Number num} `{!Truthiness num}.

(** The keys of [params] that [init] reads; a missing key is [None]. *)
Record Params := {
  radius          : option num;
  quality         : option string;
  radiusSegments  : option Z;
  disableImpostor : option bool;
  fontFamily      : option string;
  fontStyle       : option string;
  fontWeight      : option string;
  sdf             : option bool;
  labelSize       : option num;
  labelColor      : option num;
  labelVisible    : option bool;
  atomPair        : option (list (string * string));
}.

(** [{}] *)
Definition empty : Params :=
  {| radius := None; quality := None; radiusSegments := None;
     disableImpostor := None; fontFamily := None; fontStyle := None;
     fontWeight := None; sdf := None; labelSize := None; labelColor := None;
     labelVisible := None; atomPair := None |}.

(** What [init] leaves: the fields of [this] it assigns, and the object
    [p] it hands on to [StructureRepresentation.prototype.init]. *)
Record Initialised := {
  this_radiusSegments  : Z;
  this_disableImpostor : bool;
  this_fontFamily      : string;
  this_fontStyle       : string;
  this_fontWeight      : string;
  this_sdf             : bool;
  this_labelSize       : num;
  this_labelColor      : num;
  this_labelVisible    : bool;
  this_atomPair        : list (string * string);
  p                    : Params;
}.

(** [this.defaultSize], the constant [0.15]. *)
Definition defaultSize : num := num_decimal 15 2.

(** [init( params )] of the distance representation, up to the call of
    the base method; [Browser] is the global of [globals.js]. *)
Definition init (Browser : string) (params : option Params) : Initialised :=
  let p := default empty params in
  let p :=
    {| radius := Some (Js.number_or (radius p) defaultSize);
       quality := quality p;
       radiusSegments := radiusSegments p;
       disableImpostor := disableImpostor p;
       fontFamily := fontFamily p;
       fontStyle := fontStyle p;
       fontWeight := fontWeight p;
       sdf := sdf p;
       labelSize := labelSize p;
       labelColor := labelColor p;
       labelVisible := labelVisible p;
       atomPair := atomPair p |} in
  let this_radiusSegments :=
    if decide (quality p = Some "low") then 5%Z
    else if decide (quality p = Some "medium") then 10%Z
    else if decide (quality p = Some "high") then 20%Z
    else match radiusSegments p with
         | Some radiusSegments => radiusSegments
         | None => 10%Z
         end in
  {| this_radiusSegments := this_radiusSegments;
     this_disableImpostor := Js.boolean_or_false (disableImpostor p);
     this_fontFamily := Js.string_or (fontFamily p) "sans-serif";
     this_fontStyle := Js.string_or (fontStyle p) "normal";
     this_fontWeight := Js.string_or (fontWeight p) "bold";
     this_sdf :=
       match sdf p with
       | Some sdf => sdf
       | None => bool_decide (Browser ≠ "Firefox")
       end;
     this_labelSize := Js.number_or (labelSize p) (num_decimal 2 0);
     this_labelColor := Js.number_or (labelColor p) (num_decimal 16777215 0);
     this_labelVisible :=
       match labelVisible p with
       | Some labelVisible => labelVisible
       | None => true
       end;
     this_atomPair :=
       match atomPair p with
       | Some atomPair => atomPair
       | None => []
       end;
     p := p |}.

End DistanceInit.
Arguments Params num : clear implicits.
Arguments Initialised num : clear implicits.
End DistanceInit.

(* ===================================================================== *)
(** * Specification vocabulary *)
(* ===================================================================== *)

(** The notions the statements below are phrased in. *)

Module RocketSpec.
Import RocketRepresentation.
Section RocketSpec.
Context `{Number num}.

(** The eligibility predicate in the words of the specification: at least
    four residues, and not nucleic. *)
Definition eligible (polymer : Polymer num) : bool :=
  bool_decide (4 ≤ residueCount polymer)%Z && negb (isNucleic polymer).

(** The number of axis segments of an axis. *)
Definition segmentCount (axis : Axis num) : nat := length (size axis).

(** The running offset after a list of axes: the sum of their segment
    counts. *)
Definition offsetAfter (axes : list (Axis num)) : nat :=
  sum_list (segmentCount <$> axes).

(** The contract of [getAxis]: flat arrays with one entry per axis segment,
    of stride three for points and colors. *)
Definition wellFormed (axis : Axis num) : Prop :=
  length (begin axis) = segmentCount axis * 3 ∧
  length (end_ axis) = segmentCount axis * 3 ∧
  length (color axis) = segmentCount axis * 3 ∧
  length (pickingColor axis) = segmentCount axis * 3.

(** The axes of the eligible polymers, in polymer iteration order. *)
Definition eligibleAxes (this : t num) (polymers : list (Polymer num))
    : list (Axis num) :=
  (λ polymer, axisOf this (Helixbundle_new polymer))
    <$> List.filter eligible polymers.

(** The state of the copy loop of [createData] once the axes [done] are
    copied and [room] segments are still to be filled. *)
Definition filled (done : list (Axis num)) (room : nat) : Axis num :=
  {| begin := mjoin (begin <$> done) ++ TypedArray.alloc (room * 3);
     end_ := mjoin (end_ <$> done) ++ TypedArray.alloc (room * 3);
     size := mjoin (size <$> done) ++ TypedArray.alloc room;
     color := mjoin (color <$> done) ++ TypedArray.alloc (room * 3);
     pickingColor := mjoin (pickingColor <$> done) ++ TypedArray.alloc (room * 3) |}.

(** The concatenated axis data of a list of axes. *)
Definition concatenated (axes : list (Axis num)) : Axis num :=
  {| begin := mjoin (begin <$> axes);
     end_ := mjoin (end_ <$> axes);
     size := mjoin (size <$> axes);
     color := mjoin (color <$> axes);
     pickingColor := mjoin (pickingColor <$> axes) |}.

(** The axes the update path recomputes, one per recorded helix bundle. *)
Definition recomputed (this : t num) (helixbundles : list (Helixbundle num))
    : list (Axis num) :=
  axisOf this <$> helixbundles.

(** The object [cylinderData] that [updateData] hands to [setAttributes]
    when the change-set asks for color or radius. *)
Definition cylinderData (what : What.t) (axisData : Axis num)
    : gmap string (list num) :=
  let cylinderData : gmap string (list num) := ∅ in
  let cylinderData :=
    if What.color what
    then <["color2" := color axisData]> (<["color" := color axisData]> cylinderData)
    else cylinderData in
  if What.radius what || What.scale what
  then <["radius" := size axisData]> cylinderData
  else cylinderData.

End RocketSpec.
End RocketSpec.

Module DistanceSpec.
Import DistanceRepresentation.
Section DistanceSpec.
Context `{Number num}.

(** The representatives of a pair: the first index of either side, when
    both sides resolve. *)
Definition representatives (sview : StructureView num) (pair : string * string)
    : option (nat * nat) :=
  index1 ← head (getAtomIndices sview pair.1);
  index2 ← head (getAtomIndices sview pair.2);
  Some (index1, index2).

(** A pair resolves when neither side selects the empty set. *)
Definition Resolves (sview : StructureView num) (pair : string * string) : Prop :=
  getAtomIndices sview pair.1 ≠ [] ∧ getAtomIndices sview pair.2 ≠ [].

(** Whether a pair resolves is decidable. *)
#[global] Instance Resolves_dec (sview : StructureView num) (pair : string * string)
    : Decision (Resolves sview pair) :=
  and_dec (not_dec (decide (getAtomIndices sview pair.1 = [])))
          (not_dec (decide (getAtomIndices sview pair.2 = []))).

(** The label text of two representatives. *)
Definition label (sview : StructureView num) (reps : nat * nat) : string :=
  toFixed (distanceTo sview reps.1 reps.2) 2.

(** The componentwise midpoint of two representatives. *)
Definition midpoint (sview : StructureView num) (reps : nat * nat) : list num :=
  [ num_half (num_add (atom_x sview reps.1) (atom_x sview reps.2));
    num_half (num_add (atom_y sview reps.1) (atom_y sview reps.2));
    num_half (num_add (atom_z sview reps.1) (atom_z sview reps.2)) ].

(** The bond that joins two representatives. *)
Definition bond (reps : nat * nat) : Bond := (reps.1, reps.2, 1).

(** The state of the loop of [getDistanceData] over [n] pairs once the
    pairs [done] are processed. *)
Definition after (sview : StructureView num) (n : nat)
    (done : list (string * string)) : Loop num :=
  let reps := omap (representatives sview) done in
  {| j := length done - length reps;
     text := (Some ∘ label sview <$> reps) ++ JsArray.alloc (n - length reps);
     position :=
       mjoin (midpoint sview <$> reps) ++ TypedArray.alloc ((n - length reps) * 3);
     bondStore := bond <$> reps |}.

End DistanceSpec.
End DistanceSpec.

Module HyperballSpec.
Import HyperballStickImpostorBuffer.
Section HyperballSpec.
Context `{Number num}.

(** The buffer before the picking branch of the constructor. *)
Definition unpicked (position1 position2 color color2 radius1 radius2 : list num)
    (params : option (Params num)) : Buffer.t num :=
  new position1 position2 color color2 radius1 radius2 None None params.

End HyperballSpec.
End HyperballSpec.

Module RocketUpdateSpec.
Import RocketRepresentation.
Section RocketUpdateSpec.
Context `{Number num}.

(** The five arrays of two axis data records have the same lengths. *)
Definition sameLengths (a b : Axis num) : Prop :=
  length (begin a) = length (begin b) ∧
  length (end_ a) = length (end_ b) ∧
  length (size a) = length (size b) ∧
  length (color a) = length (color b) ∧
  length (pickingColor a) = length (pickingColor b).

End RocketUpdateSpec.
End RocketUpdateSpec.

Module ViewerSpec.
Import ViewerControls.
Section ViewerSpec.
Context {num Rotation Rest : Type}.

(** A method of the viewer keeps the pose when it writes neither the
    rotation group, nor the translation, nor the camera position. *)
Definition keepsPose
    (method : Viewer num Rotation Rest → Viewer num Rotation Rest) : Prop :=
  ∀ viewer,
    rotationGroup (method viewer) = rotationGroup viewer ∧
    translationGroup_position (method viewer) = translationGroup_position viewer ∧
    camera_position (method viewer) = camera_position viewer.

End ViewerSpec.
End ViewerSpec.

Module OrientationSpec.
Import ViewerControls ViewerOrientation.
Section OrientationSpec.
Context `{Number num}.
Context {Rotation Rest Matrix4 Quaternion : Type}.

(** The two three.js operations the round trip is phrased in:
    [compose( position, quaternion, scale )], which makes a matrix of a
    translation, a rotation and a scale, and [updateMatrix()], by which
    an object refreshes its [matrix] from its position, quaternion and
    scale; three.js calls it on every object of the scene when the scene
    is rendered. *)
Class ComposeMethods := {
  compose      : Vector3 num → Quaternion → Vector3 num → Matrix4;
  updateMatrix : Rotation → Rotation;
}.
Context `{!ComposeMethods}.

(** The origin, where the rotation group sits. *)
Definition origin : Vector3 num :=
  {| x := num_zero; y := num_zero; z := num_zero |}.

(** The scale of the rotation group: one along every axis. *)
Definition unit : Vector3 num :=
  {| x := num_decimal 1 0; y := num_decimal 1 0; z := num_decimal 1 0 |}.



End OrientationSpec.
Arguments ComposeMethods num Rotation Matrix4 Quaternion : clear implicits.
End OrientationSpec.

(* ===================================================================== *)
(** * Concrete inputs *)
(* ===================================================================== *)

Module Examples.

(** A model of the numbers on the integers, with truncating division and
    integer square root, to run the definitions on concrete inputs. *)
#[export] Instance Number_Z : Number Z := {|
  num_zero := 0%Z;
  num_add := Z.add;
  num_sub := Z.sub;
  num_mul := Z.mul;
  num_neg := Z.opp;
  num_half := λ a, (a / 2)%Z;
  num_sqrt := Z.sqrt;
  toFixed := λ a digits,
    pretty a +:+ "." +:+ String.concat EmptyString (replicate digits "0");
  num_decimal := λ m d, (m / 10 ^ Z.of_nat d)%Z;
|}.

(** An axis of [n] segments whose entries all hold [v]. *)
Definition axisZ (n : nat) (v : Z) : RocketRepresentation.Axis Z :=
  {| RocketRepresentation.begin := replicate (n * 3) v;
     RocketRepresentation.end_ := replicate (n * 3) (v + 1)%Z;
     RocketRepresentation.size := replicate n (v + 2)%Z;
     RocketRepresentation.color := replicate (n * 3) (v + 3)%Z;
     RocketRepresentation.pickingColor := replicate (n * 3) (v + 4)%Z |}.

(** A polymer whose axis has [n] segments; the entries of the axis are
    the radius it is asked for, shifted by [v]. *)
Definition polymerZ (residues : Z) (nucleic : bool) (n : nat) (v : Z)
    : RocketRepresentation.Polymer Z :=
  {| RocketRepresentation.residueCount := residues;
     RocketRepresentation.isNucleic := nucleic;
     RocketRepresentation.Helixbundle_new :=
       {| RocketRepresentation.getAxis := λ _ _ _ _ radius _, axisZ n (v + radius)%Z |} |}.

(** A rocket representation with the given radius parameter. *)
Definition rocketZ (radius : Z) : RocketRepresentation.t Z :=
  {| RocketRepresentation.localAngle := 30%Z;
     RocketRepresentation.centerDist := 2%Z;
     RocketRepresentation.ssBorder := false;
     RocketRepresentation.radiusSegments := 10%Z;
     RocketRepresentation.disableImpostor := false;
     RocketRepresentation.getColorParams := "sstruc";
     RocketRepresentation.radius := radius;
     RocketRepresentation.scale := 1%Z |}.

(** Polymers with segment counts 3, 0 and 5, and two polymers that are not
    eligible. *)
Definition polymersZ : list (RocketRepresentation.Polymer Z) :=
  [polymerZ 12 false 3 100; polymerZ 3 false 7 200; polymerZ 4 false 0 300;
   polymerZ 40 true 2 400; polymerZ 20 false 5 500].

(** A structure view with two atoms: atom 0, named A, at the origin and
    atom 1, named B, at (6, 8, 0).  The selection [AB] matches both, any
    other selection matches nothing. *)
Definition sviewZ : DistanceRepresentation.StructureView Z :=
  {| DistanceRepresentation.atomCount := 2;
     DistanceRepresentation.getAtomIndices := λ sele,
       if decide (sele = "A") then [0]
       else if decide (sele = "B") then [1]
       else if decide (sele = "AB") then [0; 1]
       else [];
     DistanceRepresentation.atom_x := λ i, if decide (i = 0) then 0%Z else 6%Z;
     DistanceRepresentation.atom_y := λ i, if decide (i = 0) then 0%Z else 8%Z;
     DistanceRepresentation.atom_z := λ i, 0%Z;
     DistanceRepresentation.getBondData := λ _ _ bondStore,
       {| DistanceRepresentation.position1 :=
            mjoin ((λ _, [0; 0; 0]%Z) <$> bondStore);
          DistanceRepresentation.position2 :=
            mjoin ((λ _, [6; 8; 0]%Z) <$> bondStore);
          DistanceRepresentation.color1 := mjoin ((λ _, [1; 1; 1]%Z) <$> bondStore);
          DistanceRepresentation.color2 := mjoin ((λ _, [1; 1; 1]%Z) <$> bondStore);
          DistanceRepresentation.radius := (λ _, 1%Z) <$> bondStore;
          DistanceRepresentation.pickingColor1 := None;
          DistanceRepresentation.pickingColor2 := None |} |}.

(** A distance representation before [create]. *)
Definition distanceZ (atomPair : list (string * string))
    : DistanceRepresentation.t Z :=
  {| DistanceRepresentation.structureView := sviewZ;
     DistanceRepresentation.atomPair := atomPair;
     DistanceRepresentation.labelSize := 2%Z;
     DistanceRepresentation.labelColor := (1, 1, 1)%Z;
     DistanceRepresentation.labelVisible := true;
     DistanceRepresentation.radiusSegments := 10%Z;
     DistanceRepresentation.disableImpostor := false;
     DistanceRepresentation.textBuffer := None;
     DistanceRepresentation.cylinderBuffer := None;
     DistanceRepresentation.dataList := [] |}.

(** The change-set [{ color: true }]. *)
Definition whatColor : What.t :=
  {| What.position := false; What.color := true; What.radius := false;
     What.scale := false; What.labelSize := false; What.labelColor := false |}.

(** The change-set [{ position: true }]. *)
Definition whatPosition : What.t :=
  {| What.position := true; What.color := false; What.radius := false;
     What.scale := false; What.labelSize := false; What.labelColor := false |}.

(** Rocket data without any axis. *)
Definition emptyDataZ : RocketRepresentation.Data Z :=
  {| RocketRepresentation.bufferList := [];
     RocketRepresentation.axisList := [];
     RocketRepresentation.helixbundleList := [];
     RocketRepresentation.axisData := axisZ 0 0 |}.

(** The rocket data built from the example polymers. *)
Definition dataZ : RocketRepresentation.Data Z :=
  default emptyDataZ (RocketRepresentation.createData (rocketZ 1) polymersZ).

(** A viewer whose remaining state is a zoom factor and the flag of the
    pending render request; [updateZoom] derives the zoom factor from the
    camera depth and [requestRender] raises the flag. *)
Definition viewerZ : ViewerControls.Viewer Z Z (Z * bool) :=
  {| ViewerControls.rotationGroup := 7%Z;
     ViewerControls.translationGroup_position :=
       {| ViewerControls.x := 1%Z; ViewerControls.y := 2%Z; ViewerControls.z := 3%Z |};
     ViewerControls.camera_position :=
       {| ViewerControls.x := 0%Z; ViewerControls.y := 0%Z; ViewerControls.z := (-10)%Z |};
     ViewerControls.rest := (10%Z, false) |}.

(** The methods of that viewer. *)
#[export] Instance viewerMethodsZ : ViewerControls.ViewerMethods Z Z (Z * bool) :=
  {| ViewerControls.updateZoom := λ v,
       {| ViewerControls.rotationGroup := ViewerControls.rotationGroup v;
          ViewerControls.translationGroup_position :=
            ViewerControls.translationGroup_position v;
          ViewerControls.camera_position := ViewerControls.camera_position v;
          ViewerControls.rest :=
            ((- ViewerControls.z (ViewerControls.camera_position v))%Z,
             (ViewerControls.rest v).2) |};
     ViewerControls.requestRender := λ v,
       {| ViewerControls.rotationGroup := ViewerControls.rotationGroup v;
          ViewerControls.translationGroup_position :=
            ViewerControls.translationGroup_position v;
          ViewerControls.camera_position := ViewerControls.camera_position v;
          ViewerControls.rest := ((ViewerControls.rest v).1, true) |} |}.

End Examples.

Module MoreExamples.
Import Examples.

(** The change-set [{ scale: true }]. *)
Definition whatScale : What.t :=
  {| What.position := false; What.color := false; What.radius := false;
     What.scale := true; What.labelSize := false; What.labelColor := false |}.

(** The change-set [{ radius: true }]. *)
Definition whatRadius : What.t :=
  {| What.position := false; What.color := false; What.radius := true;
     What.scale := false; What.labelSize := false; What.labelColor := false |}.

(** The change-set [{ color: true, radius: true }]. *)
Definition whatColorRadius : What.t :=
  {| What.position := false; What.color := true; What.radius := true;
     What.scale := false; What.labelSize := false; What.labelColor := false |}.

(** Rocket data that records one helix bundle of two segments in arrays
    that have room for [room] segments. *)
Definition roomDataZ (room : nat) : RocketRepresentation.Data Z :=
  {| RocketRepresentation.bufferList :=
       [CylinderBuffer.new [] [] [] [] [] None None];
     RocketRepresentation.axisList := [axisZ 2 0];
     RocketRepresentation.helixbundleList :=
       [RocketRepresentation.Helixbundle_new (polymerZ 10 false 2 0)];
     RocketRepresentation.axisData := axisZ room 9 |}.

(** The example view with every selection cut down to its first match. *)
Definition sviewFirstZ : DistanceRepresentation.StructureView Z :=
  {| DistanceRepresentation.atomCount := 2;
     DistanceRepresentation.getAtomIndices := λ sele,
       take 1 (DistanceRepresentation.getAtomIndices sviewZ sele);
     DistanceRepresentation.atom_x := DistanceRepresentation.atom_x sviewZ;
     DistanceRepresentation.atom_y := DistanceRepresentation.atom_y sviewZ;
     DistanceRepresentation.atom_z := DistanceRepresentation.atom_z sviewZ;
     DistanceRepresentation.getBondData :=
       DistanceRepresentation.getBondData sviewZ |}.

(** A distance representation after [create], on one pair that resolves
    and one that does not. *)
Definition distanceMadeZ : DistanceRepresentation.t Z :=
  DistanceRepresentation.create (distanceZ [("A", "B"); ("A", "Z")]).

(** An entry over the example view that records nothing yet. *)
Definition staleEntryZ : DistanceRepresentation.Data Z :=
  {| DistanceRepresentation.sview := sviewZ;
     DistanceRepresentation.bondSet := [];
     DistanceRepresentation.entry_bondStore := [];
     DistanceRepresentation.entry_position := [];
     DistanceRepresentation.bufferList := [] |}.

(** A scene over the example viewer whose bounding box is centered at
    (4, 5, 6) and whose optimal distance is 25. *)
#[export] Instance sceneMethodsZ : ViewerScene.SceneMethods Z Z (Z * bool) :=
  {| ViewerScene.boundingBox_isEmpty := λ _, false;
     ViewerScene.boundingBox_center := λ _,
       {| ViewerControls.x := 4%Z; ViewerControls.y := 5%Z; ViewerControls.z := 6%Z |};
     ViewerScene.getOptimalDistance := λ _, 25%Z |}.

(** A scene over the example viewer without any component: the bounding
    box is empty. *)
Definition emptySceneZ : ViewerScene.SceneMethods Z Z (Z * bool) :=
  {| ViewerScene.boundingBox_isEmpty := λ _, true;
     ViewerScene.boundingBox_center := λ _,
       {| ViewerControls.x := 0%Z; ViewerControls.y := 0%Z; ViewerControls.z := 0%Z |};
     ViewerScene.getOptimalDistance := λ _, 0%Z |}.

(** Rotations in the plane: a rotation and a matrix are an angle, the
    inverse is the opposite angle, and the determinant is never
    negative. *)
#[export] Instance rotationMethodsZ : ViewerScene.RotationMethods Z Z Z :=
  {| ViewerScene.rotationGroup_matrix := λ rotation, rotation;
     ViewerScene.getInverse := Z.opp;
     ViewerScene.applyMatrix4 := λ vector _, vector;
     ViewerScene.determinant := λ _, 1%Z;
     ViewerScene.negative := λ d, bool_decide (d < 0)%Z;
     ViewerScene.scale := λ matrix _, matrix;
     ViewerScene.rotateOnAxis := λ rotation _ angle, (rotation + angle)%Z;
     ViewerScene.setRotationFromMatrix := λ _ matrix, matrix;
     ViewerScene.rotation_applyMatrix := λ rotation matrix, (rotation + matrix)%Z |}.

(** The point (1, 1, 1). *)
Definition onesZ : ViewerControls.Vector3 Z :=
  {| ViewerControls.x := 1%Z; ViewerControls.y := 1%Z; ViewerControls.z := 1%Z |}.

(** Truthiness on the integers: every number but zero. *)
#[export] Instance Truthiness_Z : Truthiness Z :=
  {| truthy := λ a, negb (a =? 0)%Z |}.

(** A model of the numbers on the integers read as thousandths, in which
    the decimal literals of the sources are exact. *)
Definition numberMilliZ : Number Z :=
  {| num_zero := 0%Z;
     num_add := Z.add;
     num_sub := Z.sub;
     num_mul := λ a b, (a * b / 1000)%Z;
     num_neg := Z.opp;
     num_half := λ a, (a / 2)%Z;
     num_sqrt := λ a, Z.sqrt (a * 1000);
     toFixed := λ a digits, pretty (a / 1000)%Z;
     num_decimal := λ m d, (m * 1000 / 10 ^ Z.of_nat d)%Z |}.

End MoreExamples.

Module OrientationExamples.
Import Examples.

(** Matrices that are the composition of a position, a rotation in the
    plane (an angle) and a scale, kept as that triple. *)
Definition MatrixZ : Type := ViewerControls.Vector3 Z * Z * ViewerControls.Vector3 Z.

(** A rotation group: its quaternion (an angle) and its matrix. *)
Definition RotationZ : Type := Z * MatrixZ.

(** three.js on these matrices: [setRotationFromQuaternion] writes the
    quaternion and leaves the matrix, which only [updateMatrix]
    refreshes. *)
#[export] Instance orientationMethodsZ
    : ViewerOrientation.OrientationMethods Z RotationZ MatrixZ Z :=
  {| ViewerOrientation.decompose := λ m, m;
     ViewerOrientation.scale := λ m v,
       (m.1.1, m.1.2,
        {| ViewerControls.x := (ViewerControls.x m.2 * ViewerControls.x v)%Z;
           ViewerControls.y := (ViewerControls.y m.2 * ViewerControls.y v)%Z;
           ViewerControls.z := (ViewerControls.z m.2 * ViewerControls.z v)%Z |});
     ViewerOrientation.setPosition := λ m v, (v, m.1.2, m.2);
     ViewerOrientation.setRotationFromQuaternion := λ rotation q, (q, rotation.2);
     ViewerOrientation.rotationGroup_matrix := λ rotation, rotation.2 |}.

(** [compose] and [updateMatrix] on these matrices, for a rotation group
    at the origin with unit scale. *)
#[export] Instance composeMethodsZ : OrientationSpec.ComposeMethods Z RotationZ MatrixZ Z :=
  {| OrientationSpec.compose := λ p q s, (p, q, s);
     OrientationSpec.updateMatrix := λ rotation,
       (rotation.1, (OrientationSpec.origin, rotation.1, OrientationSpec.unit)) |}.

(** The methods of a viewer over such a rotation group: [updateZoom]
    derives the zoom factor from the camera depth and [requestRender]
    raises the flag of the pending render request; no render happens
    in either. *)
#[export] Instance viewerMethodsRotationZ
    : ViewerControls.ViewerMethods Z RotationZ (Z * bool) :=
  {| ViewerControls.updateZoom := λ v,
       {| ViewerControls.rotationGroup := ViewerControls.rotationGroup v;
          ViewerControls.translationGroup_position :=
            ViewerControls.translationGroup_position v;
          ViewerControls.camera_position := ViewerControls.camera_position v;
          ViewerControls.rest :=
            ((- ViewerControls.z (ViewerControls.camera_position v))%Z,
             (ViewerControls.rest v).2) |};
     ViewerControls.requestRender := λ v,
       {| ViewerControls.rotationGroup := ViewerControls.rotationGroup v;
          ViewerControls.translationGroup_position :=
            ViewerControls.translationGroup_position v;
          ViewerControls.camera_position := ViewerControls.camera_position v;
          ViewerControls.rest := ((ViewerControls.rest v).1, true) |} |}.



End OrientationExamples.

(* ===================================================================== *)
(** * Lemmas *)
(* ===================================================================== *)

Module TypedArrayFacts.

Lemma set_length {A} (dst src dst' : list A) offset :
  TypedArray.set dst src offset = Some dst' → length dst' = length dst.
Proof.
  unfold TypedArray.set. case_decide; [|done]. intros [= <-].
  rewrite !length_app, length_take, length_drop. lia.
Qed.

(** Writing right behind the part that is already filled. *)
Lemma set_append {A} (filled src rest : list A) offset :
  length filled = offset → length src ≤ length rest →
  TypedArray.set (filled ++ rest) src offset
  = Some (filled ++ src ++ drop (length src) rest).
Proof.
  intros Hfilled Hsrc. unfold TypedArray.set.
  rewrite decide_True by (rewrite length_app; lia).
  f_equal. rewrite take_app_length' by done.
  rewrite drop_app_ge by lia.
  by replace (offset + length src - length filled) with (length src) by lia.
Qed.

Lemma set_append_alloc `{Number num} (filled src : list num) offset n m :
  length filled = offset → n = length src + m →
  TypedArray.set (filled ++ TypedArray.alloc n) src offset
  = Some ((filled ++ src) ++ TypedArray.alloc m).
Proof.
  intros Hfilled ->. unfold TypedArray.alloc.
  rewrite set_append by (rewrite ?length_replicate; lia).
  rewrite drop_replicate. rewrite <-(assoc_L (++)).
  repeat f_equal; lia.
Qed.

Lemma set_take {A} (dst src : list A) offset :
  offset + length src ≤ length dst →
  ∃ dst', TypedArray.set dst src offset = Some dst' ∧
          length dst' = length dst ∧
          take (offset + length src) dst' = take offset dst ++ src.
Proof.
  intros Hfit. unfold TypedArray.set. rewrite decide_True by done.
  eexists. split; [done|]. split.
  - rewrite !length_app, length_take, length_drop. lia.
  - rewrite (assoc_L (++)). rewrite take_app_length'; [done|].
    rewrite length_app, length_take. lia.
Qed.

End TypedArrayFacts.

Module BufferFacts.
Section BufferFacts.
Context `{Number num}.

Lemma write_length (channel data : list num) :
  length (Buffer.write channel data) = length channel.
Proof.
  unfold Buffer.write. rewrite length_app, length_take, length_drop. lia.
Qed.

Lemma write_same_length (channel data : list num) :
  length data = length channel → Buffer.write channel data = data.
Proof.
  intros Hlen. unfold Buffer.write.
  rewrite <-Hlen, firstn_all, drop_ge by lia. apply app_nil_r.
Qed.

Lemma setAttributes_lookup (data : gmap string (list num)) (b : Buffer.t num) name :
  Buffer.attributes (Buffer.setAttributes data b) !! name
  = (λ channel, match data !! name with
                | Some array => Buffer.write channel array
                | None => channel
                end) <$> Buffer.attributes b !! name.
Proof.
  unfold Buffer.setAttributes. cbn [Buffer.attributes].
  rewrite map_lookup_imap. by destruct (Buffer.attributes b !! name).
Qed.

(** A channel that is not named in the call is left as it is. *)
Lemma setAttributes_unnamed (data : gmap string (list num)) (b : Buffer.t num) name :
  data !! name = None →
  Buffer.attributes (Buffer.setAttributes data b) !! name
  = Buffer.attributes b !! name.
Proof.
  intros Hname. rewrite setAttributes_lookup, Hname.
  by destruct (Buffer.attributes b !! name).
Qed.

(** A channel that is named in the call receives the supplied array. *)
Lemma setAttributes_named (data : gmap string (list num)) (b : Buffer.t num)
    name array channel :
  data !! name = Some array → Buffer.attributes b !! name = Some channel →
  Buffer.attributes (Buffer.setAttributes data b) !! name
  = Some (Buffer.write channel array).
Proof.
  intros Hname Hchannel. by rewrite setAttributes_lookup, Hname, Hchannel.
Qed.

Lemma setAttributes_length (data : gmap string (list num)) (b : Buffer.t num)
    name channel' :
  Buffer.attributes (Buffer.setAttributes data b) !! name = Some channel' →
  ∃ channel, Buffer.attributes b !! name = Some channel ∧
             length channel' = length channel.
Proof.
  rewrite setAttributes_lookup.
  destruct (Buffer.attributes b !! name) as [channel|]; [|done].
  intros [= <-]. exists channel. split; [done|].
  destruct (data !! name); [apply write_length|done].
Qed.

End BufferFacts.
End BufferFacts.

Module RocketFacts.
Import RocketRepresentation RocketSpec.
Section RocketFacts.
Context `{Number num}.

Lemma skip_iff_not_eligible (polymer : Polymer num) :
  bool_decide (residueCount polymer < 4)%Z || isNucleic polymer
  = negb (eligible polymer).
Proof.
  unfold eligible. destruct (isNucleic polymer); simpl.
  - by rewrite orb_true_r, andb_false_r.
  - rewrite orb_false_r, andb_true_r.
    repeat case_bool_decide; simpl; try done; lia.
Qed.

Lemma filter_eligible_idemp (polymers : list (Polymer num)) :
  List.filter eligible (List.filter eligible polymers)
  = List.filter eligible polymers.
Proof.
  induction polymers as [|polymer polymers IH]; [done|].
  cbn [List.filter]. destruct (eligible polymer) eqn:He; [|done].
  cbn [List.filter]. by rewrite He, IH.
Qed.

Lemma eachPolymer_callback_eq (this : t num) length_ axisList helixbundleList
    (polymer : Polymer num) :
  eachPolymer_callback this (length_, axisList, helixbundleList) polymer
  = if eligible polymer
    then (length_ + segmentCount (axisOf this (Helixbundle_new polymer)),
          axisList ++ [axisOf this (Helixbundle_new polymer)],
          helixbundleList ++ [Helixbundle_new polymer])
    else (length_, axisList, helixbundleList).
Proof.
  unfold eachPolymer_callback. rewrite skip_iff_not_eligible.
  by destruct (eligible polymer).
Qed.

Lemma eachPolymer_foldl (this : t num) (polymers : list (Polymer num))
    length_ axisList helixbundleList :
  foldl (eachPolymer_callback this) (length_, axisList, helixbundleList) polymers
  = (length_ + offsetAfter (eligibleAxes this polymers),
     axisList ++ eligibleAxes this polymers,
     helixbundleList ++ (Helixbundle_new <$> List.filter eligible polymers)).
Proof.
  revert length_ axisList helixbundleList.
  induction polymers as [|polymer polymers IH]; intros length_ axisList helixbundleList.
  - unfold eligibleAxes, offsetAfter. simpl.
    by rewrite Nat.add_0_r, !app_nil_r.
  - cbn [foldl]. rewrite eachPolymer_callback_eq.
    unfold eligibleAxes in *. cbn [List.filter].
    destruct (eligible polymer).
    + rewrite IH. unfold offsetAfter. rewrite !fmap_cons. cbn [sum_list].
      rewrite <-!(assoc_L (++)). simpl. by rewrite Nat.add_assoc.
    + apply IH.
Qed.

Lemma offsetAfter_app (axes1 axes2 : list (Axis num)) :
  offsetAfter (axes1 ++ axes2) = offsetAfter axes1 + offsetAfter axes2.
Proof.
  unfold offsetAfter. induction axes1 as [|axis axes1 IH]; [done|].
  cbn [app]. rewrite !fmap_cons. cbn [sum_list]. rewrite IH. lia.
Qed.

Lemma length_join_size (axes : list (Axis num)) :
  length (mjoin (size <$> axes)) = offsetAfter axes.
Proof.
  rewrite length_join, <-list_fmap_compose. done.
Qed.

Lemma length_join_stride (channel : Axis num → list num) (axes : list (Axis num)) :
  Forall (λ axis, length (channel axis) = segmentCount axis * 3) axes →
  length (mjoin (channel <$> axes)) = offsetAfter axes * 3.
Proof.
  induction 1 as [|axis axes Haxis _ IH]; [done|].
  rewrite fmap_cons.
  change (mjoin (channel axis :: (channel <$> axes)))
    with (channel axis ++ mjoin (channel <$> axes)).
  rewrite length_app, IH, Haxis.
  unfold offsetAfter. rewrite fmap_cons. simpl. lia.
Qed.

Lemma wellFormed_channels (axes : list (Axis num)) :
  Forall wellFormed axes →
  Forall (λ axis, length (begin axis) = segmentCount axis * 3) axes ∧
  Forall (λ axis, length (end_ axis) = segmentCount axis * 3) axes ∧
  Forall (λ axis, length (color axis) = segmentCount axis * 3) axes ∧
  Forall (λ axis, length (pickingColor axis) = segmentCount axis * 3) axes.
Proof.
  intros Hwf. repeat split; eapply Forall_impl; try exact Hwf;
    intros axis (?&?&?&?); done.
Qed.

Local Ltac solve_set :=
  first [ apply length_join_stride; assumption
        | apply length_join_size
        | unfold segmentCount in *; lia ].

Lemma axisList_callback_filled (done : list (Axis num)) (axis : Axis num) room :
  Forall wellFormed done → wellFormed axis →
  axisList_callback (filled done (segmentCount axis + room), offsetAfter done) axis
  = Some (filled (done ++ [axis]) room, offsetAfter (done ++ [axis])).
Proof.
  intros Hdone (Hb & He & Hc & Hp).
  destruct (wellFormed_channels _ Hdone) as (Hbs & Hes & Hcs & Hps).
  unfold axisList_callback, filled. cbn [begin end_ size color pickingColor].
  rewrite (TypedArrayFacts.set_append_alloc _ (begin axis) _ _ (room * 3))
    by solve_set.
  cbn [mbind option_bind].
  rewrite (TypedArrayFacts.set_append_alloc _ (end_ axis) _ _ (room * 3))
    by solve_set.
  cbn [mbind option_bind].
  rewrite (TypedArrayFacts.set_append_alloc _ (size axis) _ _ room)
    by solve_set.
  cbn [mbind option_bind].
  rewrite (TypedArrayFacts.set_append_alloc _ (color axis) _ _ (room * 3))
    by solve_set.
  cbn [mbind option_bind].
  rewrite (TypedArrayFacts.set_append_alloc _ (pickingColor axis) _ _ (room * 3))
    by solve_set.
  cbn [mbind option_bind].
  rewrite !fmap_app, !join_app. simpl. rewrite !app_nil_r.
  rewrite offsetAfter_app. unfold offsetAfter at 3. simpl.
  by rewrite Nat.add_0_r.
Qed.

Lemma axisList_forEach_filled (axes done : list (Axis num)) room :
  Forall wellFormed done → Forall wellFormed axes →
  axisList_forEach axes (filled done (offsetAfter axes + room), offsetAfter done)
  = Some (filled (done ++ axes) room, offsetAfter (done ++ axes)).
Proof.
  revert done. induction axes as [|axis axes IH]; intros done Hdone Haxes.
  - by rewrite app_nil_r.
  - apply Forall_cons in Haxes as [Haxis Haxes].
    cbn [axisList_forEach].
    replace (offsetAfter (axis :: axes) + room)
      with (segmentCount axis + (offsetAfter axes + room))
      by (unfold offsetAfter; rewrite fmap_cons; simpl; lia).
    rewrite axisList_callback_filled by done. cbn [mbind option_bind].
    rewrite IH by (try apply Forall_app; auto).
    by rewrite <-(assoc_L (++)).
Qed.

Lemma filled_full (axes : list (Axis num)) : filled axes 0 = concatenated axes.
Proof. unfold filled, concatenated. simpl. by rewrite !app_nil_r. Qed.

(** [createData] in closed form, when the axes honour the contract of
    [getAxis]. *)
Lemma createData_eq (this : t num) (polymers : list (Polymer num)) :
  Forall wellFormed (eligibleAxes this polymers) →
  createData this polymers
  = let axisData := concatenated (eligibleAxes this polymers) in
    Some {| bufferList :=
              [CylinderBuffer.new (begin axisData) (end_ axisData)
                 (color axisData) (color axisData) (size axisData)
                 (Some (pickingColor axisData)) (Some (pickingColor axisData))];
            axisList := eligibleAxes this polymers;
            helixbundleList := Helixbundle_new <$> List.filter eligible polymers;
            axisData := axisData |}.
Proof.
  intros Hwf. unfold createData.
  rewrite eachPolymer_foldl. cbn [app]. rewrite Nat.add_0_l.
  pose proof (axisList_forEach_filled (eligibleAxes this polymers) [] 0) as Hloop.
  unfold filled at 1 in Hloop. cbn [fmap list_fmap mjoin list_join app] in Hloop.
  rewrite Nat.add_0_r in Hloop.
  change (offsetAfter []) with 0 in Hloop.
  rewrite Hloop by (try apply Forall_nil; done). cbn [mbind option_bind app].
  by rewrite filled_full.
Qed.

Lemma join_lookup_segment {A} (ls : list (list A)) k l i :
  ls !! k = Some l → i < length l →
  mjoin ls !! (sum_list (length <$> take k ls) + i) = l !! i.
Proof.
  revert k. induction ls as [|l0 ls IH]; intros k Hk Hi; [done|].
  destruct k as [|k]; simpl in *.
  - injection Hk as ->. by rewrite lookup_app_l.
  - rewrite lookup_app_r by lia.
    rewrite <-(IH k) by done. f_equal.
    rewrite <-Nat.add_assoc, Nat.add_comm. apply Nat.add_sub.
Qed.

Lemma offsetAfter_take_size (axes : list (Axis num)) k :
  sum_list (length <$> take k (size <$> axes)) = offsetAfter (take k axes).
Proof.
  rewrite <-fmap_take, <-list_fmap_compose. done.
Qed.

Lemma offsetAfter_take_stride (channel : Axis num → list num)
    (axes : list (Axis num)) k :
  Forall (λ axis, length (channel axis) = segmentCount axis * 3) axes →
  sum_list (length <$> take k (channel <$> axes)) = offsetAfter (take k axes) * 3.
Proof.
  intros Hwf. rewrite <-fmap_take, <-length_join.
  apply length_join_stride. by apply Forall_take.
Qed.

Lemma concatenated_lookup_stride (channel : Axis num → list num)
    (axes : list (Axis num)) k axis i d :
  Forall (λ axis, length (channel axis) = segmentCount axis * 3) axes →
  axes !! k = Some axis → i < segmentCount axis → d < 3 →
  mjoin (channel <$> axes) !! ((offsetAfter (take k axes) + i) * 3 + d)
  = channel axis !! (i * 3 + d).
Proof.
  intros Hwf Hk Hi Hd.
  assert (length (channel axis) = segmentCount axis * 3) as Hlen.
  { eapply (Forall_lookup_1 _ _ _ _ Hwf Hk). }
  rewrite <-(join_lookup_segment (channel <$> axes) k (channel axis) (i * 3 + d)).
  - rewrite offsetAfter_take_stride by done. f_equal. lia.
  - by rewrite list_lookup_fmap, Hk.
  - lia.
Qed.

End RocketFacts.
End RocketFacts.

Module LabelFacts.
Import LabelRepresentation.
Section LabelFacts.
Context `{Number num}.

Lemma textData_lookup (what : option What.t) (atomData : AtomData num) name :
  textData what atomData !! name
  = if decide (name = "color") then
      if requested what What.color then Some (color atomData) else None
    else if decide (name = "size") then
      if requested what What.radius then Some (radius atomData) else None
    else if decide (name = "position") then
      if requested what What.position then Some (position atomData) else None
    else None.
Proof.
  unfold textData.
  destruct (requested what What.position), (requested what What.radius),
    (requested what What.color);
    repeat case_decide; by simplify_map_eq.
Qed.

End LabelFacts.
End LabelFacts.

Module RocketUpdateFacts.
Import RocketRepresentation RocketSpec TypedArrayFacts RocketFacts BufferFacts.
Section RocketUpdateFacts.
Context `{Number num}.

(** The update loop never touches the begin, end and picking-color arrays,
    and touches the color and size arrays only when asked to. *)
Lemma helixbundleList_forEach_frame (this : t num) what helixbundles
    (axisData : Axis num) offset axisData' completed :
  helixbundleList_forEach this what helixbundles axisData offset
  = (axisData', completed) →
  begin axisData' = begin axisData ∧
  end_ axisData' = end_ axisData ∧
  pickingColor axisData' = pickingColor axisData ∧
  (What.color what = false → color axisData' = color axisData) ∧
  (What.radius what || What.scale what = false → size axisData' = size axisData).
Proof.
  revert axisData offset.
  induction helixbundles as [|helixbundle helixbundles IH]; intros axisData offset.
  - cbn [helixbundleList_forEach]. by intros [= <- <-].
  - cbn [helixbundleList_forEach].
    destruct (What.color what) eqn:Hcolor;
      destruct (What.radius what || What.scale what) eqn:Hsize;
      repeat match goal with
        | |- context [TypedArray.set ?d ?s ?o] =>
            destruct (TypedArray.set d s o); cbn [mbind option_bind]
        end;
      try (intros [= <- <-]; done);
      intros Hloop; apply IH in Hloop; cbn in Hloop;
      destruct Hloop as (? & ? & ? & Hc & Hs);
      repeat split; try done; intros; try (by apply Hc); by apply Hs.
Qed.

(** The update loop in closed form, when the recomputed axes fit the
    recorded arrays: the lanes asked for are rewritten from the running
    offset on, segment after segment. *)
Lemma helixbundleList_forEach_eq (this : t num) what helixbundles
    (axisData : Axis num) offset :
  Forall (λ axis, length (color axis) = segmentCount axis * 3)
    (recomputed this helixbundles) →
  length (color axisData) = (offset + offsetAfter (recomputed this helixbundles)) * 3 →
  length (size axisData) = offset + offsetAfter (recomputed this helixbundles) →
  helixbundleList_forEach this what helixbundles axisData offset
  = ({| begin := begin axisData;
        end_ := end_ axisData;
        size :=
          if What.radius what || What.scale what
          then take offset (size axisData)
               ++ mjoin (size <$> recomputed this helixbundles)
          else size axisData;
        color :=
          if What.color what
          then take (offset * 3) (color axisData)
               ++ mjoin (color <$> recomputed this helixbundles)
          else color axisData;
        pickingColor := pickingColor axisData |}, true).
Proof.
  revert axisData offset.
  induction helixbundles as [|helixbundle helixbundles IH];
    intros axisData offset Hwf Hcolor Hsize.
  - cbn in *. rewrite Nat.add_0_r in *. rewrite !app_nil_r.
    rewrite !take_ge by lia. destruct axisData. cbn.
    by destruct (What.color what), (What.radius what || What.scale what).
  - unfold recomputed in *. rewrite fmap_cons in *.
    apply Forall_cons in Hwf as [Haxis Hwf].
    cbn [helixbundleList_forEach].
    set (axis := axisOf this helixbundle) in *.
    assert (offsetAfter (axis :: (axisOf this <$> helixbundles))
            = segmentCount axis + offsetAfter (axisOf this <$> helixbundles))
      as Hoff by done.
    rewrite Hoff in Hcolor, Hsize. unfold segmentCount in *.
    destruct (set_take (color axisData) (color axis) (offset * 3))
      as (color' & Hset_c & Hlen_c & Htake_c); [lia|].
    destruct (set_take (size axisData) (size axis) offset)
      as (size' & Hset_s & Hlen_s & Htake_s); [lia|].
    replace (offset * 3 + length (color axis))
      with ((offset + length (size axis)) * 3) in Htake_c by lia.
    change (mjoin (?f <$> axis :: ?l)) with (f axis ++ mjoin (f <$> l)).
    destruct (What.color what) eqn:Hc;
      destruct (What.radius what || What.scale what) eqn:Hs;
      rewrite ?Hset_c; cbn [mbind option_bind color size];
      rewrite ?Hset_s; cbn [mbind option_bind color size];
      (rewrite IH; [|done|cbn; lia|cbn; lia]); cbn;
      rewrite ?Htake_c, ?Htake_s, <-?(assoc_L (++)); done.
Qed.

Lemma cylinderData_lookup what (axisData : Axis num) name :
  cylinderData what axisData !! name
  = if decide (name = "radius") then
      if What.radius what || What.scale what then Some (size axisData) else None
    else if decide (name = "color" ∨ name = "color2") then
      if What.color what then Some (color axisData) else None
    else None.
Proof.
  unfold cylinderData.
  destruct (What.color what), (What.radius what || What.scale what);
    repeat case_decide; destruct_or?; subst;
    rewrite ?lookup_insert_eq, ?lookup_insert_ne, ?lookup_empty by naive_solver;
    naive_solver.
Qed.

(** [updateData] without a position change, as one equation. *)
Lemma updateData_eq (this : t num) what (data : Data num) :
  What.position what = false →
  updateData this (Some what) data
  = let '(axisData', completed) :=
      if What.color what || What.radius what
      then helixbundleList_forEach this what (helixbundleList data) (axisData data) 0
      else (axisData data, true) in
    let changes :=
      if What.color what || What.radius what
      then cylinderData what axisData' else ∅ in
    if completed then
      match bufferList data with
      | buffer0 :: buffers =>
        Patched {| bufferList := Buffer.setAttributes changes buffer0 :: buffers;
                   axisList := axisList data;
                   helixbundleList := helixbundleList data;
                   axisData := axisData' |}
      | [] => Threw (withAxisData data axisData')
      end
    else Threw (withAxisData data axisData').
Proof.
  intros Hposition. unfold updateData, cylinderData.
  change (default What.empty (Some what)) with what. cbv zeta.
  rewrite Hposition.
  destruct (What.color what || What.radius what); [|done].
  by destruct (helixbundleList_forEach _ _ _ _ _) as [axisData' completed].
Qed.

Lemma updateData_axisData_frame (this : t num) what (data data' : Data num) :
  What.position what = false →
  updateData this (Some what) data = Patched data'
  ∨ updateData this (Some what) data = Threw data' →
  begin (axisData data') = begin (axisData data) ∧
  end_ (axisData data') = end_ (axisData data) ∧
  pickingColor (axisData data') = pickingColor (axisData data) ∧
  (What.color what = false → color (axisData data') = color (axisData data)) ∧
  (What.radius what = false → What.scale what = false →
   size (axisData data') = size (axisData data)).
Proof.
  intros Hposition. rewrite updateData_eq by done.
  destruct (What.color what || What.radius what) eqn:Hany.
  - destruct (helixbundleList_forEach _ _ _ _ _) as [axisData' completed] eqn:Hloop.
    apply helixbundleList_forEach_frame in Hloop as (Hb & He & Hp & Hc & Hs).
    intros Hout.
    assert (axisData data' = axisData') as ->.
    { destruct completed, (bufferList data);
        destruct Hout as [Hout|Hout]; by inversion Hout. }
    repeat split; try done. intros Hr Hsc. apply Hs. by rewrite Hr, Hsc.
  - destruct (bufferList data); intros [[= <-]|[= <-]]; done.
Qed.

Lemma updateData_buffer_frame (this : t num) what (data data' : Data num)
    buffer0 buffers :
  What.position what = false →
  updateData this (Some what) data = Patched data' →
  bufferList data = buffer0 :: buffers →
  ∃ buffer0',
    bufferList data' = buffer0' :: buffers ∧
    Buffer.pickable buffer0' = Buffer.pickable buffer0 ∧
    ∀ name,
      (name = "color" ∨ name = "color2" → What.color what = false) →
      (name = "radius" → What.radius what = false ∧ What.scale what = false) →
      Buffer.attributes buffer0' !! name = Buffer.attributes buffer0 !! name.
Proof.
  intros Hposition. rewrite updateData_eq by done. intros Hupdate Hbuffers.
  rewrite Hbuffers in Hupdate.
  destruct (if What.color what || What.radius what then _ else _)
    as [axisData' completed].
  destruct completed; [|done]. injection Hupdate as <-.
  eexists. split; [done|]. split; [done|].
  intros name Hcolor Hradius. apply setAttributes_unnamed.
  destruct (What.color what || What.radius what); [|done].
  rewrite cylinderData_lookup. repeat case_decide; try done.
  - destruct Hradius as [-> ->]; done.
  - by rewrite Hcolor.
Qed.

Lemma offsetAfter_Forall2 (olds news : list (Axis num)) k :
  Forall2 (λ old new, segmentCount new = segmentCount old) olds news →
  offsetAfter (take k news) = offsetAfter (take k olds).
Proof.
  intros Hcounts. revert k.
  induction Hcounts as [|old new olds news Hcount _ IH]; intros k.
  - by rewrite !take_nil.
  - destruct k as [|k]; [done|]. cbn [take]. unfold offsetAfter in *.
    rewrite !fmap_cons. cbn [sum_list]. by rewrite Hcount, IH.
Qed.

Lemma offsetAfter_Forall2_all (olds news : list (Axis num)) :
  Forall2 (λ old new, segmentCount new = segmentCount old) olds news →
  offsetAfter news = offsetAfter olds.
Proof.
  intros Hcounts.
  rewrite <-(take_ge news (length news)), <-(take_ge olds (length news));
    [by apply offsetAfter_Forall2| |done].
  by rewrite (Forall2_length _ _ _ Hcounts).
Qed.

(** When every recomputed axis has as many segments as the axis recorded
    at build time, the update runs to its end and rewrites the color lane
    (when asked for color) and the size lane (when asked for radius) with
    the recomputed values, each segment at its recorded offset. *)
Lemma updateData_writes (this this0 : t num) what polymers (data : Data num) :
  What.position what = false →
  createData this0 polymers = Some data →
  Forall wellFormed (eligibleAxes this0 polymers) →
  Forall wellFormed (recomputed this (helixbundleList data)) →
  Forall2 (λ old new, segmentCount new = segmentCount old)
    (axisList data) (recomputed this (helixbundleList data)) →
  ∃ data',
    updateData this (Some what) data = Patched data' ∧
    (What.color what = true →
     ∀ k axis i d,
       recomputed this (helixbundleList data) !! k = Some axis →
       i < segmentCount axis → d < 3 →
       color (axisData data') !! ((offsetAfter (take k (axisList data)) + i) * 3 + d)
       = color axis !! (i * 3 + d)) ∧
    (What.radius what = true →
     ∀ k axis i,
       recomputed this (helixbundleList data) !! k = Some axis →
       i < segmentCount axis →
       size (axisData data') !! (offsetAfter (take k (axisList data)) + i)
       = size axis !! i).
Proof.
  intros Hposition Hcreate Hwf0 Hwf Hcounts.
  rewrite createData_eq in Hcreate by done. cbv zeta in Hcreate.
  injection Hcreate as <-. cbn [axisList helixbundleList axisData bufferList] in *.
  set (news := recomputed this _) in *.
  set (olds := eligibleAxes this0 polymers) in *.
  destruct (wellFormed_channels _ Hwf) as (_ & _ & Hc & _).
  destruct (wellFormed_channels _ Hwf0) as (_ & _ & Hc0 & _).
  rewrite updateData_eq by done.
  cbn [axisList helixbundleList axisData bufferList].
  fold news.
  destruct (What.color what || What.radius what) eqn:Hany.
  - rewrite helixbundleList_forEach_eq; fold news; [|done|..].
    2:{ cbn. rewrite (length_join_stride color) by done.
        by rewrite (offsetAfter_Forall2_all olds news). }
    2:{ cbn. rewrite length_join_size.
        by rewrite (offsetAfter_Forall2_all olds news). }
    eexists. split; [done|]. cbn [axisData color size concatenated take app].
    split.
    + intros -> k axis i d Hk Hi Hd.
      rewrite <-(offsetAfter_Forall2 olds news) by done.
      by apply concatenated_lookup_stride.
    + intros -> k axis i Hk Hi. cbn [orb].
      rewrite <-(offsetAfter_Forall2 olds news) by done.
      rewrite <-offsetAfter_take_size.
      apply join_lookup_segment; [by rewrite list_lookup_fmap, Hk|done].
  - apply orb_false_iff in Hany as [-> ->].
    eexists. split; [done|]. split; done.
Qed.

End RocketUpdateFacts.
End RocketUpdateFacts.

Module DistanceFacts.
Import DistanceRepresentation DistanceSpec.
Section DistanceFacts.
Context `{Number num}.

Lemma length_omap_le {A B} (f : A → option B) (l : list A) :
  length (omap f l) ≤ length l.
Proof.
  induction l as [|x l IH]; [done|]. cbn. destruct (f x); cbn; lia.
Qed.

Lemma length_midpoints (sview : StructureView num) (reps : list (nat * nat)) :
  length (mjoin (midpoint sview <$> reps)) = length reps * 3.
Proof.
  induction reps as [|r reps IH]; [done|].
  rewrite fmap_cons.
  change (mjoin (midpoint sview r :: (midpoint sview <$> reps)))
    with (midpoint sview r ++ mjoin (midpoint sview <$> reps)).
  rewrite length_app, IH. cbn. lia.
Qed.

Lemma store_next {A} (filled : list (option A)) room (v : A) :
  JsArray.store (filled ++ JsArray.alloc (S room)) (length filled) v
  = (filled ++ [Some v]) ++ JsArray.alloc room.
Proof.
  unfold JsArray.store, JsArray.alloc.
  rewrite decide_True by (rewrite length_app, length_replicate; lia).
  rewrite insert_app_r_alt, Nat.sub_diag by done. cbn.
  by rewrite <-(assoc_L (++)).
Qed.

Lemma insert_next3 (filled : list num) i3 room (a b c : num) :
  length filled = i3 →
  <[i3 + 2 := c]> (<[i3 + 1 := b]> (<[i3 + 0 := a]>
    (filled ++ TypedArray.alloc (S room * 3))))
  = (filled ++ [a; b; c]) ++ TypedArray.alloc (room * 3).
Proof.
  intros <-. unfold TypedArray.alloc. cbn [Nat.mul Nat.add replicate].
  rewrite !insert_app_r. cbn. by rewrite <-(assoc_L (++)).
Qed.

Lemma representatives_eq (sview : StructureView num) (pair : string * string) :
  representatives sview pair
  = match getAtomIndices sview pair.1, getAtomIndices sview pair.2 with
    | index1 :: _, index2 :: _ => Some (index1, index2)
    | _, _ => None
    end.
Proof.
  unfold representatives.
  by destruct (getAtomIndices sview pair.1), (getAtomIndices sview pair.2).
Qed.

Lemma atomPair_callback_after (sview : StructureView num) n
    (done : list (string * string)) (pair : string * string) :
  length done < n →
  atomPair_callback sview (after sview n done) pair (length done)
  = after sview n (done ++ [pair]).
Proof.
  intros Hn. unfold atomPair_callback, after.
  rewrite omap_app.
  change (omap (representatives sview) [pair])
    with (match representatives sview pair with Some r => [r] | None => [] end).
  rewrite representatives_eq.
  cbn [j text position bondStore].
  set (reps := omap (representatives sview) done).
  pose proof (length_omap_le (representatives sview) done) as Hle. fold reps in Hle.
  replace (length done - (length done - length reps)) with (length reps) by lia.
  destruct (getAtomIndices sview pair.1) as [|index1 ?]; cbv beta iota.
  { rewrite !app_nil_r, length_app. cbn. f_equal. lia. }
  destruct (getAtomIndices sview pair.2) as [|index2 ?]; cbv beta iota.
  { rewrite !app_nil_r, length_app. cbn. f_equal. lia. }
  rewrite !length_app. cbn [length].
  replace (n - length reps) with (S (n - (length reps + 1))) by lia.
  f_equal.
  - lia.
  - rewrite <-(length_fmap (Some ∘ label sview) reps) at 2.
    rewrite store_next, fmap_app. done.
  - rewrite insert_next3 by (rewrite length_midpoints; lia).
    rewrite fmap_app, join_app. cbn. by rewrite ?app_nil_r.
  - unfold addBond. by rewrite fmap_app.
Qed.

Lemma atomPair_forEach_after (sview : StructureView num) n
    (rest done : list (string * string)) :
  length done + length rest ≤ n →
  JsArray.forEach (atomPair_callback sview) rest (length done) (after sview n done)
  = after sview n (done ++ rest).
Proof.
  revert done. induction rest as [|pair rest IH]; intros done Hn.
  - by rewrite app_nil_r.
  - cbn [JsArray.forEach length] in *.
    rewrite atomPair_callback_after by lia.
    replace (S (length done)) with (length (done ++ [pair]))
      by (rewrite length_app; cbn; lia).
    rewrite IH by (rewrite length_app; cbn; lia).
    by rewrite <-(assoc_L (++)).
Qed.

(** [getDistanceData] in closed form: the texts of the resolved pairs
    followed by the empty slots of the dropped ones, the midpoints of the
    resolved pairs, and their bonds. *)
Lemma getDistanceData_eq (sview : StructureView num)
    (atomPair : list (string * string)) :
  getDistanceData sview atomPair
  = let reps := omap (representatives sview) atomPair in
    {| data_text :=
         (Some ∘ label sview <$> reps)
         ++ JsArray.alloc (length atomPair - length reps);
       data_position := mjoin (midpoint sview <$> reps);
       data_bondSet := replicate (length reps) true;
       data_bondStore := bond <$> reps |}.
Proof.
  unfold getDistanceData.
  assert (JsArray.forEach (atomPair_callback sview) atomPair 0
            {| j := 0; text := JsArray.alloc (length atomPair);
               position := TypedArray.alloc (length atomPair * 3);
               bondStore := [] |}
          = after sview (length atomPair) atomPair) as ->.
  { etrans; [|apply (atomPair_forEach_after sview (length atomPair) atomPair []); done].
    unfold after. cbn. by rewrite Nat.sub_0_r. }
  cbv zeta.
  unfold after. cbn [j text position bondStore].
  set (reps := omap (representatives sview) atomPair).
  pose proof (length_omap_le (representatives sview) atomPair) as Hle. fold reps in Hle.
  rewrite length_fmap.
  case_bool_decide as Hj; f_equal.
  - unfold TypedArray.subarray. rewrite drop_0, Nat.sub_0_r.
    replace (length atomPair - (length atomPair - length reps)) with (length reps) by lia.
    rewrite take_app_length'; [done|]. by rewrite length_midpoints.
  - replace (length atomPair - length reps) with 0 by lia.
    apply app_nil_r.
Qed.

Lemma representatives_Some (sview : StructureView num)
    (pair : string * string) (index1 index2 : nat) :
  representatives sview pair = Some (index1, index2) ↔
  head (getAtomIndices sview pair.1) = Some index1 ∧
  head (getAtomIndices sview pair.2) = Some index2.
Proof.
  unfold representatives.
  destruct (head (getAtomIndices sview pair.1)) as [i1|],
    (head (getAtomIndices sview pair.2)) as [i2|]; cbn;
    (split; [intros [=]; subst; done | intros [[=] [=]]; subst; done]).
Qed.

Lemma representatives_None (sview : StructureView num)
    (pair : string * string) :
  representatives sview pair = None ↔ ¬ Resolves sview pair.
Proof.
  rewrite representatives_eq. unfold Resolves.
  destruct (getAtomIndices sview pair.1), (getAtomIndices sview pair.2);
    split; try done; intros Hnot; try (destruct Hnot; split; done);
    intros [? ?]; done.
Qed.

(** The representatives of the pairs that resolve, in input order. *)
Lemma resolved_lookup (sview : StructureView num)
    (atomPair : list (string * string)) (k : nat) (pair : string * string) :
  filter (Resolves sview) atomPair !! k = Some pair →
  ∃ index1 index2,
    head (getAtomIndices sview pair.1) = Some index1 ∧
    head (getAtomIndices sview pair.2) = Some index2 ∧
    omap (representatives sview) atomPair !! k = Some (index1, index2).
Proof.
  revert k. induction atomPair as [|pair0 atomPair IH]; intros k; [done|].
  rewrite filter_cons. cbn [omap list_omap].
  destruct (representatives sview pair0) as [[index1 index2]|] eqn:Hreps.
  - rewrite decide_True.
    2:{ apply dec_stable. rewrite <-representatives_None. congruence. }
    destruct k as [|k]; [|apply IH].
    intros [= <-]. exists index1, index2.
    apply representatives_Some in Hreps as [? ?]. done.
  - rewrite decide_False by (by apply representatives_None). apply IH.
Qed.

Lemma length_resolved (sview : StructureView num)
    (atomPair : list (string * string)) :
  length (omap (representatives sview) atomPair)
  = length (filter (Resolves sview) atomPair).
Proof.
  induction atomPair as [|pair atomPair IH]; [done|].
  rewrite filter_cons. cbn [omap list_omap].
  destruct (representatives sview pair) as [reps|] eqn:Hreps.
  - rewrite decide_True.
    2:{ apply dec_stable. rewrite <-representatives_None. congruence. }
    cbn. by rewrite IH.
  - by rewrite decide_False by (by apply representatives_None).
Qed.

(** The lengths of the arrays [getDistanceData] returns: only the position
    array is cut down to the pairs that resolve. *)
Lemma getDistanceData_lengths (sview : StructureView num)
    (atomPair : list (string * string)) :
  let data := getDistanceData sview atomPair in
  length (data_text data) = length atomPair ∧
  length (data_position data) = length (filter (Resolves sview) atomPair) * 3 ∧
  length (data_bondStore data) = length (filter (Resolves sview) atomPair).
Proof.
  rewrite getDistanceData_eq. cbn.
  pose proof (length_omap_le (representatives sview) atomPair).
  rewrite length_app, !length_fmap, length_midpoints, length_resolved in *.
  unfold JsArray.alloc. rewrite length_replicate. repeat split; lia.
Qed.

Lemma midpoints_lookup (sview : StructureView num) (reps : list (nat * nat)) k r d :
  reps !! k = Some r → d < 3 →
  mjoin (midpoint sview <$> reps) !! (k * 3 + d) = midpoint sview r !! d.
Proof.
  intros Hk Hd.
  destruct (midpoint sview r !! d) as [x|] eqn:Hx.
  - apply (join_lookup_Some_same_length' 3); [|done|].
    + apply Forall_fmap, Forall_true. done.
    + exists (midpoint sview r). by rewrite list_lookup_fmap, Hk.
  - apply lookup_ge_None in Hx. cbn in Hx. lia.
Qed.

End DistanceFacts.
End DistanceFacts.

Module HyperballFacts.
Import HyperballStickImpostorBuffer HyperballSpec BufferFacts.
Section HyperballFacts.
Context `{Number num}.

Lemma length_alloc (n : nat) : length (TypedArray.alloc (num:=num) n) = n.
Proof. apply length_replicate. Qed.

Lemma unpicked_lookup (position1 position2 color color2 radius1 radius2 : list num)
    (params : option (Params num)) (name : string) :
  Buffer.attributes
    (unpicked position1 position2 color color2 radius1 radius2 params) !! name
  = let count := length position1 / 3 in
    if decide (name = "color") then
      Some (Buffer.write (TypedArray.alloc (count * 3)) color)
    else if decide (name = "color2") then
      Some (Buffer.write (TypedArray.alloc (count * 3)) color2)
    else if decide (name = "radius") then
      Some (Buffer.write (TypedArray.alloc (count * 1)) radius1)
    else if decide (name = "radius2") then
      Some (Buffer.write (TypedArray.alloc (count * 1)) radius2)
    else if decide (name = "position1") then
      Some (Buffer.write (TypedArray.alloc (count * 3)) position1)
    else if decide (name = "position2") then
      Some (Buffer.write (TypedArray.alloc (count * 3)) position2)
    else if decide (name = "position") then
      Some (Buffer.write (TypedArray.alloc (count * 3))
              (ArrayUtils.calculateCenterArray position1 position2))
    else None.
Proof.
  unfold unpicked, new. rewrite setAttributes_lookup.
  cbn [Buffer.addAttributes Buffer.addUniforms Buffer.attributes Buffer.count
       BoxBuffer foldl fst snd Buffer.itemSize].
  cbv zeta. repeat case_decide; subst; by simplify_map_eq.
Qed.

Lemma new_picked (position1 position2 color color2 radius1 radius2 : list num)
    (pickingColor : list num) (pickingColor2 : option (list num))
    (params : option (Params num)) :
  new position1 position2 color color2 radius1 radius2
    (Some pickingColor) pickingColor2 params
  = set_pickable
      (Buffer.setAttributes
         (match pickingColor2 with
          | Some pickingColor2 =>
            <["pickingColor2" := pickingColor2]> (<["pickingColor" := pickingColor]> ∅)
          | None => <["pickingColor" := pickingColor]> ∅
          end)
         (Buffer.addAttributes
            [("pickingColor", Buffer.type_c); ("pickingColor2", Buffer.type_c)]
            (unpicked position1 position2 color color2 radius1 radius2 params)))
      true.
Proof. reflexivity. Qed.

Lemma unpicked_count (position1 position2 color color2 radius1 radius2 : list num)
    (params : option (Params num)) :
  Buffer.count (unpicked position1 position2 color color2 radius1 radius2 params)
  = length position1 / 3.
Proof. reflexivity. Qed.

Lemma picked_lookup (position1 position2 color color2 radius1 radius2 : list num)
    (pickingColor : list num) (pickingColor2 : option (list num))
    (params : option (Params num)) name :
  Buffer.attributes
    (new position1 position2 color color2 radius1 radius2
       (Some pickingColor) pickingColor2 params) !! name
  = let count := length position1 / 3 in
    if decide (name = "pickingColor") then
      Some (Buffer.write (TypedArray.alloc (count * 3)) pickingColor)
    else if decide (name = "pickingColor2") then
      Some (match pickingColor2 with
            | Some pickingColor2 =>
              Buffer.write (TypedArray.alloc (count * 3)) pickingColor2
            | None => TypedArray.alloc (count * 3)
            end)
    else
      Buffer.attributes
        (unpicked position1 position2 color color2 radius1 radius2 params) !! name.
Proof.
  rewrite new_picked. unfold set_pickable. cbn [Buffer.attributes].
  rewrite setAttributes_lookup.
  cbn [Buffer.addAttributes Buffer.attributes foldl fst snd Buffer.itemSize].
  rewrite unpicked_count. cbv zeta.
  generalize (Buffer.attributes
                (unpicked position1 position2 color color2 radius1 radius2 params)).
  intros m.
  repeat case_decide; subst; destruct pickingColor2; simplify_map_eq; try done.
  all: by destruct (m !! name).
Qed.

Lemma picked_pickable (position1 position2 color color2 radius1 radius2 : list num)
    (pickingColor : list num) (pickingColor2 : option (list num))
    (params : option (Params num)) :
  Buffer.pickable
    (new position1 position2 color color2 radius1 radius2
       (Some pickingColor) pickingColor2 params) = true.
Proof.
  lazy beta delta [new set_pickable Buffer.pickable] iota zeta. reflexivity.
Qed.

Lemma unpicked_pickable (position1 position2 color color2 radius1 radius2 : list num)
    (params : option (Params num)) :
  Buffer.pickable
    (unpicked position1 position2 color color2 radius1 radius2 params) = false.
Proof.
  lazy beta delta [unpicked new Buffer.setAttributes Buffer.addAttributes
                   Buffer.addUniforms BoxBuffer Buffer.pickable] iota zeta.
  reflexivity.
Qed.

Lemma picked_channels (position1 position2 color color2 radius1 radius2 : list num)
    (pickingColor : list num) (pickingColor2 : option (list num))
    (params : option (Params num)) :
  let buffer :=
    new position1 position2 color color2 radius1 radius2
      (Some pickingColor) pickingColor2 params in
  let count := length position1 / 3 in
  Buffer.attributes buffer !! "pickingColor"
  = Some (Buffer.write (TypedArray.alloc (count * 3)) pickingColor) ∧
  Buffer.attributes buffer !! "pickingColor2"
  = Some (match pickingColor2 with
          | Some pickingColor2 =>
            Buffer.write (TypedArray.alloc (count * 3)) pickingColor2
          | None => TypedArray.alloc (count * 3)
          end) ∧
  Buffer.attributes buffer !! "color"
  = Some (Buffer.write (TypedArray.alloc (count * 3)) color) ∧
  Buffer.attributes buffer !! "color2"
  = Some (Buffer.write (TypedArray.alloc (count * 3)) color2).
Proof.
  cbv zeta. split_and!.
  - rewrite picked_lookup. cbv zeta.
    rewrite decide_True by reflexivity. reflexivity.
  - rewrite picked_lookup. cbv zeta.
    rewrite decide_False by discriminate.
    rewrite decide_True by reflexivity. reflexivity.
  - rewrite picked_lookup. cbv zeta. rewrite !decide_False by discriminate.
    rewrite unpicked_lookup. cbv zeta.
    rewrite decide_True by reflexivity. reflexivity.
  - rewrite picked_lookup. cbv zeta. rewrite !decide_False by discriminate.
    rewrite unpicked_lookup. cbv zeta.
    rewrite decide_False by discriminate.
    rewrite decide_True by reflexivity. reflexivity.
Qed.

End HyperballFacts.
End HyperballFacts.

Module RocketExtraFacts.
Import RocketRepresentation RocketSpec RocketUpdateSpec TypedArrayFacts RocketFacts
  RocketUpdateFacts BufferFacts.
Section RocketExtraFacts.
Context `{Number num}.

Lemma sameLengths_refl (a : Axis num) : sameLengths a a.
Proof. by repeat split. Qed.

Lemma sameLengths_trans (a b c : Axis num) :
  sameLengths a b → sameLengths b c → sameLengths a c.
Proof.
  intros (?&?&?&?&?) (?&?&?&?&?). repeat split; congruence.
Qed.

Lemma helixbundleList_forEach_lengths (this : t num) what helixbundles
    (axisData : Axis num) offset axisData' completed :
  helixbundleList_forEach this what helixbundles axisData offset
  = (axisData', completed) →
  sameLengths axisData' axisData.
Proof.
  revert axisData offset.
  induction helixbundles as [|helixbundle helixbundles IH]; intros axisData offset.
  - cbn [helixbundleList_forEach]. intros [= <- <-]. apply sameLengths_refl.
  - cbn [helixbundleList_forEach].
    set (axis := axisOf this helixbundle).
    assert (∀ axisData1 : Axis num,
              sameLengths axisData1 axisData →
              match (if What.radius what || What.scale what
                     then size' ← TypedArray.set (size axisData1) (size axis) offset;
                          Some {| begin := begin axisData1; end_ := end_ axisData1;
                                  size := size'; color := color axisData1;
                                  pickingColor := pickingColor axisData1 |}
                     else Some axisData1) with
              | None => (axisData1, false)
              | Some axisData2 =>
                helixbundleList_forEach this what helixbundles axisData2
                  (offset + length (size axis))
              end = (axisData', completed) →
              sameLengths axisData' axisData) as Hsize.
    { intros axisData1 H1.
      destruct (What.radius what || What.scale what).
      - destruct (TypedArray.set (size axisData1) (size axis) offset)
          as [size'|] eqn:Hs; cbn [mbind option_bind].
        + apply set_length in Hs. intros Hloop. apply IH in Hloop.
          eapply sameLengths_trans; [exact Hloop|].
          destruct H1 as (?&?&?&?&?). repeat split; cbn; congruence.
        + by intros [= <- <-].
      - intros Hloop. apply IH in Hloop.
        by eapply sameLengths_trans. }
    destruct (What.color what).
    + destruct (TypedArray.set (color axisData) (color axis) (offset * 3))
        as [color'|] eqn:Hc; cbn [mbind option_bind].
      * apply set_length in Hc. apply Hsize. repeat split; cbn; congruence.
      * intros [= <- <-]. apply sameLengths_refl.
    + apply Hsize, sameLengths_refl.
Qed.

Lemma updateData_None (this : t num) (data : Data num) :
  updateData this None data = updateData this (Some What.empty) data.
Proof. reflexivity. Qed.

Lemma updateData_axisData_cases (this : t num) what (data data' : Data num) :
  What.position what = false →
  updateData this (Some what) data = Patched data'
  ∨ updateData this (Some what) data = Threw data' →
  axisList data' = axisList data ∧
  helixbundleList data' = helixbundleList data ∧
  ((What.color what || What.radius what = false ∧ axisData data' = axisData data) ∨
   (What.color what || What.radius what = true ∧
    ∃ completed,
      helixbundleList_forEach this what (helixbundleList data) (axisData data) 0
      = (axisData data', completed))).
Proof.
  intros Hposition. rewrite updateData_eq by done.
  destruct (What.color what || What.radius what) eqn:Hany.
  - destruct (helixbundleList_forEach _ _ _ _ _) as [axisData' completed] eqn:Hloop.
    intros Hout.
    assert (axisList data' = axisList data ∧
            helixbundleList data' = helixbundleList data ∧
            axisData data' = axisData') as (-> & -> & ->).
    { destruct completed, (bufferList data);
        destruct Hout as [Hout|Hout]; by inversion Hout. }
    split; [done|]. split; [done|]. right. eauto.
  - intros Hout.
    assert (axisList data' = axisList data ∧
            helixbundleList data' = helixbundleList data ∧
            axisData data' = axisData data) as (-> & -> & ->).
    { destruct (bufferList data); destruct Hout as [Hout|Hout]; by inversion Hout. }
    split; [done|]. split; [done|]. by left.
Qed.

Lemma set_fits {A} (dst src : list A) offset :
  offset + length src ≤ length dst →
  ∃ dst', TypedArray.set dst src offset = Some dst' ∧
          length dst' = length dst ∧
          take (offset + length src) dst' = take offset dst ++ src ∧
          drop (offset + length src) dst' = drop (offset + length src) dst.
Proof.
  intros Hfit. unfold TypedArray.set. rewrite decide_True by done.
  eexists. split; [done|]. split; [|split].
  - rewrite !length_app, length_take, length_drop. lia.
  - rewrite (assoc_L (++)). rewrite take_app_length'; [done|].
    rewrite length_app, length_take. lia.
  - rewrite (assoc_L (++)). rewrite drop_app_length'; [done|].
    rewrite length_app, length_take. lia.
Qed.

Lemma set_Some_fits {A} (dst src dst' : list A) offset :
  TypedArray.set dst src offset = Some dst' → offset + length src ≤ length dst.
Proof. unfold TypedArray.set. by case_decide. Qed.

(** The update loop in closed form when the recomputed axes fit into the
    recorded arrays: the lanes asked for are rewritten from the running
    offset on, and what lies behind the last recomputed segment is kept. *)
Lemma helixbundleList_forEach_fits (this : t num) what helixbundles
    (axisData : Axis num) offset :
  Forall (λ axis, length (color axis) = segmentCount axis * 3)
    (recomputed this helixbundles) →
  (offset + offsetAfter (recomputed this helixbundles)) * 3 ≤ length (color axisData) →
  offset + offsetAfter (recomputed this helixbundles) ≤ length (size axisData) →
  helixbundleList_forEach this what helixbundles axisData offset
  = ({| begin := begin axisData;
        end_ := end_ axisData;
        size :=
          if What.radius what || What.scale what
          then take offset (size axisData)
               ++ mjoin (size <$> recomputed this helixbundles)
               ++ drop (offset + offsetAfter (recomputed this helixbundles))
                    (size axisData)
          else size axisData;
        color :=
          if What.color what
          then take (offset * 3) (color axisData)
               ++ mjoin (color <$> recomputed this helixbundles)
               ++ drop ((offset + offsetAfter (recomputed this helixbundles)) * 3)
                    (color axisData)
          else color axisData;
        pickingColor := pickingColor axisData |}, true).
Proof.
  revert axisData offset.
  induction helixbundles as [|helixbundle helixbundles IH];
    intros axisData offset Hwf Hcolor Hsize.
  - cbn in *. rewrite Nat.add_0_r in *. rewrite !take_drop.
    destruct axisData. cbn.
    by destruct (What.color what), (What.radius what || What.scale what).
  - unfold recomputed in *. rewrite fmap_cons in *.
    apply Forall_cons in Hwf as [Haxis Hwf].
    cbn [helixbundleList_forEach].
    set (axis := axisOf this helixbundle) in *.
    assert (offsetAfter (axis :: (axisOf this <$> helixbundles))
            = segmentCount axis + offsetAfter (axisOf this <$> helixbundles))
      as Hoff by done.
    rewrite Hoff in *. clear Hoff. unfold segmentCount in *.
    set (rest := offsetAfter (axisOf this <$> helixbundles)) in *.
    destruct (set_fits (color axisData) (color axis) (offset * 3))
      as (color' & Hset_c & Hlen_c & Htake_c & Hdrop_c); [lia|].
    destruct (set_fits (size axisData) (size axis) offset)
      as (size' & Hset_s & Hlen_s & Htake_s & Hdrop_s); [lia|].
    replace (offset * 3 + length (color axis))
      with ((offset + length (size axis)) * 3) in Htake_c, Hdrop_c by lia.
    assert (drop ((offset + length (size axis) + rest) * 3) color'
            = drop ((offset + (length (size axis) + rest)) * 3) (color axisData))
      as Hdrop_c'.
    { replace ((offset + length (size axis) + rest) * 3)
        with ((offset + length (size axis)) * 3 + rest * 3) by lia.
      rewrite <-drop_drop, Hdrop_c, drop_drop. f_equal. lia. }
    assert (drop (offset + length (size axis) + rest) size'
            = drop (offset + (length (size axis) + rest)) (size axisData))
      as Hdrop_s'.
    { rewrite <-drop_drop, Hdrop_s, drop_drop. f_equal. lia. }
    change (mjoin (?f <$> axis :: ?l)) with (f axis ++ mjoin (f <$> l)).
    destruct (What.color what) eqn:Hc;
      destruct (What.radius what || What.scale what) eqn:Hs;
      rewrite ?Hset_c; cbn [mbind option_bind color size];
      rewrite ?Hset_s; cbn [mbind option_bind color size];
      (rewrite IH; [|done|cbn; fold rest; lia|cbn; fold rest; lia]); cbn;
      fold rest;
      rewrite ?Htake_c, ?Htake_s, ?Hdrop_c', ?Hdrop_s', <-?(assoc_L (++)); done.
Qed.

(** A run of the update loop to its end under [radius] or [scale] means
    that every recomputed size array fitted. *)
Lemma helixbundleList_forEach_completed (this : t num) what helixbundles
    (axisData : Axis num) offset axisData' :
  What.radius what || What.scale what = true →
  offset ≤ length (size axisData) →
  helixbundleList_forEach this what helixbundles axisData offset
  = (axisData', true) →
  offset + offsetAfter (recomputed this helixbundles) ≤ length (size axisData).
Proof.
  intros Hflag. revert axisData offset.
  induction helixbundles as [|helixbundle helixbundles IH];
    intros axisData offset Hoffset.
  - cbn. unfold offsetAfter. cbn. lia.
  - cbn [helixbundleList_forEach]. rewrite Hflag.
    set (axis := axisOf this helixbundle).
    assert (offsetAfter (recomputed this (helixbundle :: helixbundles))
            = length (size axis) + offsetAfter (recomputed this helixbundles))
      as -> by done.
    destruct (if What.color what then _ else _) as [axisData1|] eqn:H1; [|done].
    assert (length (size axisData1) = length (size axisData)) as Hlen1.
    { destruct (What.color what); [|by injection H1 as <-].
      destruct (TypedArray.set _ _ _); [|done]. by injection H1 as <-. }
    destruct (TypedArray.set (size axisData1) (size axis) offset)
      as [size'|] eqn:Hs; cbn [mbind option_bind]; [|done].
    pose proof (set_Some_fits _ _ _ _ Hs) as Hfit.
    apply set_length in Hs.
    intros Hloop. apply IH in Hloop; cbn in *; lia.
Qed.

Lemma axisList_callback_lengths (axisData : Axis num) offset axis axisData' offset' :
  axisList_callback (axisData, offset) axis = Some (axisData', offset') →
  sameLengths axisData' axisData ∧ offset' = offset + segmentCount axis.
Proof.
  unfold axisList_callback.
  destruct (TypedArray.set (begin axisData) _ _) as [b|] eqn:Hb; [|done].
  destruct (TypedArray.set (end_ axisData) _ _) as [e|] eqn:He; [|done].
  destruct (TypedArray.set (size axisData) _ _) as [s|] eqn:Hs; [|done].
  destruct (TypedArray.set (color axisData) _ _) as [c|] eqn:Hc; [|done].
  destruct (TypedArray.set (pickingColor axisData) _ _) as [p|] eqn:Hp; [|done].
  cbn. intros [= <- <-].
  apply set_length in Hb, He, Hs, Hc, Hp. by repeat split.
Qed.

Lemma axisList_forEach_lengths axes (axisData : Axis num) offset axisData' offset' :
  axisList_forEach axes (axisData, offset) = Some (axisData', offset') →
  sameLengths axisData' axisData ∧ offset' = offset + offsetAfter axes.
Proof.
  revert axisData offset.
  induction axes as [|axis axes IH]; intros axisData offset.
  - cbn. intros [= <- <-]. split; [apply sameLengths_refl|].
    unfold offsetAfter. cbn. lia.
  - cbn [axisList_forEach].
    destruct (axisList_callback (axisData, offset) axis) as [[axisData1 offset1]|]
      eqn:Hstep; [|done].
    cbn [mbind option_bind]. intros Hrest.
    apply axisList_callback_lengths in Hstep as [Hlen1 ->].
    apply IH in Hrest as [Hlen ->].
    split; [by eapply sameLengths_trans|].
    unfold offsetAfter. rewrite fmap_cons. cbn. lia.
Qed.

Lemma eligibleAxes_recomputed (this : t num) (polymers : list (Polymer num)) :
  recomputed this (Helixbundle_new <$> List.filter eligible polymers)
  = eligibleAxes this polymers.
Proof. unfold recomputed, eligibleAxes. by rewrite <-list_fmap_compose. Qed.

(** What [createData] returns, whatever the axes look like. *)
Lemma createData_Some (this : t num) (polymers : list (Polymer num)) data :
  createData this polymers = Some data →
  ∃ buffer,
    bufferList data = [buffer] ∧
    axisList data = eligibleAxes this polymers ∧
    helixbundleList data = Helixbundle_new <$> List.filter eligible polymers ∧
    sameLengths (axisData data) (filled [] (offsetAfter (eligibleAxes this polymers))).
Proof.
  unfold createData. rewrite eachPolymer_foldl. cbn [app]. rewrite Nat.add_0_l.
  destruct (axisList_forEach _ _) as [[axisData offset]|] eqn:Hloop; [|done].
  cbn [mbind option_bind]. intros [= <-]. cbn.
  apply axisList_forEach_lengths in Hloop as [Hlen _].
  eexists. repeat split; try done; apply Hlen.
Qed.

End RocketExtraFacts.
End RocketExtraFacts.

Module DistanceExtraFacts.
Import DistanceRepresentation DistanceSpec DistanceFacts DistanceUpdate.
Section DistanceExtraFacts.
Context `{Number num}.

Lemma length_filter_all {A} (P : A → Prop) `{!∀ x, Decision (P x)} (l : list A) :
  length (filter P l) = length l ↔ Forall P l.
Proof.
  induction l as [|x l IH]; [by split; [constructor|]|].
  rewrite filter_cons. pose proof (length_filter P l) as Hle.
  case_decide as Hx; cbn.
  - split.
    + intros [= Hlen]. constructor; [done|]. by apply IH.
    + intros [_ Hall]%Forall_cons. f_equal. by apply IH.
  - split; [lia|]. by intros [? _]%Forall_cons.
Qed.

Lemma omap_representatives_ext (sview sview' : StructureView num)
    (atomPair : list (string * string)) :
  (∀ sele, head (getAtomIndices sview sele) = head (getAtomIndices sview' sele)) →
  omap (representatives sview) atomPair = omap (representatives sview') atomPair.
Proof.
  intros Hhead. induction atomPair as [|pair atomPair IH]; [done|].
  cbn [omap list_omap]. fold (omap (representatives sview) atomPair).
  fold (omap (representatives sview') atomPair).
  rewrite IH. unfold representatives. by rewrite !Hhead.
Qed.

Lemma omap_labels {A} (labels : list A) room :
  omap id ((Some <$> labels) ++ JsArray.alloc room) = labels.
Proof.
  rewrite omap_app.
  assert (omap id (JsArray.alloc (A:=A) room) = []) as ->.
  { unfold JsArray.alloc. induction room as [|room IH]; [done|]. cbn. exact IH. }
  rewrite app_nil_r. induction labels as [|x labels IH]; [done|].
  cbn. f_equal. exact IH.
Qed.

Lemma omap_labels_compose {A B} (f : A → B) (reps : list A) room :
  omap id ((Some ∘ f <$> reps) ++ JsArray.alloc room) = f <$> reps.
Proof. by rewrite (list_fmap_compose f Some), omap_labels. Qed.

Lemma omap_representatives_none (sview : StructureView num)
    (atomPair : list (string * string)) :
  Forall (λ pair, ¬ Resolves sview pair) atomPair →
  omap (representatives sview) atomPair = [].
Proof.
  induction 1 as [|pair pairs Hpair _ IH]; [done|].
  cbn. apply representatives_None in Hpair. by rewrite Hpair.
Qed.

Lemma textData_no_position (this : t num) what (data : Data num) :
  What.position what = false →
  textData this what data !! "position" = None.
Proof.
  intros Hp. unfold textData. rewrite Hp.
  destruct (labelColor this) as [[c_r c_g] c_b].
  destruct (What.labelSize what), (What.labelColor what);
    rewrite ?lookup_insert_ne, ?lookup_empty by discriminate; reflexivity.
Qed.

Lemma textData_position (this : t num) what (data : Data num) :
  What.position what = true →
  textData this what data !! "position" = Some (entry_position data).
Proof.
  intros Hp. unfold textData. rewrite Hp.
  destruct (labelColor this) as [[c_r c_g] c_b].
  destruct (What.labelSize what), (What.labelColor what);
    rewrite ?lookup_insert_ne by discriminate; apply lookup_insert_eq.
Qed.

Lemma textData_empty (this : t num) what (data : Data num) :
  What.position what = false → What.labelSize what = false →
  What.labelColor what = false →
  textData this what data = ∅.
Proof.
  intros Hp Hs Hc. unfold textData. rewrite Hp, Hs, Hc.
  by destruct (labelColor this) as [[? ?] ?].
Qed.

Lemma cylinderData_empty what (bondData : BondData num) :
  What.position what = false → What.color what = false →
  What.radius what = false → What.scale what = false →
  cylinderData what bondData = ∅.
Proof. intros Hp Hc Hr Hs. unfold cylinderData. by rewrite Hp, Hc, Hr, Hs. Qed.

Lemma cylinderData_no_position what (bondData : BondData num) name :
  What.position what = false →
  name = "position" ∨ name = "position1" ∨ name = "position2" →
  cylinderData what bondData !! name = None.
Proof.
  intros Hp Hname. unfold cylinderData. rewrite Hp.
  destruct (What.color what), (What.radius what || What.scale what);
    destruct Hname as [Hname|[Hname|Hname]]; subst name;
    rewrite ?lookup_insert_ne, ?lookup_empty by discriminate; reflexivity.
Qed.

End DistanceExtraFacts.
End DistanceExtraFacts.

Module ViewerFacts.
Import ViewerControls ViewerScene ViewerSpec.
Section ViewerFacts.
Context `{Number num} {Rotation Rest Matrix4 : Type}.
Context `{!ViewerMethods num Rotation Rest}.
Context `{!SceneMethods num Rotation Rest}.
Context `{!RotationMethods num Rotation Matrix4}.

Lemma distance_pose (depth : num) (viewer : Viewer num Rotation Rest) :
  keepsPose updateZoom → keepsPose requestRender →
  rotationGroup (distance depth viewer) = rotationGroup viewer ∧
  translationGroup_position (distance depth viewer)
  = translationGroup_position viewer ∧
  camera_position (distance depth viewer)
  = {| x := x (camera_position viewer); y := y (camera_position viewer);
       z := depth |}.
Proof.
  intros Hzoom Hrender. unfold distance.
  destruct (Hrender (updateZoom (set_camera_z viewer depth))) as (-> & -> & ->).
  destruct (Hzoom (set_camera_z viewer depth)) as (-> & -> & ->).
  done.
Qed.

Lemma center_pose (position : Vector3 num) (viewer : Viewer num Rotation Rest) :
  keepsPose requestRender →
  rotationGroup (center position viewer) = rotationGroup viewer ∧
  translationGroup_position (center position viewer)
  = {| x := num_neg (x position); y := num_neg (y position);
       z := num_neg (z position) |} ∧
  camera_position (center position viewer) = camera_position viewer.
Proof.
  intros Hrender. unfold center.
  destruct (Hrender (set_translation viewer
              {| x := num_neg (x position); y := num_neg (y position);
                 z := num_neg (z position) |})) as (-> & -> & ->).
  done.
Qed.

Lemma translate_pose (vector : Vector3 num) (viewer : Viewer num Rotation Rest) :
  keepsPose requestRender →
  rotationGroup (translate vector viewer) = rotationGroup viewer ∧
  translationGroup_position (translate vector viewer)
  = {| x := num_add (x (translationGroup_position viewer)) (x vector);
       y := num_add (y (translationGroup_position viewer)) (y vector);
       z := num_add (z (translationGroup_position viewer)) (z vector) |} ∧
  camera_position (translate vector viewer) = camera_position viewer.
Proof.
  intros Hrender. unfold translate.
  match goal with
  | |- context [requestRender ?v] => destruct (Hrender v) as (-> & -> & ->)
  end.
  done.
Qed.

Lemma centerScene_pose (viewer : Viewer num Rotation Rest) :
  keepsPose requestRender →
  rotationGroup (centerScene viewer) = rotationGroup viewer ∧
  camera_position (centerScene viewer) = camera_position viewer.
Proof.
  intros Hrender. unfold centerScene.
  destruct (boundingBox_isEmpty viewer); cbn; [done|].
  by destruct (center_pose (boundingBox_center viewer) viewer Hrender)
    as (-> & _ & ->).
Qed.

End ViewerFacts.
End ViewerFacts.

Module InitFacts.
Section InitFacts.
Context `{Number num} `{!Truthiness num}.

Lemma number_or_truthy (a : option num) (b : num) :
  truthy b = true → truthy (Js.number_or a b) = true.
Proof.
  intros Hb. unfold Js.number_or. destruct a as [a|]; [|done].
  by destruct (truthy a) eqn:Ha.
Qed.

Lemma string_or_nonempty (a : option string) (b : string) :
  b ≠ EmptyString → Js.string_or a b ≠ EmptyString.
Proof.
  intros Hb. unfold Js.string_or. destruct a as [a|]; [|done].
  by case_decide.
Qed.

End InitFacts.
End InitFacts.

(* ===================================================================== *)
(** * Theorems *)
(* ===================================================================== *)

Module RocketTheorems.
Import RocketRepresentation RocketSpec RocketFacts Examples.
Section RocketTheorems.
Context `{Number num}.

(** C3. Axis concatenation: when the axes of the eligible polymers are flat
    arrays with one entry per segment, [createData] returns; its axis list
    holds the axes of the eligible polymers in polymer iteration order; the
    concatenated arrays have the sum of the segment counts as their length
    (times three for points and colors); and segment [i] of the [k]-th axis
    is found at offset [c_0 + ... + c_(k-1) + i], the running offset after
    the first [k] axes plus [i]. *)
Theorem createData_concatenates (this : t num) (polymers : list (Polymer num)) :
  Forall wellFormed (eligibleAxes this polymers) →
  ∃ data,
    createData this polymers = Some data ∧
    axisList data = eligibleAxes this polymers ∧
    length (size (axisData data)) = offsetAfter (axisList data) ∧
    length (begin (axisData data)) = offsetAfter (axisList data) * 3 ∧
    length (end_ (axisData data)) = offsetAfter (axisList data) * 3 ∧
    length (color (axisData data)) = offsetAfter (axisList data) * 3 ∧
    length (pickingColor (axisData data)) = offsetAfter (axisList data) * 3 ∧
    ∀ k axis i,
      axisList data !! k = Some axis → i < segmentCount axis →
      let offset := offsetAfter (take k (axisList data)) in
      size (axisData data) !! (offset + i) = size axis !! i ∧
      ∀ d, d < 3 →
        begin (axisData data) !! ((offset + i) * 3 + d) = begin axis !! (i * 3 + d) ∧
        end_ (axisData data) !! ((offset + i) * 3 + d) = end_ axis !! (i * 3 + d) ∧
        color (axisData data) !! ((offset + i) * 3 + d) = color axis !! (i * 3 + d) ∧
        pickingColor (axisData data) !! ((offset + i) * 3 + d)
        = pickingColor axis !! (i * 3 + d).
Proof.
  intros Hwf. rewrite createData_eq by done.
  destruct (wellFormed_channels _ Hwf) as (Hb & He & Hc & Hp).
  eexists. split; [reflexivity|]. cbn [axisList axisData concatenated
    begin end_ size color pickingColor].
  split; [done|].
  split; [apply length_join_size|].
  do 4 (split; [by apply length_join_stride|]).
  intros k axis i Hk Hi. cbv zeta. split.
  - rewrite <-offsetAfter_take_size.
    apply join_lookup_segment; [by rewrite list_lookup_fmap, Hk | done].
  - intros d Hd.
    repeat split; by apply concatenated_lookup_stride.
Qed.

(** C10. Eligibility: the callback of [createData] skips a polymer exactly
    when it has fewer than four residues or is nucleic, that is, when it is
    not eligible; a skipped polymer leaves the accumulated state as it is,
    an eligible one appends its axis; hence [createData] yields the same
    result as on the eligible polymers alone, and what it returns lists
    the axes and helix bundles of exactly the eligible polymers. *)
Theorem createData_eligibility (this : t num) (polymers : list (Polymer num)) :
  (∀ polymer : Polymer num,
     eligible polymer = true ↔
     (4 ≤ residueCount polymer)%Z ∧ isNucleic polymer = false) ∧
  (∀ st polymer,
     eligible polymer = false → eachPolymer_callback this st polymer = st) ∧
  (∀ length_ axisList helixbundleList polymer,
     eligible polymer = true →
     eachPolymer_callback this (length_, axisList, helixbundleList) polymer
     = (length_ + segmentCount (axisOf this (Helixbundle_new polymer)),
        axisList ++ [axisOf this (Helixbundle_new polymer)],
        helixbundleList ++ [Helixbundle_new polymer])) ∧
  createData this polymers = createData this (List.filter eligible polymers) ∧
  (∀ data,
     createData this polymers = Some data →
     axisList data = eligibleAxes this polymers ∧
     helixbundleList data = Helixbundle_new <$> List.filter eligible polymers).
Proof.
  split; [|split; [|split; [|split]]].
  - intros polymer. unfold eligible.
    rewrite andb_true_iff, bool_decide_eq_true, negb_true_iff. done.
  - intros [[length_ axisList] helixbundleList] polymer Hne.
    by rewrite eachPolymer_callback_eq, Hne.
  - intros length_ axisList helixbundleList polymer He.
    by rewrite eachPolymer_callback_eq, He.
  - unfold createData. rewrite !eachPolymer_foldl.
    unfold eligibleAxes. by rewrite filter_eligible_idemp.
  - intros data. unfold createData. rewrite eachPolymer_foldl. cbn [app].
    destruct (axisList_forEach _ _) as [[axisData offset]|]; [|done].
    cbn [mbind option_bind]. by intros [= <-].
Qed.

End RocketTheorems.

(** On polymers with segment counts 3, 0 and 5 (and two polymers that are
    not eligible): the concatenated size array has length 8, and the last
    segment of the third axis is found at offset 3 + 4. *)
Lemma createData_concatenates_witness :
  Forall wellFormed (eligibleAxes (Examples.rocketZ 1) Examples.polymersZ) ∧
  ∃ data,
    createData (Examples.rocketZ 1) Examples.polymersZ = Some data ∧
    length (size (axisData data)) = 8 ∧
    size (axisData data) !! (3 + 4) = Some 503%Z.
Proof.
  assert (Forall wellFormed (eligibleAxes (Examples.rocketZ 1) Examples.polymersZ))
    as Hwf by (repeat constructor).
  split; [exact Hwf|].
  destruct (createData_concatenates (Examples.rocketZ 1) Examples.polymersZ Hwf)
    as (data & Hdata & Haxes & Hsize & _ & _ & _ & _ & Hsegment).
  exists data. split; [exact Hdata|]. split.
  - rewrite Hsize, Haxes. reflexivity.
  - destruct (Hsegment 2 (Examples.axisZ 5 501) 4) as [Hs _].
    + rewrite Haxes. reflexivity.
    + vm_compute. lia.
    + rewrite Haxes in Hs. exact Hs.
Defined.

(** On the example polymers, [createData] agrees with its run on the
    eligible polymers alone. *)
Lemma createData_eligibility_witness :
  createData (rocketZ 1) polymersZ
  = createData (rocketZ 1) (List.filter eligible polymersZ).
Proof.
  exact (proj1 (proj2 (proj2 (proj2
    (createData_eligibility (rocketZ 1) polymersZ))))).
Defined.

End RocketTheorems.

Module UpdateTheorems.
Import RocketRepresentation RocketSpec RocketFacts RocketUpdateFacts BufferFacts Examples.
Section UpdateTheorems.
Context `{Number num}.

(** C4. Partial update isolation.  For a change-set without position:
    whatever the outcome of [updateData] of the rocket representation, the
    begin, end and picking-color arrays of the concatenated axis data are
    as before, the color array changes only under [color] and the size
    array only under [radius] (or [scale]); the buffer keeps every channel
    that the change-set does not name; and when the recomputed axes have
    the recorded segment counts, the update runs to its end and writes the
    recomputed colors and sizes at the recorded offsets.  In general,
    [setAttributes] leaves every channel it is not given as it is and
    stores the supplied array in each channel it is given; and the label
    representation hands [setAttributes] the channels of its change-set
    only. *)
Theorem partial_update_isolation (this : t num) (what : What.t) (data : Data num) :
  What.position what = false →
  (∀ data',
     updateData this (Some what) data = Patched data'
     ∨ updateData this (Some what) data = Threw data' →
     begin (axisData data') = begin (axisData data) ∧
     end_ (axisData data') = end_ (axisData data) ∧
     pickingColor (axisData data') = pickingColor (axisData data) ∧
     (What.color what = false → color (axisData data') = color (axisData data)) ∧
     (What.radius what = false → What.scale what = false →
      size (axisData data') = size (axisData data))) ∧
  (∀ data' buffer0 buffers,
     updateData this (Some what) data = Patched data' →
     bufferList data = buffer0 :: buffers →
     ∃ buffer0',
       bufferList data' = buffer0' :: buffers ∧
       Buffer.pickable buffer0' = Buffer.pickable buffer0 ∧
       ∀ name,
         (name = "color" ∨ name = "color2" → What.color what = false) →
         (name = "radius" → What.radius what = false ∧ What.scale what = false) →
         Buffer.attributes buffer0' !! name = Buffer.attributes buffer0 !! name) ∧
  (∀ this0 polymers,
     createData this0 polymers = Some data →
     Forall wellFormed (eligibleAxes this0 polymers) →
     Forall wellFormed (recomputed this (helixbundleList data)) →
     Forall2 (λ old new, segmentCount new = segmentCount old)
       (axisList data) (recomputed this (helixbundleList data)) →
     ∃ data',
       updateData this (Some what) data = Patched data' ∧
       (What.color what = true →
        ∀ k axis i d,
          recomputed this (helixbundleList data) !! k = Some axis →
          i < segmentCount axis → d < 3 →
          color (axisData data')
            !! ((offsetAfter (take k (axisList data)) + i) * 3 + d)
          = color axis !! (i * 3 + d)) ∧
       (What.radius what = true →
        ∀ k axis i,
          recomputed this (helixbundleList data) !! k = Some axis →
          i < segmentCount axis →
          size (axisData data') !! (offsetAfter (take k (axisList data)) + i)
          = size axis !! i)) ∧
  (∀ (changes : gmap string (list num)) (b : Buffer.t num) name,
     (changes !! name = None →
      Buffer.attributes (Buffer.setAttributes changes b) !! name
      = Buffer.attributes b !! name) ∧
     (∀ array channel,
        changes !! name = Some array → Buffer.attributes b !! name = Some channel →
        Buffer.attributes (Buffer.setAttributes changes b) !! name
        = Some (Buffer.write channel array))) ∧
  (∀ (labelWhat : option What.t) (labelData : LabelRepresentation.Data num)
     buffer0 buffers,
     LabelRepresentation.bufferList labelData = buffer0 :: buffers →
     ∃ buffer0',
       LabelRepresentation.updateData labelWhat labelData
       = Some {| LabelRepresentation.sview := LabelRepresentation.sview labelData;
                 LabelRepresentation.bufferList := buffer0' :: buffers |} ∧
       TextBuffer.text buffer0' = TextBuffer.text buffer0 ∧
       ∀ name,
         (name = "position" →
          LabelRepresentation.requested labelWhat What.position = false) →
         (name = "size" →
          LabelRepresentation.requested labelWhat What.radius = false) →
         (name = "color" →
          LabelRepresentation.requested labelWhat What.color = false) →
         Buffer.attributes (TextBuffer.buffer buffer0') !! name
         = Buffer.attributes (TextBuffer.buffer buffer0) !! name).
Proof.
  intros Hposition. split; [|split; [|split; [|split]]].
  - intros data'. by apply updateData_axisData_frame.
  - intros data' buffer0 buffers. by apply updateData_buffer_frame.
  - intros this0 polymers. by apply updateData_writes.
  - intros changes b name. split.
    + apply setAttributes_unnamed.
    + intros array channel. apply setAttributes_named.
  - intros labelWhat labelData buffer0 buffers Hbuffers.
    unfold LabelRepresentation.updateData. rewrite Hbuffers.
    eexists. split; [done|]. split; [done|].
    intros name Hp Hs Hc. cbn [TextBuffer.setAttributes TextBuffer.buffer].
    apply setAttributes_unnamed. rewrite LabelFacts.textData_lookup.
    repeat case_decide; try done.
    + by rewrite Hc.
    + by rewrite Hs.
    + by rewrite Hp.
Qed.

(** C5. A change-set with position makes [updateData] call [this.build()]
    and return: the outcome is the rebuild, never a patch of the existing
    concatenated arrays. *)
Theorem updateData_position_rebuilds (this : t num) (what : What.t) (data : Data num) :
  What.position what = true →
  updateData this (Some what) data = Rebuild ∧
  ∀ data', updateData this (Some what) data ≠ Patched data'
           ∧ updateData this (Some what) data ≠ Threw data'.
Proof.
  intros Hposition. unfold updateData.
  change (default What.empty (Some what)) with what. cbv zeta.
  rewrite Hposition. done.
Qed.

End UpdateTheorems.

(** On the data built from the example polymers, an update for the
    change-set [{ color: true }] after a parameter change runs to its end
    and leaves the begin, end and size arrays as they are. *)
Lemma partial_update_isolation_witness :
  What.position whatColor = false ∧
  (∃ data', updateData (rocketZ 7) (Some whatColor) dataZ = Patched data') ∧
  ∀ data',
    updateData (rocketZ 7) (Some whatColor) dataZ = Patched data' →
    begin (axisData data') = begin (axisData dataZ) ∧
    end_ (axisData data') = end_ (axisData dataZ) ∧
    size (axisData data') = size (axisData dataZ).
Proof.
  split; [reflexivity|]. split.
  - vm_compute. eexists. reflexivity.
  - intros data' Hupdate.
    destruct (partial_update_isolation (rocketZ 7) whatColor dataZ eq_refl)
      as [Hframe _].
    destruct (Hframe data' (or_introl Hupdate)) as (Hb & He & _ & _ & Hs).
    split; [exact Hb|]. split; [exact He | exact (Hs eq_refl eq_refl)].
Defined.

(** On the change-set [{ position: true }] the update is a rebuild. *)
Lemma updateData_position_rebuilds_witness :
  What.position whatPosition = true ∧
  updateData (rocketZ 1) (Some whatPosition) emptyDataZ = Rebuild.
Proof.
  split; [reflexivity|].
  exact (proj1 (updateData_position_rebuilds (rocketZ 1) whatPosition emptyDataZ eq_refl)).
Defined.

End UpdateTheorems.

Module DistanceTheorems.
Import DistanceRepresentation DistanceSpec DistanceFacts Examples.
Section DistanceTheorems.
Context `{Number num}.

(** C2. For the [k]-th pair that resolves: the representative of either
    side is the first index of the side's index list; the [k]-th label text
    is the distance between the two representatives formatted with two
    decimal digits; the [k]-th label position is the componentwise midpoint
    of the two representatives; and the [k]-th bond joins them. *)
Theorem getDistanceData_resolved_pair (sview : StructureView num)
    (atomPair : list (string * string)) (k : nat) (pair : string * string) :
  filter (Resolves sview) atomPair !! k = Some pair →
  ∃ index1 index2,
    head (getAtomIndices sview pair.1) = Some index1 ∧
    head (getAtomIndices sview pair.2) = Some index2 ∧
    let data := getDistanceData sview atomPair in
    data_text data !! k = Some (Some (toFixed (distanceTo sview index1 index2) 2)) ∧
    data_position data !! (k * 3 + 0)
    = Some (num_half (num_add (atom_x sview index1) (atom_x sview index2))) ∧
    data_position data !! (k * 3 + 1)
    = Some (num_half (num_add (atom_y sview index1) (atom_y sview index2))) ∧
    data_position data !! (k * 3 + 2)
    = Some (num_half (num_add (atom_z sview index1) (atom_z sview index2))) ∧
    data_bondStore data !! k = Some (index1, index2, 1).
Proof.
  intros Hk. destruct (resolved_lookup _ _ _ _ Hk) as (index1 & index2 & H1 & H2 & Hreps).
  exists index1, index2. split; [done|]. split; [done|].
  rewrite getDistanceData_eq. cbn [data_text data_position data_bondStore].
  split; [|split; [|split; [|split]]].
  - apply lookup_app_l_Some. by rewrite list_lookup_fmap, Hreps.
  - by rewrite (midpoints_lookup sview _ k (index1, index2) 0) by (done || lia).
  - by rewrite (midpoints_lookup sview _ k (index1, index2) 1) by (done || lia).
  - by rewrite (midpoints_lookup sview _ k (index1, index2) 2) by (done || lia).
  - by rewrite list_lookup_fmap, Hreps.
Qed.

(** C9. With an empty structure view or an empty pair list, [create]
    returns at once: the representation is left as it is, no buffer is
    made and no entry is pushed on the data list. *)
Theorem create_empty_noop (this : t num) :
  atomCount (structureView this) = 0 ∨ atomPair this = [] →
  create this = this ∧
  textBuffer (create this) = textBuffer this ∧
  cylinderBuffer (create this) = cylinderBuffer this ∧
  dataList (create this) = dataList this.
Proof.
  intros Hempty.
  assert (create this = this) as ->; [|done].
  unfold create. destruct Hempty as [Hview|Hpairs].
  - by rewrite bool_decide_eq_true_2.
  - case_bool_decide; [done|]. by rewrite Hpairs, bool_decide_eq_true_2.
Qed.

(** Otherwise [create] makes the text buffer and the cylinder buffer and
    pushes one entry that lists both. *)
Lemma create_nonempty (this : t num) :
  atomCount (structureView this) ≠ 0 → atomPair this ≠ [] →
  ∃ textBuffer' cylinderBuffer' entry,
    textBuffer (create this) = Some textBuffer' ∧
    cylinderBuffer (create this) = Some cylinderBuffer' ∧
    dataList (create this) = dataList this ++ [entry] ∧
    bufferList entry = [Text textBuffer'; Cylinder cylinderBuffer'].
Proof.
  intros Hview Hpairs. unfold create.
  rewrite bool_decide_eq_false_2 by done.
  rewrite bool_decide_eq_false_2 by (by destruct (atomPair this)).
  destruct (labelColor this) as [[c_r c_g] c_b]. cbn. eauto 10.
Qed.

End DistanceTheorems.

(** C1, on the pair list [(A, B); (A, Z)] over a view in which [Z] selects
    nothing.  One pair resolves and [create] makes the text buffer without
    raising an error.  The label position array has the length of the one
    resolved pair (3 numbers), but the label text array keeps the two
    slots of the input pairs, the second one empty, and the label size and
    label color arrays are made for two pairs (2 and 6 numbers). *)
Theorem create_dropped_pair_lengths :
  ∃ textBuffer' : TextBuffer.t Z,
    textBuffer (create (distanceZ [("A", "B"); ("A", "Z")])) = Some textBuffer' ∧
    length (filter (Resolves sviewZ) [("A", "B"); ("A", "Z")]) = 1 ∧
    TextBuffer.text textBuffer' = [Some "10.00"; None] ∧
    Buffer.attributes (TextBuffer.buffer textBuffer') !! "position"
    = Some [3; 4; 0]%Z ∧
    Buffer.attributes (TextBuffer.buffer textBuffer') !! "size" = Some [2; 2]%Z ∧
    Buffer.attributes (TextBuffer.buffer textBuffer') !! "color"
    = Some [1; 1; 1; 1; 1; 1]%Z.
Proof.
  eexists. split; [reflexivity|]. vm_compute. repeat split.
Qed.

(** On the pair list [(Z, A); (AB, B)]: the first pair is dropped, and the
    second one, whose left side selects two atoms, is labelled at slot 0
    from atom 0 and atom 1. *)
Lemma getDistanceData_resolved_pair_witness :
  filter (Resolves sviewZ) [("Z", "A"); ("AB", "B")] !! 0 = Some ("AB", "B") ∧
  data_text (getDistanceData sviewZ [("Z", "A"); ("AB", "B")]) !! 0
  = Some (Some (toFixed (distanceTo sviewZ 0 1) 2)) ∧
  data_position (getDistanceData sviewZ [("Z", "A"); ("AB", "B")]) !! (0 * 3 + 1)
  = Some (num_half (num_add (atom_y sviewZ 0) (atom_y sviewZ 1))).
Proof.
  assert (filter (Resolves sviewZ) [("Z", "A"); ("AB", "B")] !! 0
          = Some ("AB", "B")) as Hk by reflexivity.
  split; [exact Hk|].
  destruct (getDistanceData_resolved_pair sviewZ _ 0 _ Hk)
    as (index1 & index2 & H1 & H2 & Htext & _ & Hy & _).
  injection H1 as <-. injection H2 as <-.
  split; [exact Htext | exact Hy].
Defined.

(** On the empty pair list, [create] leaves the fresh representation
    as it is. *)
Lemma create_empty_noop_witness :
  (atomCount (structureView (distanceZ [])) = 0 ∨ atomPair (distanceZ []) = []) ∧
  create (distanceZ []) = distanceZ [] ∧
  dataList (create (distanceZ [])) = [].
Proof.
  assert (atomCount (structureView (distanceZ [])) = 0 ∨ atomPair (distanceZ []) = [])
    as Hempty by (right; reflexivity).
  split; [exact Hempty|].
  destruct (create_empty_noop (distanceZ []) Hempty) as (Hnoop & _ & _ & Hlist).
  split; [exact Hnoop | exact Hlist].
Defined.

End DistanceTheorems.

Module HyperballTheorems.
Import HyperballStickImpostorBuffer HyperballSpec BufferFacts HyperballFacts Examples.
Section HyperballTheorems.
Context `{Number num}.

(** C6. The buffer is pickable exactly when a picking color is supplied
    to the constructor.  Without one, the buffer is not pickable and owns
    no picking channel.  With one, it is pickable and each picking channel
    has the length of the color channel it parallels. *)
Theorem pickable_iff_picking_color
    (position1 position2 color color2 radius1 radius2 : list num)
    (pickingColor pickingColor2 : option (list num))
    (params : option (Params num)) :
  let buffer :=
    new position1 position2 color color2 radius1 radius2
      pickingColor pickingColor2 params in
  (Buffer.pickable buffer = true ↔ is_Some pickingColor) ∧
  (pickingColor = None →
   Buffer.pickable buffer = false ∧
   Buffer.attributes buffer !! "pickingColor" = None ∧
   Buffer.attributes buffer !! "pickingColor2" = None) ∧
  (is_Some pickingColor →
   Buffer.pickable buffer = true ∧
   ∃ picking picking2 primary primary2 : list num,
     Buffer.attributes buffer !! "pickingColor" = Some picking ∧
     Buffer.attributes buffer !! "pickingColor2" = Some picking2 ∧
     Buffer.attributes buffer !! "color" = Some primary ∧
     Buffer.attributes buffer !! "color2" = Some primary2 ∧
     length picking = length primary ∧
     length picking2 = length primary2).
Proof.
  cbv zeta. destruct pickingColor as [pickingColor|].
  - pose proof (picked_pickable position1 position2 color color2 radius1 radius2
                  pickingColor pickingColor2 params) as Hpickable.
    split; [|split].
    + split; [by eexists | intros _; exact Hpickable].
    + discriminate.
    + intros _. split; [exact Hpickable|].
      destruct (picked_channels position1 position2 color color2 radius1 radius2
                  pickingColor pickingColor2 params) as (Hp & Hp2 & Hc & Hc2).
      cbv zeta in Hp, Hp2, Hc, Hc2.
      eexists _, _, _, _.
      split; [exact Hp|]. split; [exact Hp2|].
      split; [exact Hc|]. split; [exact Hc2|].
      split.
      * by rewrite !write_length.
      * destruct pickingColor2; by rewrite !write_length.
  - change (new position1 position2 color color2 radius1 radius2
              None pickingColor2 params)
      with (unpicked position1 position2 color color2 radius1 radius2 params).
    pose proof (unpicked_pickable position1 position2 color color2 radius1 radius2
                  params) as Hpickable.
    split; [|split].
    + rewrite Hpickable. split; [discriminate | intros [? [=]]].
    + intros _. split; [exact Hpickable|].
      rewrite !unpicked_lookup. cbv zeta.
      rewrite !decide_False by discriminate. split; reflexivity.
    + intros [? [=]].
Qed.

End HyperballTheorems.

(** A buffer constructed with picking colors is pickable, one constructed
    without is not. *)
Lemma pickable_iff_picking_color_witness :
  Buffer.pickable
    (new [0; 0; 0]%Z [6; 8; 0]%Z [1; 1; 1]%Z [1; 1; 1]%Z [2]%Z [2]%Z
       (Some [0; 0; 1]%Z) (Some [0; 0; 1]%Z) None) = true ∧
  Buffer.pickable
    (new [0; 0; 0]%Z [6; 8; 0]%Z [1; 1; 1]%Z [1; 1; 1]%Z [2]%Z [2]%Z
       None None None) = false.
Proof.
  split.
  - apply (pickable_iff_picking_color [0; 0; 0]%Z [6; 8; 0]%Z [1; 1; 1]%Z
             [1; 1; 1]%Z [2]%Z [2]%Z (Some [0; 0; 1]%Z) (Some [0; 0; 1]%Z) None).
    by eexists.
  - apply (pickable_iff_picking_color [0; 0; 0]%Z [6; 8; 0]%Z [1; 1; 1]%Z
             [1; 1; 1]%Z [2]%Z [2]%Z None None None).
    reflexivity.
Defined.

End HyperballTheorems.

Module ViewerTheorems.
Import ViewerControls Examples.
Section ViewerTheorems.
Context `{Number num} {Rotation Rest : Type}.
Context `{!ViewerMethods num Rotation Rest}.

(** C8. Provided the viewer's [updateZoom] and [requestRender] write
    neither the rotation group, nor the translation, nor the camera
    position, [distance( z )] sets the camera's depth coordinate to exactly
    [z] and leaves the rotation and the translation as they are. *)
Theorem distance_sets_depth (depth : num) (viewer : Viewer num Rotation Rest) :
  (∀ v, rotationGroup (updateZoom v) = rotationGroup v ∧
        translationGroup_position (updateZoom v) = translationGroup_position v ∧
        camera_position (updateZoom v) = camera_position v) →
  (∀ v, rotationGroup (requestRender v) = rotationGroup v ∧
        translationGroup_position (requestRender v) = translationGroup_position v ∧
        camera_position (requestRender v) = camera_position v) →
  z (camera_position (distance depth viewer)) = depth ∧
  x (camera_position (distance depth viewer)) = x (camera_position viewer) ∧
  y (camera_position (distance depth viewer)) = y (camera_position viewer) ∧
  rotationGroup (distance depth viewer) = rotationGroup viewer ∧
  translationGroup_position (distance depth viewer)
  = translationGroup_position viewer.
Proof.
  intros Hzoom Hrender. unfold distance.
  destruct (Hrender (updateZoom (set_camera_z viewer depth))) as (-> & -> & ->).
  destruct (Hzoom (set_camera_z viewer depth)) as (-> & -> & ->).
  done.
Qed.

End ViewerTheorems.

(** On the example viewer, whose [updateZoom] and [requestRender] only
    write the zoom factor and the render flag. *)
Lemma distance_sets_depth_witness :
  (∀ v : Viewer Z Z (Z * bool),
     rotationGroup (updateZoom v) = rotationGroup v ∧
     translationGroup_position (updateZoom v) = translationGroup_position v ∧
     camera_position (updateZoom v) = camera_position v) ∧
  (∀ v : Viewer Z Z (Z * bool),
     rotationGroup (requestRender v) = rotationGroup v ∧
     translationGroup_position (requestRender v) = translationGroup_position v ∧
     camera_position (requestRender v) = camera_position v) ∧
  z (camera_position (distance (-50)%Z viewerZ)) = (-50)%Z ∧
  rotationGroup (distance (-50)%Z viewerZ) = rotationGroup viewerZ ∧
  translationGroup_position (distance (-50)%Z viewerZ)
  = translationGroup_position viewerZ.
Proof.
  assert (∀ v : Viewer Z Z (Z * bool),
     rotationGroup (updateZoom v) = rotationGroup v ∧
     translationGroup_position (updateZoom v) = translationGroup_position v ∧
     camera_position (updateZoom v) = camera_position v) as Hzoom
    by (intros v; repeat split).
  assert (∀ v : Viewer Z Z (Z * bool),
     rotationGroup (requestRender v) = rotationGroup v ∧
     translationGroup_position (requestRender v) = translationGroup_position v ∧
     camera_position (requestRender v) = camera_position v) as Hrender
    by (intros v; repeat split).
  split; [exact Hzoom|]. split; [exact Hrender|].
  destruct (distance_sets_depth (-50)%Z viewerZ Hzoom Hrender)
    as (Hz & _ & _ & Hr & Ht).
  split; [exact Hz|]. split; [exact Hr | exact Ht].
Defined.

End ViewerTheorems.

Module OrientationTheorems.
Import ViewerControls ViewerOrientation ViewerSpec OrientationSpec Examples
  OrientationExamples.
Section OrientationTheorems.
Context `{Number num}.
Context {Rotation Rest Matrix4 Quaternion : Type}.
Context `{!ViewerMethods num Rotation Rest}.
Context `{!OrientationMethods num Rotation Matrix4 Quaternion}.
Context `{!ComposeMethods num Rotation Matrix4 Quaternion}.


End OrientationTheorems.



End OrientationTheorems.

Module RocketExtraTheorems.
Import RocketRepresentation RocketSpec RocketUpdateSpec TypedArrayFacts RocketFacts
  RocketUpdateFacts BufferFacts RocketExtraFacts Examples MoreExamples.
Section RocketExtraTheorems.
Context `{Number num}.

(** X1. [updateData] never resizes the concatenated arrays: whatever the
    change-set and whatever the recomputed axes, after a run to the end or
    a throw each of the five arrays has the length it had. *)
Theorem updateData_keeps_lengths (this : t num) (what : option What.t)
    (data data' : Data num) :
  updateData this what data = Patched data'
  ∨ updateData this what data = Threw data' →
  length (begin (axisData data')) = length (begin (axisData data)) ∧
  length (end_ (axisData data')) = length (end_ (axisData data)) ∧
  length (size (axisData data')) = length (size (axisData data)) ∧
  length (color (axisData data')) = length (color (axisData data)) ∧
  length (pickingColor (axisData data')) = length (pickingColor (axisData data)).
Proof.
  assert (∀ w, updateData this (Some w) data = Patched data'
               ∨ updateData this (Some w) data = Threw data' →
               sameLengths (axisData data') (axisData data)) as Hsome.
  { intros w Hout. destruct (What.position w) eqn:Hposition.
    - unfold updateData in Hout.
      change (default What.empty (Some w)) with w in Hout. cbv zeta in Hout.
      rewrite Hposition in Hout. by destruct Hout.
    - destruct (updateData_axisData_cases this w data data' Hposition Hout)
        as (_ & _ & [[_ ->]|[_ [completed Hloop]]]).
      + apply sameLengths_refl.
      + by eapply helixbundleList_forEach_lengths. }
  destruct what as [w|]; [apply Hsome|].
  rewrite updateData_None. apply Hsome.
Qed.

(** X2. A change-set that names neither position, nor color, nor radius
    is treated like no change-set at all: [scale] alone, a label key, or
    an empty object make [updateData] recompute no axis and leave the axis
    data, the axis list and the helix bundle list as they are. *)
Theorem updateData_without_color_radius (this : t num) (what : What.t)
    (data : Data num) :
  What.position what = false → What.color what = false →
  What.radius what = false →
  updateData this (Some what) data = updateData this None data ∧
  updateData this (Some what) data ≠ Rebuild ∧
  ∀ data',
    updateData this (Some what) data = Patched data'
    ∨ updateData this (Some what) data = Threw data' →
    axisData data' = axisData data ∧
    axisList data' = axisList data ∧
    helixbundleList data' = helixbundleList data.
Proof.
  intros Hposition Hcolor Hradius.
  assert (updateData this (Some what) data = updateData this None data) as Heq.
  { rewrite updateData_None, !updateData_eq by done.
    by rewrite Hcolor, Hradius. }
  split; [exact Heq|]. split.
  - rewrite updateData_eq by done. rewrite Hcolor, Hradius. cbn.
    by destruct (bufferList data).
  - intros data' Hout.
    destruct (updateData_axisData_cases this what data data' Hposition Hout)
      as (Ha & Hh & [[_ Hd]|[Hany _]]); [done|].
    by rewrite Hcolor, Hradius in Hany.
Qed.

(** X3. When the recomputed axes fit into the recorded arrays and the
    change-set asks for radius, [updateData] runs to its end; the size
    lane then holds the recomputed sizes, packed from offset zero on,
    followed by the entries that were recorded behind them; under [color]
    the same holds for the color lane.  So with fewer segments than at
    build time the surplus tail keeps its old values. *)
Theorem updateData_fits (this : t num) (what : What.t) (data : Data num) :
  What.position what = false → What.radius what = true →
  bufferList data ≠ [] →
  Forall (λ axis, length (color axis) = segmentCount axis * 3)
    (recomputed this (helixbundleList data)) →
  offsetAfter (recomputed this (helixbundleList data)) * 3
  ≤ length (color (axisData data)) →
  offsetAfter (recomputed this (helixbundleList data))
  ≤ length (size (axisData data)) →
  ∃ data',
    updateData this (Some what) data = Patched data' ∧
    size (axisData data')
    = mjoin (size <$> recomputed this (helixbundleList data))
      ++ drop (offsetAfter (recomputed this (helixbundleList data)))
           (size (axisData data)) ∧
    (What.color what = true →
     color (axisData data')
     = mjoin (color <$> recomputed this (helixbundleList data))
       ++ drop (offsetAfter (recomputed this (helixbundleList data)) * 3)
            (color (axisData data))).
Proof.
  intros Hposition Hradius Hbuffers Hwf Hcolor Hsize.
  rewrite updateData_eq by done. rewrite Hradius, orb_true_r.
  rewrite helixbundleList_forEach_fits by done.
  destruct (bufferList data) as [|buffer0 buffers]; [done|].
  eexists. split; [done|]. cbn. rewrite Hradius. cbn. split; [done|].
  by intros ->.
Qed.

(** X4. When the recomputed axes have more segments in all than the size
    array has entries, an update that asks for radius throws: the arrays
    are never grown nor written past their end. *)
Theorem updateData_overflow_throws (this : t num) (what : What.t)
    (data : Data num) :
  What.position what = false → What.radius what = true →
  length (size (axisData data))
  < offsetAfter (recomputed this (helixbundleList data)) →
  ∃ data',
    updateData this (Some what) data = Threw data' ∧
    length (size (axisData data')) = length (size (axisData data)).
Proof.
  intros Hposition Hradius Hmore.
  rewrite updateData_eq by done. rewrite Hradius, orb_true_r.
  destruct (helixbundleList_forEach _ _ _ _ _) as [axisData' completed] eqn:Hloop.
  pose proof (helixbundleList_forEach_lengths _ _ _ _ _ _ _ Hloop)
    as (_ & _ & Hlen & _).
  destruct completed.
  - apply helixbundleList_forEach_completed in Hloop; [lia| |lia].
    by rewrite Hradius.
  - eexists. split; [done|]. done.
Qed.

(** X5. Patching agrees with rebuilding.  Take data built by [createData]
    for [this0], and a representation [this] whose axes have the same
    segment counts (say after a color or radius parameter change).  Then
    [updateData] for [this] runs to its end, and the lanes it was asked
    for hold what a fresh [createData] for [this] puts there. *)
Theorem updateData_agrees_with_createData (this0 this : t num) (what : What.t)
    (polymers : list (Polymer num)) (data : Data num) :
  What.position what = false →
  createData this0 polymers = Some data →
  Forall wellFormed (eligibleAxes this0 polymers) →
  Forall wellFormed (eligibleAxes this polymers) →
  Forall2 (λ old new, segmentCount new = segmentCount old)
    (eligibleAxes this0 polymers) (eligibleAxes this polymers) →
  ∃ data' rebuilt,
    updateData this (Some what) data = Patched data' ∧
    createData this polymers = Some rebuilt ∧
    begin (axisData data') = begin (axisData data) ∧
    end_ (axisData data') = end_ (axisData data) ∧
    pickingColor (axisData data') = pickingColor (axisData data) ∧
    (What.color what = true →
     color (axisData data') = color (axisData rebuilt)) ∧
    (What.radius what = true →
     size (axisData data') = size (axisData rebuilt)).
Proof.
  intros Hposition Hcreate Hwf0 Hwf Hcounts.
  rewrite createData_eq in Hcreate by done. cbv zeta in Hcreate.
  injection Hcreate as <-.
  rewrite (createData_eq this) by done. cbv zeta.
  destruct (wellFormed_channels _ Hwf) as (_ & _ & Hc & _).
  destruct (wellFormed_channels _ Hwf0) as (_ & _ & Hc0 & _).
  rewrite updateData_eq by done.
  cbn [axisList helixbundleList axisData bufferList].
  destruct (What.color what || What.radius what) eqn:Hany.
  - rewrite helixbundleList_forEach_eq; rewrite ?eligibleAxes_recomputed; [|done|..].
    2:{ cbn. rewrite (length_join_stride color) by done.
        by rewrite (offsetAfter_Forall2_all _ _ Hcounts). }
    2:{ cbn. rewrite length_join_size.
        by rewrite (offsetAfter_Forall2_all _ _ Hcounts). }
    eexists _, _. split; [done|]. split; [done|].
    cbn [axisData begin end_ pickingColor color size concatenated take app].
    repeat split; try done.
    + by intros ->.
    + intros ->. by rewrite orb_true_l.
  - apply orb_false_iff in Hany as [-> ->].
    eexists _, _. split; [done|]. split; [done|]. repeat split; done.
Qed.

(** X6. Refreshing with unchanged parameters is the identity on the axis
    data: after [createData], an [updateData] of the same representation
    for any change-set without position rewrites the lanes with the values
    they hold. *)
Theorem updateData_after_createData (this : t num) (what : What.t)
    (polymers : list (Polymer num)) (data : Data num) :
  What.position what = false →
  createData this polymers = Some data →
  Forall wellFormed (eligibleAxes this polymers) →
  ∃ data',
    updateData this (Some what) data = Patched data' ∧
    axisData data' = axisData data ∧
    axisList data' = axisList data ∧
    helixbundleList data' = helixbundleList data.
Proof.
  intros Hposition Hcreate Hwf.
  rewrite createData_eq in Hcreate by done. cbv zeta in Hcreate.
  injection Hcreate as <-.
  destruct (wellFormed_channels _ Hwf) as (_ & _ & Hc & _).
  rewrite updateData_eq by done.
  cbn [axisList helixbundleList axisData bufferList].
  destruct (What.color what || What.radius what) eqn:Hany.
  - rewrite helixbundleList_forEach_eq; rewrite ?eligibleAxes_recomputed; [|done|..].
    2:{ cbn. by rewrite (length_join_stride color). }
    2:{ cbn. by rewrite length_join_size. }
    eexists. split; [done|].
    cbn [axisData axisList helixbundleList begin end_ pickingColor color size
         concatenated take app].
    split; [|done]. unfold concatenated.
    by destruct (What.color what), (What.radius what || What.scale what).
  - eexists. split; [done|]. done.
Qed.

(** X7. Whenever [createData] returns, also on axes that break the
    contract of [getAxis], it returns exactly one buffer, the axis list
    holds the axis of each recorded helix bundle in the same order, and
    every concatenated array has the sum of the segment counts as its
    length (times three for points and colors). *)
Theorem createData_shape (this : t num) (polymers : list (Polymer num))
    (data : Data num) :
  createData this polymers = Some data →
  length (bufferList data) = 1 ∧
  axisList data = recomputed this (helixbundleList data) ∧
  length (axisList data) = length (helixbundleList data) ∧
  length (size (axisData data)) = offsetAfter (axisList data) ∧
  length (begin (axisData data)) = offsetAfter (axisList data) * 3 ∧
  length (end_ (axisData data)) = offsetAfter (axisList data) * 3 ∧
  length (color (axisData data)) = offsetAfter (axisList data) * 3 ∧
  length (pickingColor (axisData data)) = offsetAfter (axisList data) * 3.
Proof.
  intros Hcreate.
  destruct (createData_Some _ _ _ Hcreate)
    as (buffer & -> & -> & -> & Hb & He & Hs & Hc & Hp).
  cbn in Hb, He, Hs, Hc, Hp. unfold TypedArray.alloc in Hb, He, Hs, Hc, Hp.
  rewrite length_replicate in Hb, He, Hs, Hc, Hp.
  rewrite eligibleAxes_recomputed.
  repeat split; try done.
  unfold eligibleAxes. by rewrite !length_fmap.
Qed.

(** X8. When no polymer is eligible (in particular on no polymer at all),
    [createData] still returns a buffer: the cylinder buffer made over
    empty arrays, picking colors included. *)
Theorem createData_nothing_eligible (this : t num) (polymers : list (Polymer num)) :
  Forall (λ polymer, eligible polymer = false) polymers →
  ∃ data buffer,
    createData this polymers = Some data ∧
    bufferList data = [buffer] ∧
    buffer = CylinderBuffer.new [] [] [] [] [] (Some []) (Some []) ∧
    axisList data = [] ∧ helixbundleList data = [] ∧
    begin (axisData data) = [] ∧ end_ (axisData data) = [] ∧
    size (axisData data) = [] ∧ color (axisData data) = [] ∧
    pickingColor (axisData data) = [].
Proof.
  intros Hnone.
  assert (List.filter eligible polymers = []) as Hfilter.
  { induction Hnone as [|polymer polymers Hp _ IH]; [done|].
    cbn [List.filter]. by rewrite Hp. }
  rewrite createData_eq.
  - unfold eligibleAxes. rewrite Hfilter. cbn. eexists _, _. repeat split.
  - unfold eligibleAxes. rewrite Hfilter. constructor.
Qed.

End RocketExtraTheorems.

(** On data with room for three segments, a radius update of one helix
    bundle of two segments runs to its end and leaves the size array at
    three entries. *)
Lemma updateData_keeps_lengths_witness :
  (∃ data', updateData (rocketZ 7) (Some whatRadius) (roomDataZ 3) = Patched data') ∧
  ∀ data',
    updateData (rocketZ 7) (Some whatRadius) (roomDataZ 3) = Patched data' →
    length (size (axisData data')) = 3.
Proof.
  split.
  - vm_compute. eexists. reflexivity.
  - intros data' Hupdate.
    destruct (updateData_keeps_lengths (rocketZ 7) (Some whatRadius) (roomDataZ 3)
                data' (or_introl Hupdate)) as (_ & _ & Hsize & _).
    exact Hsize.
Defined.

(** On the data built from the example polymers, the change-set
    [{ scale: true }] is treated like no change-set. *)
Lemma updateData_without_color_radius_witness :
  What.position whatScale = false ∧ What.color whatScale = false ∧
  What.radius whatScale = false ∧
  updateData (rocketZ 7) (Some whatScale) dataZ = updateData (rocketZ 7) None dataZ ∧
  updateData (rocketZ 7) (Some whatScale) dataZ ≠ Rebuild.
Proof.
  split; [reflexivity|]. split; [reflexivity|]. split; [reflexivity|].
  destruct (updateData_without_color_radius (rocketZ 7) whatScale dataZ
              eq_refl eq_refl eq_refl) as (Hsame & Hrebuild & _).
  split; [exact Hsame | exact Hrebuild].
Defined.

(** On data with room for three segments, a radius update of one helix
    bundle of two segments writes the two recomputed sizes and keeps the
    third entry. *)
Lemma updateData_fits_witness :
  What.position whatRadius = false ∧ What.radius whatRadius = true ∧
  bufferList (roomDataZ 3) ≠ [] ∧
  offsetAfter (recomputed (rocketZ 7) (helixbundleList (roomDataZ 3)))
  ≤ length (size (axisData (roomDataZ 3))) ∧
  ∃ data',
    updateData (rocketZ 7) (Some whatRadius) (roomDataZ 3) = Patched data' ∧
    size (axisData data') = [9; 9; 11]%Z.
Proof.
  assert (bufferList (roomDataZ 3) ≠ []) as Hbuffers by discriminate.
  assert (Forall (λ axis : Axis Z, length (color axis) = segmentCount axis * 3)
            (recomputed (rocketZ 7) (helixbundleList (roomDataZ 3)))) as Hwf
    by (repeat constructor).
  assert (offsetAfter (recomputed (rocketZ 7) (helixbundleList (roomDataZ 3))) * 3
          ≤ length (color (axisData (roomDataZ 3)))) as Hcolor
    by (vm_compute; lia).
  assert (offsetAfter (recomputed (rocketZ 7) (helixbundleList (roomDataZ 3)))
          ≤ length (size (axisData (roomDataZ 3)))) as Hsize
    by (vm_compute; lia).
  split; [reflexivity|]. split; [reflexivity|]. split; [exact Hbuffers|].
  split; [exact Hsize|].
  destruct (updateData_fits (rocketZ 7) whatRadius (roomDataZ 3)
              eq_refl eq_refl Hbuffers Hwf Hcolor Hsize)
    as (data' & Hupdate & Hs & _).
  exists data'. split; [exact Hupdate|]. rewrite Hs. reflexivity.
Defined.

(** On data with room for one segment, a radius update of one helix
    bundle of two segments throws. *)
Lemma updateData_overflow_throws_witness :
  What.position whatRadius = false ∧ What.radius whatRadius = true ∧
  length (size (axisData (roomDataZ 1)))
  < offsetAfter (recomputed (rocketZ 7) (helixbundleList (roomDataZ 1))) ∧
  ∃ data',
    updateData (rocketZ 7) (Some whatRadius) (roomDataZ 1) = Threw data' ∧
    length (size (axisData data')) = length (size (axisData (roomDataZ 1))).
Proof.
  assert (length (size (axisData (roomDataZ 1)))
          < offsetAfter (recomputed (rocketZ 7) (helixbundleList (roomDataZ 1))))
    as Hmore by (vm_compute; lia).
  split; [reflexivity|]. split; [reflexivity|]. split; [exact Hmore|].
  exact (updateData_overflow_throws (rocketZ 7) whatRadius (roomDataZ 1)
           eq_refl eq_refl Hmore).
Defined.

(** On the data built from the example polymers with radius 1, an update
    for color and radius with radius 7 yields the color and size arrays of
    a build with radius 7. *)
Lemma updateData_agrees_with_createData_witness :
  What.position whatColorRadius = false ∧
  createData (rocketZ 1) polymersZ = Some dataZ ∧
  ∃ data' rebuilt,
    updateData (rocketZ 7) (Some whatColorRadius) dataZ = Patched data' ∧
    createData (rocketZ 7) polymersZ = Some rebuilt ∧
    color (axisData data') = color (axisData rebuilt) ∧
    size (axisData data') = size (axisData rebuilt).
Proof.
  assert (createData (rocketZ 1) polymersZ = Some dataZ) as Hcreate by reflexivity.
  assert (Forall wellFormed (eligibleAxes (rocketZ 1) polymersZ)) as Hwf0
    by (repeat constructor).
  assert (Forall wellFormed (eligibleAxes (rocketZ 7) polymersZ)) as Hwf
    by (repeat constructor).
  assert (Forall2 (λ old new : Axis Z, segmentCount new = segmentCount old)
            (eligibleAxes (rocketZ 1) polymersZ) (eligibleAxes (rocketZ 7) polymersZ))
    as Hcounts by (repeat constructor).
  split; [reflexivity|]. split; [exact Hcreate|].
  destruct (updateData_agrees_with_createData (rocketZ 1) (rocketZ 7) whatColorRadius
              polymersZ dataZ eq_refl Hcreate Hwf0 Hwf Hcounts)
    as (data' & rebuilt & Hupdate & Hrebuilt & _ & _ & _ & Hc & Hs).
  exists data', rebuilt. split; [exact Hupdate|]. split; [exact Hrebuilt|].
  split; [exact (Hc eq_refl) | exact (Hs eq_refl)].
Defined.

(** On the data built from the example polymers, a color update with the
    parameters of the build leaves the axis data as they are. *)
Lemma updateData_after_createData_witness :
  What.position whatColor = false ∧
  createData (rocketZ 1) polymersZ = Some dataZ ∧
  ∃ data',
    updateData (rocketZ 1) (Some whatColor) dataZ = Patched data' ∧
    axisData data' = axisData dataZ.
Proof.
  assert (createData (rocketZ 1) polymersZ = Some dataZ) as Hcreate by reflexivity.
  assert (Forall wellFormed (eligibleAxes (rocketZ 1) polymersZ)) as Hwf
    by (repeat constructor).
  split; [reflexivity|]. split; [exact Hcreate|].
  destruct (updateData_after_createData (rocketZ 1) whatColor polymersZ dataZ
              eq_refl Hcreate Hwf) as (data' & Hupdate & Haxis & _).
  exists data'. split; [exact Hupdate | exact Haxis].
Defined.

(** On the example polymers: one buffer, and three axes for three helix
    bundles. *)
Lemma createData_shape_witness :
  createData (rocketZ 1) polymersZ = Some dataZ ∧
  length (bufferList dataZ) = 1 ∧
  length (axisList dataZ) = length (helixbundleList dataZ).
Proof.
  assert (createData (rocketZ 1) polymersZ = Some dataZ) as Hcreate by reflexivity.
  split; [exact Hcreate|].
  destruct (createData_shape (rocketZ 1) polymersZ dataZ Hcreate)
    as (Hbuffers & _ & Hlists & _).
  split; [exact Hbuffers | exact Hlists].
Defined.

(** On a polymer of three residues and a nucleic polymer, [createData]
    returns the cylinder buffer over empty arrays. *)
Lemma createData_nothing_eligible_witness :
  Forall (λ polymer : Polymer Z, eligible polymer = false)
    [polymerZ 3 false 7 200; polymerZ 40 true 2 400] ∧
  ∃ data,
    createData (rocketZ 1) [polymerZ 3 false 7 200; polymerZ 40 true 2 400]
    = Some data ∧
    bufferList data = [CylinderBuffer.new [] [] [] [] [] (Some []) (Some [])] ∧
    size (axisData data) = [].
Proof.
  assert (Forall (λ polymer : Polymer Z, eligible polymer = false)
            [polymerZ 3 false 7 200; polymerZ 40 true 2 400]) as Hnone
    by (repeat constructor).
  split; [exact Hnone|].
  destruct (createData_nothing_eligible (rocketZ 1) _ Hnone)
    as (data & buffer & Hcreate & Hbuffers & Hbuffer & _ & _ & _ & _ & Hsize & _).
  exists data. split; [exact Hcreate|]. rewrite Hbuffer in Hbuffers.
  split; [exact Hbuffers | exact Hsize].
Defined.
End RocketExtraTheorems.

Module DistanceExtraTheorems.
Import DistanceRepresentation DistanceSpec DistanceFacts DistanceUpdate
  DistanceExtraFacts Examples MoreExamples.
Section DistanceExtraTheorems.
Context `{Number num}.

(** X9. [getDistanceData] packs what resolves: the text array holds the
    labels of the resolving pairs, in input order and from slot zero on,
    followed by one empty slot per dropped pair; the position array holds
    exactly their midpoints, the bond table exactly their bonds, in the
    same order, and the bond set marks every bond. *)
Theorem getDistanceData_packed (sview : StructureView num)
    (atomPair : list (string * string)) :
  let data := getDistanceData sview atomPair in
  let reps := omap (representatives sview) atomPair in
  let dropped := length (filter (λ pair, ¬ Resolves sview pair) atomPair) in
  length reps = length (filter (Resolves sview) atomPair) ∧
  length reps + dropped = length atomPair ∧
  data_text data = (Some ∘ label sview <$> reps) ++ replicate dropped None ∧
  data_position data = mjoin (midpoint sview <$> reps) ∧
  data_bondStore data = bond <$> reps ∧
  data_bondSet data = replicate (length reps) true.
Proof.
  cbv zeta. rewrite getDistanceData_eq. cbn.
  pose proof (length_resolved sview atomPair) as Hlen.
  assert (length (filter (Resolves sview) atomPair)
          + length (filter (λ pair, ¬ Resolves sview pair) atomPair)
          = length atomPair) as Hsplit.
  { clear Hlen. induction atomPair as [|pair atomPair IH]; [done|].
    rewrite !filter_cons. destruct (decide (Resolves sview pair)).
    - rewrite decide_False by tauto. cbn. lia.
    - rewrite decide_True by done. cbn. lia. }
  split; [done|]. split; [lia|]. split; [|done].
  unfold JsArray.alloc. do 2 f_equal. lia.
Qed.

(** X10. The text array and the position array agree in their number of
    entries exactly when no pair is dropped. *)
Theorem getDistanceData_counts_agree (sview : StructureView num)
    (atomPair : list (string * string)) :
  length (data_position (getDistanceData sview atomPair))
  = length (data_text (getDistanceData sview atomPair)) * 3
  ↔ Forall (Resolves sview) atomPair.
Proof.
  destruct (getDistanceData_lengths sview atomPair) as (-> & -> & _).
  rewrite <-(length_filter_all (Resolves sview) atomPair).
  split; intros Hlen; [|by rewrite Hlen].
  apply (Nat.mul_cancel_r _ _ 3); [done|exact Hlen].
Qed.

(** X11. Pairs are processed one by one and in order: over a pair list
    [l1 ++ l2] the position array, the bond table, the bond set and the
    sequence of label texts are those of [l1] followed by those of [l2]. *)
Theorem getDistanceData_app (sview : StructureView num)
    (l1 l2 : list (string * string)) :
  data_position (getDistanceData sview (l1 ++ l2))
  = data_position (getDistanceData sview l1)
    ++ data_position (getDistanceData sview l2) ∧
  data_bondStore (getDistanceData sview (l1 ++ l2))
  = data_bondStore (getDistanceData sview l1)
    ++ data_bondStore (getDistanceData sview l2) ∧
  data_bondSet (getDistanceData sview (l1 ++ l2))
  = data_bondSet (getDistanceData sview l1)
    ++ data_bondSet (getDistanceData sview l2) ∧
  omap id (data_text (getDistanceData sview (l1 ++ l2)))
  = omap id (data_text (getDistanceData sview l1))
    ++ omap id (data_text (getDistanceData sview l2)).
Proof.
  rewrite !getDistanceData_eq. cbn.
  rewrite !omap_labels_compose.
  rewrite omap_app, !fmap_app, join_app, length_app, replicate_add.
  repeat split; done.
Qed.

(** X12. Only the first match of a selection counts: two views that agree
    on the first index of every selection and on the coordinates give the
    same distance data, whatever else their selections match. *)
Theorem getDistanceData_first_match (sview sview' : StructureView num)
    (atomPair : list (string * string)) :
  (∀ sele, head (getAtomIndices sview sele) = head (getAtomIndices sview' sele)) →
  (∀ i, atom_x sview i = atom_x sview' i ∧ atom_y sview i = atom_y sview' i ∧
        atom_z sview i = atom_z sview' i) →
  getDistanceData sview atomPair = getDistanceData sview' atomPair.
Proof.
  intros Hhead Hxyz. rewrite !getDistanceData_eq. cbv zeta.
  rewrite (omap_representatives_ext sview sview') by done.
  assert (∀ i, atom_x sview i = atom_x sview' i) as Hx by (intros i; apply Hxyz).
  assert (∀ i, atom_y sview i = atom_y sview' i) as Hy by (intros i; apply Hxyz).
  assert (∀ i, atom_z sview i = atom_z sview' i) as Hz by (intros i; apply Hxyz).
  f_equal.
  - f_equal. apply list_fmap_ext. intros _ reps _. cbn.
    unfold label, distanceTo. by rewrite !Hx, !Hy, !Hz.
  - f_equal. apply list_fmap_ext. intros _ reps _.
    unfold midpoint. by rewrite !Hx, !Hy, !Hz.
Qed.

(** X13. On a view with atoms and a pair list with pairs, [create] always
    makes the text buffer and the cylinder buffer and pushes exactly one
    entry, behind the entries that were there; the entry lists the two
    buffers and records the view and the resolved data.  The text buffer
    is made over the resolved positions and texts, with a size and a color
    per input pair; the cylinder buffer over the bond data of the resolved
    bond table.  This also holds when no pair resolves: the text buffer is
    then made over an empty position array and one empty text slot per
    pair, and the cylinder buffer over the bond data of an empty bond
    table. *)
Theorem create_makes_buffers (this : t num) :
  atomCount (structureView this) ≠ 0 → atomPair this ≠ [] →
  let n := length (atomPair this) in
  let distanceData := getDistanceData (structureView this) (atomPair this) in
  let bondData :=
    getBondData (structureView this) None
      (data_bondSet distanceData) (data_bondStore distanceData) in
  let size := ArrayUtils.uniformArray n (labelSize this) in
  let color :=
    ArrayUtils.uniformArray3 n
      (labelColor this).1.1 (labelColor this).1.2 (labelColor this).2 in
  ∃ textBuffer' cylinderBuffer' entry,
    textBuffer (create this) = Some textBuffer' ∧
    cylinderBuffer (create this) = Some cylinderBuffer' ∧
    dataList (create this) = dataList this ++ [entry] ∧
    bufferList entry = [Text textBuffer'; Cylinder cylinderBuffer'] ∧
    TextBuffer.text textBuffer' = data_text distanceData ∧
    sview entry = structureView this ∧
    entry_position entry = data_position distanceData ∧
    entry_bondStore entry = data_bondStore distanceData ∧
    bondSet entry = data_bondSet distanceData ∧
    atomPair (create this) = atomPair this ∧
    structureView (create this) = structureView this ∧
    textBuffer'
    = TextBuffer.new (data_position distanceData) size color
        (data_text distanceData) ∧
    cylinderBuffer'
    = CylinderBuffer.new (position1 bondData) (position2 bondData)
        (color1 bondData) (color2 bondData) (radius bondData)
        (pickingColor1 bondData) (pickingColor2 bondData) ∧
    (Forall (λ pair, ¬ Resolves (structureView this) pair) (atomPair this) →
     let bondData := getBondData (structureView this) None [] [] in
     entry_position entry = [] ∧ entry_bondStore entry = [] ∧
     textBuffer' = TextBuffer.new [] size color (replicate n None) ∧
     cylinderBuffer'
     = CylinderBuffer.new (position1 bondData) (position2 bondData)
         (color1 bondData) (color2 bondData) (radius bondData)
         (pickingColor1 bondData) (pickingColor2 bondData)).
Proof.
  intros Hview Hpairs. cbv zeta. unfold create.
  rewrite bool_decide_eq_false_2 by done.
  rewrite bool_decide_eq_false_2 by (by destruct (atomPair this)).
  destruct (labelColor this) as [[c_r c_g] c_b]. cbn.
  eexists _, _, _. do 13 (split; [reflexivity|]).
  intros Hnone. rewrite getDistanceData_eq. cbn.
  rewrite omap_representatives_none by done. cbn.
  rewrite Nat.sub_0_r. repeat split.
Qed.

(** X15. Partial updates of the distance representation.  For a change-set
    without position, [updateData] resolves nothing again: the entry stays
    as it is, the bond data is taken for the recorded bond table, neither
    buffer is handed a position channel; a change-set that names only
    label keys hands the cylinder buffer an empty object, and one that
    names only color, radius or scale hands the text buffer an empty
    object. *)
Theorem distance_updateData_isolation (this : t num) (what : What.t)
    (data0 : Data num) (textBuffer0 : TextBuffer.t num)
    (cylinderBuffer0 : Buffer.t num) :
  textBuffer this = Some textBuffer0 →
  cylinderBuffer this = Some cylinderBuffer0 →
  What.position what = false →
  let bondData :=
    getBondData (sview data0) (Some what) (bondSet data0) (entry_bondStore data0) in
  threw (updateData this (Some what) data0) = false ∧
  data (updateData this (Some what) data0) = data0 ∧
  calls (updateData this (Some what) data0)
  = [(this_textBuffer, textData this what data0);
     (this_cylinderBuffer, cylinderData what bondData)] ∧
  textData this what data0 !! "position" = None ∧
  cylinderData what bondData !! "position" = None ∧
  cylinderData what bondData !! "position1" = None ∧
  cylinderData what bondData !! "position2" = None ∧
  (What.labelSize what = false → What.labelColor what = false →
   textData this what data0 = ∅) ∧
  (What.color what = false → What.radius what = false →
   What.scale what = false →
   cylinderData what bondData = ∅).
Proof.
  intros Htext Hcylinder Hposition. cbv zeta.
  unfold updateData, resolve. rewrite Hposition, Htext, Hcylinder. cbn.
  do 3 (split; [reflexivity|]).
  split; [by apply textData_no_position|].
  do 3 (split; [apply cylinderData_no_position; auto|]).
  split.
  - by apply textData_empty.
  - by apply cylinderData_empty.
Qed.

(** X16. A position change resolves everything again.  The outcome of
    [updateData] then depends on the entry only through its view and its
    buffer list; the entry records the freshly resolved bond table and
    midpoints, the text buffer is handed those midpoints as its positions,
    and the cylinder buffer the bond data of the fresh bond table. *)
Theorem distance_updateData_position (this : t num) (what : What.t)
    (data0 : Data num) (textBuffer0 : TextBuffer.t num)
    (cylinderBuffer0 : Buffer.t num) :
  textBuffer this = Some textBuffer0 →
  cylinderBuffer this = Some cylinderBuffer0 →
  What.position what = true →
  let distanceData := getDistanceData (sview data0) (atomPair this) in
  let bondData :=
    getBondData (sview data0) (Some what)
      (data_bondSet distanceData) (data_bondStore distanceData) in
  let outcome := updateData this (Some what) data0 in
  threw outcome = false ∧
  entry_position (data outcome) = data_position distanceData ∧
  entry_bondStore (data outcome) = data_bondStore distanceData ∧
  bondSet (data outcome) = data_bondSet distanceData ∧
  (∃ textData' cylinderData',
     calls outcome
     = [(this_textBuffer, textData'); (this_cylinderBuffer, cylinderData')] ∧
     textData' !! "position" = Some (data_position distanceData) ∧
     cylinderData' !! "position1" = Some (position1 bondData) ∧
     cylinderData' !! "position2" = Some (position2 bondData)) ∧
  ∀ data1,
    sview data1 = sview data0 → bufferList data1 = bufferList data0 →
    updateData this (Some what) data1 = outcome.
Proof.
  intros Htext Hcylinder Hposition. cbv zeta.
  unfold updateData, resolve. rewrite Hposition, Htext, Hcylinder. cbn.
  do 4 (split; [reflexivity|]). split.
  - eexists _, _. split; [reflexivity|]. split; [|split].
    + by apply textData_position.
    + unfold cylinderData. rewrite Hposition.
      destruct (What.color what), (What.radius what || What.scale what);
        rewrite ?lookup_insert_ne by discriminate;
        try apply lookup_insert_eq.
    + unfold cylinderData. rewrite Hposition.
      destruct (What.color what), (What.radius what || What.scale what);
        rewrite ?lookup_insert_ne by discriminate;
        try apply lookup_insert_eq.
  - intros data1 Hsview Hbuffers. by rewrite Hsview, Hbuffers.
Qed.


End DistanceExtraTheorems.

(** The selection [AB] matches two atoms in the example view and one in
    the view cut down to first matches; the distance data of the pair
    (AB, B) are the same. *)
Lemma getDistanceData_first_match_witness :
  getAtomIndices sviewZ "AB" ≠ getAtomIndices sviewFirstZ "AB" ∧
  getDistanceData sviewZ [("AB", "B")] = getDistanceData sviewFirstZ [("AB", "B")].
Proof.
  split; [discriminate|].
  apply (getDistanceData_first_match sviewZ sviewFirstZ).
  - intros sele. cbn. repeat case_decide; reflexivity.
  - intros i. repeat split.
Defined.

(** On the pair list [(Z, A)], whose one pair does not resolve, [create]
    still makes both buffers and pushes an entry: the text buffer over no
    position, one size, one color and one empty text slot, the cylinder
    buffer over no bond. *)
Lemma create_makes_buffers_witness :
  atomCount (structureView (distanceZ [("Z", "A")])) ≠ 0 ∧
  atomPair (distanceZ [("Z", "A")]) ≠ [] ∧
  ∃ textBuffer' cylinderBuffer' entry,
    textBuffer (create (distanceZ [("Z", "A")])) = Some textBuffer' ∧
    cylinderBuffer (create (distanceZ [("Z", "A")])) = Some cylinderBuffer' ∧
    dataList (create (distanceZ [("Z", "A")])) = [entry] ∧
    entry_position entry = [] ∧
    textBuffer' = TextBuffer.new [] [2%Z] [1; 1; 1]%Z [None] ∧
    cylinderBuffer' = CylinderBuffer.new [] [] [] [] [] None None.
Proof.
  assert (atomCount (structureView (distanceZ [("Z", "A")])) ≠ 0) as Hview
    by discriminate.
  assert (atomPair (distanceZ [("Z", "A")]) ≠ []) as Hpairs by discriminate.
  split; [exact Hview|]. split; [exact Hpairs|].
  destruct (create_makes_buffers (distanceZ [("Z", "A")]) Hview Hpairs)
    as (tb & cb & entry & Htb & Hcb & Hlist & _ & _ & _ & _ & _ & _ & _ & _ & _
        & _ & Hnone).
  destruct Hnone as (Hposition & _ & Htext & Hcylinder).
  { repeat constructor. intros [Hz _]. apply Hz. reflexivity. }
  exists tb, cb, entry. split; [exact Htb|]. split; [exact Hcb|].
  split; [exact Hlist|]. split; [exact Hposition|].
  split; [exact Htext | exact Hcylinder].
Defined.
(** On the representation after [create], a color update leaves the entry
    as it is and hands the text buffer an empty object. *)
Lemma distance_updateData_isolation_witness :
  ∃ textBuffer0 cylinderBuffer0,
    textBuffer distanceMadeZ = Some textBuffer0 ∧
    cylinderBuffer distanceMadeZ = Some cylinderBuffer0 ∧
    What.position whatColor = false ∧
    threw (updateData distanceMadeZ (Some whatColor) staleEntryZ) = false ∧
    data (updateData distanceMadeZ (Some whatColor) staleEntryZ) = staleEntryZ ∧
    textData distanceMadeZ whatColor staleEntryZ = ∅.
Proof.
  eexists _, _. split; [reflexivity|]. split; [reflexivity|].
  split; [reflexivity|].
  destruct (distance_updateData_isolation distanceMadeZ whatColor staleEntryZ
              _ _ eq_refl eq_refl eq_refl)
    as (Hthrew & Hdata & _ & _ & _ & _ & _ & Htext & _).
  split; [exact Hthrew|]. split; [exact Hdata|]. exact (Htext eq_refl eq_refl).
Defined.

(** On the representation after [create], a position update of an entry
    that records nothing yet leaves the midpoint of the resolving pair in
    the entry. *)
Lemma distance_updateData_position_witness :
  ∃ textBuffer0 cylinderBuffer0,
    textBuffer distanceMadeZ = Some textBuffer0 ∧
    cylinderBuffer distanceMadeZ = Some cylinderBuffer0 ∧
    What.position whatPosition = true ∧
    threw (updateData distanceMadeZ (Some whatPosition) staleEntryZ) = false ∧
    entry_position (data (updateData distanceMadeZ (Some whatPosition) staleEntryZ))
    = [3; 4; 0]%Z.
Proof.
  eexists _, _. split; [reflexivity|]. split; [reflexivity|].
  split; [reflexivity|].
  destruct (distance_updateData_position distanceMadeZ whatPosition staleEntryZ
              _ _ eq_refl eq_refl eq_refl)
    as (Hthrew & Hposition & _).
  split; [exact Hthrew|]. rewrite Hposition. reflexivity.
Defined.

End DistanceExtraTheorems.

Module MatrixCalcTheorems.
Import MatrixCalc.
Section MatrixCalcTheorems.
Context {Matrix4 : Type} `{!Matrix4Methods Matrix4}.

(** X18. After [matrixCalc], every uniform that is registered holds the
    matrix prescribed for it, computed from the current model-view and
    projection matrices alone: the inverse of the model-view matrix, its
    transpose, the product of projection and model-view matrix, and the
    inverse of that product.  The two branches for the transpose and for
    the inverse product give the same matrix, and no uniform is added or
    removed. *)
Theorem matrixCalc_values (modelViewMatrix projectionMatrix : Matrix4)
    (st : State Matrix4) :
  let u' := u (matrixCalc modelViewMatrix projectionMatrix st) in
  modelViewMatrixInverse u'
  = (λ _, getInverse modelViewMatrix) <$> modelViewMatrixInverse (u st) ∧
  modelViewMatrixInverseTranspose u'
  = (λ _, transpose (getInverse modelViewMatrix))
      <$> modelViewMatrixInverseTranspose (u st) ∧
  modelViewProjectionMatrix u'
  = (λ _, multiplyMatrices projectionMatrix modelViewMatrix)
      <$> modelViewProjectionMatrix (u st) ∧
  modelViewProjectionMatrixInverse u'
  = (λ _, getInverse (multiplyMatrices projectionMatrix modelViewMatrix))
      <$> modelViewProjectionMatrixInverse (u st).
Proof.
  destruct st as [[mvi mvit mvp mvpi] scratch]. unfold matrixCalc. cbn.
  destruct mvi, mvit, mvp, mvpi; repeat split.
Qed.

(** X19. Nothing is carried over from one call of [matrixCalc] to the
    next: a call overwrites whatever an earlier call, for other matrices,
    left in the uniforms and in the scratch matrix.  In particular the
    three calls per draw, one per uniform the callback is registered on,
    amount to one. *)
Theorem matrixCalc_overwrites
    (modelViewMatrix0 projectionMatrix0 modelViewMatrix projectionMatrix : Matrix4)
    (st : State Matrix4) :
  matrixCalc modelViewMatrix projectionMatrix
    (matrixCalc modelViewMatrix0 projectionMatrix0 st)
  = matrixCalc modelViewMatrix projectionMatrix st ∧
  matrixCalc modelViewMatrix projectionMatrix
    (matrixCalc modelViewMatrix projectionMatrix
       (matrixCalc modelViewMatrix projectionMatrix st))
  = matrixCalc modelViewMatrix projectionMatrix st.
Proof.
  destruct st as [[mvi mvit mvp mvpi] scratch]. unfold matrixCalc. cbn.
  destruct mvi, mvit, mvp, mvpi; split; reflexivity.
Qed.

End MatrixCalcTheorems.
End MatrixCalcTheorems.

Module ViewerExtraTheorems.
Import ViewerControls ViewerScene ViewerSpec ViewerFacts Examples MoreExamples.
Section ViewerExtraTheorems.
Context `{Number num} {Rotation Rest Matrix4 : Type}.
Context `{!ViewerMethods num Rotation Rest}.
Context `{!SceneMethods num Rotation Rest}.
Context `{!RotationMethods num Rotation Matrix4}.

(** X20. [center] is absolute where [translate] is relative: after
    [center( position )] the translation is the negated position whatever
    it was before, so centering after a translation equals centering at
    once; [translate( vector )] adds the vector to the translation.
    Neither touches the rotation or the camera. *)
Theorem center_is_absolute (position vector : Vector3 num)
    (viewer : Viewer num Rotation Rest) :
  keepsPose requestRender →
  translationGroup_position (center position viewer)
  = {| x := num_neg (x position); y := num_neg (y position);
       z := num_neg (z position) |} ∧
  translationGroup_position (center position (translate vector viewer))
  = translationGroup_position (center position viewer) ∧
  translationGroup_position (translate vector viewer)
  = {| x := num_add (x (translationGroup_position viewer)) (x vector);
       y := num_add (y (translationGroup_position viewer)) (y vector);
       z := num_add (z (translationGroup_position viewer)) (z vector) |} ∧
  rotationGroup (center position (translate vector viewer)) = rotationGroup viewer ∧
  camera_position (center position (translate vector viewer))
  = camera_position viewer.
Proof.
  intros Hrender.
  destruct (center_pose position viewer Hrender) as (_ & Hc & _).
  destruct (center_pose position (translate vector viewer) Hrender)
    as (Hr' & Hc' & Hcam').
  destruct (translate_pose vector viewer Hrender) as (Hr & Ht & Hcam).
  rewrite Hc, Hc', Hr', Hcam', Hr, Hcam, Ht. done.
Qed.

(** X21. On an empty bounding box [centerScene] does nothing at all: the
    viewer is left as it is and no render is requested; so
    [centerView] without a position and without zoom does nothing
    either, and with zoom it is [zoomScene]. *)
Theorem centerScene_empty (viewer : Viewer num Rotation Rest) :
  boundingBox_isEmpty viewer = true →
  centerScene viewer = viewer ∧
  centerView false None viewer = viewer ∧
  centerView true None viewer = zoomScene viewer.
Proof.
  intros Hempty. unfold centerView, centerScene. by rewrite Hempty.
Qed.

(** X22. [centerView] with a position moves the translation to the negated
    position and keeps the rotation; without zoom the camera stays, with
    zoom the camera depth becomes the negated optimal distance of the
    stage, taken after centering.  [alignView] ends with the rotation that
    [align] sets: centering and zooming do not touch it. *)
Theorem centerView_pose (zoom : bool) (position : Vector3 num)
    (basis : Matrix4) (anyPosition : option (Vector3 num))
    (viewer : Viewer num Rotation Rest) :
  keepsPose updateZoom → keepsPose requestRender →
  translationGroup_position (centerView zoom (Some position) viewer)
  = {| x := num_neg (x position); y := num_neg (y position);
       z := num_neg (z position) |} ∧
  rotationGroup (centerView zoom anyPosition viewer) = rotationGroup viewer ∧
  camera_position (centerView false anyPosition viewer) = camera_position viewer ∧
  z (camera_position (centerView true (Some position) viewer))
  = num_neg (getOptimalDistance (center position viewer)) ∧
  rotationGroup (alignView basis anyPosition zoom viewer)
  = rotationGroup (align basis viewer).
Proof.
  intros Hzoom Hrender.
  assert (∀ p v, rotationGroup (centerView zoom p v) = rotationGroup v) as Hrot.
  { intros p v. unfold centerView, zoomScene.
    destruct zoom.
    - destruct (distance_pose
                  (num_neg (getOptimalDistance
                     match p with None => centerScene v | Some q => center q v end))
                  match p with None => centerScene v | Some q => center q v end
                  Hzoom Hrender) as (-> & _ & _).
      destruct p as [q|].
      + by destruct (center_pose q v Hrender) as (-> & _ & _).
      + by destruct (centerScene_pose v Hrender) as (-> & _).
    - destruct p as [q|].
      + by destruct (center_pose q v Hrender) as (-> & _ & _).
      + by destruct (centerScene_pose v Hrender) as (-> & _). }
  split; [|split; [apply Hrot|split; [|split]]].
  - unfold centerView, zoomScene. destruct zoom.
    + destruct (distance_pose (num_neg (getOptimalDistance (center position viewer)))
                  (center position viewer) Hzoom Hrender) as (_ & -> & _).
      by destruct (center_pose position viewer Hrender) as (_ & -> & _).
    + by destruct (center_pose position viewer Hrender) as (_ & -> & _).
  - unfold centerView. destruct anyPosition as [q|].
    + by destruct (center_pose q viewer Hrender) as (_ & _ & ->).
    + by destruct (centerScene_pose viewer Hrender) as (_ & ->).
  - unfold centerView, zoomScene.
    by destruct (distance_pose (num_neg (getOptimalDistance (center position viewer)))
                  (center position viewer) Hzoom Hrender) as (_ & _ & ->).
  - unfold alignView. apply Hrot.
Qed.

(** X23. [zoom] changes the camera depth only, to the product of the
    depth and one minus the delta; [spin], [align] and [applyMatrix]
    change the rotation group only: translation and camera position stay
    as they are. *)
Theorem mutators_change_one_part (delta angle : num) (axis : Vector3 num)
    (matrix : Matrix4) (viewer : Viewer num Rotation Rest) :
  keepsPose updateZoom → keepsPose requestRender →
  (rotationGroup (zoom delta viewer) = rotationGroup viewer ∧
   translationGroup_position (zoom delta viewer) = translationGroup_position viewer ∧
   camera_position (zoom delta viewer)
   = {| x := x (camera_position viewer); y := y (camera_position viewer);
        z := num_mul (z (camera_position viewer))
               (num_sub (num_decimal 1 0) delta) |}) ∧
  (translationGroup_position (spin axis angle viewer)
   = translationGroup_position viewer ∧
   camera_position (spin axis angle viewer) = camera_position viewer) ∧
  (translationGroup_position (align matrix viewer)
   = translationGroup_position viewer ∧
   camera_position (align matrix viewer) = camera_position viewer) ∧
  (translationGroup_position (applyMatrix matrix viewer)
   = translationGroup_position viewer ∧
   camera_position (applyMatrix matrix viewer) = camera_position viewer).
Proof.
  intros Hzoom Hrender. split; [|split; [|split]].
  - unfold zoom. by apply distance_pose.
  - unfold spin.
    match goal with
    | |- context [requestRender ?v] => destruct (Hrender v) as (_ & -> & ->)
    end. done.
  - unfold align.
    match goal with
    | |- context [requestRender ?v] => destruct (Hrender v) as (_ & -> & ->)
    end. done.
  - unfold applyMatrix.
    match goal with
    | |- context [requestRender ?v] => destruct (Hrender v) as (_ & -> & ->)
    end. done.
Qed.

End ViewerExtraTheorems.

(** On the example viewer: centering at (1, 1, 1) after a translation by
    (1, 1, 1) leaves the translation at (-1, -1, -1). *)
Lemma center_is_absolute_witness :
  keepsPose (requestRender (num := Z) (Rotation := Z) (Rest := Z * bool)) ∧
  translationGroup_position (center onesZ (translate onesZ viewerZ))
  = {| x := (-1)%Z; y := (-1)%Z; z := (-1)%Z |}.
Proof.
  assert (keepsPose (requestRender (num := Z) (Rotation := Z) (Rest := Z * bool)))
    as Hrender by (intros v; repeat split).
  split; [exact Hrender|].
  destruct (center_is_absolute onesZ onesZ viewerZ Hrender) as (Hc & -> & _).
  exact Hc.
Defined.

(** On the example viewer over a scene without components, [centerScene]
    leaves the viewer as it is. *)
Lemma centerScene_empty_witness :
  boundingBox_isEmpty (SceneMethods := emptySceneZ) viewerZ = true ∧
  @centerScene Z _ Z (Z * bool) _ emptySceneZ viewerZ = viewerZ.
Proof.
  split; [reflexivity|].
  exact (proj1 (centerScene_empty (SceneMethods0 := emptySceneZ) viewerZ eq_refl)).
Defined.

(** On the example viewer: [centerView] with zoom at (1, 1, 1) leaves the
    translation at (-1, -1, -1) and the camera depth at -25. *)
Lemma centerView_pose_witness :
  keepsPose (updateZoom (num := Z) (Rotation := Z) (Rest := Z * bool)) ∧
  keepsPose (requestRender (num := Z) (Rotation := Z) (Rest := Z * bool)) ∧
  translationGroup_position (centerView true (Some onesZ) viewerZ)
  = {| x := (-1)%Z; y := (-1)%Z; z := (-1)%Z |} ∧
  z (camera_position (centerView true (Some onesZ) viewerZ)) = (-25)%Z.
Proof.
  assert (keepsPose (updateZoom (num := Z) (Rotation := Z) (Rest := Z * bool)))
    as Hzoom by (intros v; repeat split).
  assert (keepsPose (requestRender (num := Z) (Rotation := Z) (Rest := Z * bool)))
    as Hrender by (intros v; repeat split).
  split; [exact Hzoom|]. split; [exact Hrender|].
  destruct (centerView_pose true onesZ 0%Z None viewerZ Hzoom Hrender)
    as (Ht & _ & _ & Hz & _).
  split; [exact Ht | exact Hz].
Defined.

(** On the example viewer, at depth -10: a zoom by 3 leaves the camera at
    depth 20 and the translation as it is; a spin leaves the translation
    as it is. *)
Lemma mutators_change_one_part_witness :
  keepsPose (updateZoom (num := Z) (Rotation := Z) (Rest := Z * bool)) ∧
  keepsPose (requestRender (num := Z) (Rotation := Z) (Rest := Z * bool)) ∧
  z (camera_position (zoom 3%Z viewerZ)) = 20%Z ∧
  translationGroup_position (zoom 3%Z viewerZ) = translationGroup_position viewerZ ∧
  translationGroup_position (spin onesZ 90%Z viewerZ)
  = translationGroup_position viewerZ.
Proof.
  assert (keepsPose (updateZoom (num := Z) (Rotation := Z) (Rest := Z * bool)))
    as Hzoom by (intros v; repeat split).
  assert (keepsPose (requestRender (num := Z) (Rotation := Z) (Rest := Z * bool)))
    as Hrender by (intros v; repeat split).
  split; [exact Hzoom|]. split; [exact Hrender|].
  destruct (mutators_change_one_part 3%Z 90%Z onesZ 0%Z viewerZ Hzoom Hrender)
    as ((_ & Ht & Hc) & (Hs & _) & _).
  split; [rewrite Hc; reflexivity|]. split; [exact Ht | exact Hs].
Defined.

End ViewerExtraTheorems.

Module InitTheorems.
Import InitFacts Examples MoreExamples.
Section InitTheorems.
Context `{Number num} `{!Truthiness num}.

(** X24. After [init] of the rocket representation the local angle, the
    center distance, the radius and the scale are truthy and the color
    scheme is not empty: a zero (or a missing value) is replaced by the
    default.  A quality of low, medium or high fixes the radial segments
    at 5, 10 or 20 whatever segment count is passed; otherwise the count
    passed is taken as it is, and 10 when none is passed. *)
Theorem rocket_init_defaults (params : option (RocketInit.Params num)) :
  truthy (num_decimal 15 1) = true → truthy (num_decimal 1 0) = true →
  truthy (num_decimal 30 0) = true → truthy (num_decimal 25 1) = true →
  let params' := default RocketInit.empty params in
  let this := RocketInit.init params in
  truthy (RocketInit.this_localAngle this) = true ∧
  truthy (RocketInit.this_centerDist this) = true ∧
  (∃ radius scale colorScheme,
     RocketInit.radius (RocketInit.p this) = Some radius ∧ truthy radius = true ∧
     RocketInit.scale (RocketInit.p this) = Some scale ∧ truthy scale = true ∧
     RocketInit.colorScheme (RocketInit.p this) = Some colorScheme ∧
     colorScheme ≠ EmptyString) ∧
  (RocketInit.quality params' = Some "low" → RocketInit.this_radiusSegments this = 5%Z) ∧
  (RocketInit.quality params' = Some "medium" →
   RocketInit.this_radiusSegments this = 10%Z) ∧
  (RocketInit.quality params' = Some "high" →
   RocketInit.this_radiusSegments this = 20%Z) ∧
  (RocketInit.quality params' ≠ Some "low" →
   RocketInit.quality params' ≠ Some "medium" →
   RocketInit.quality params' ≠ Some "high" →
   RocketInit.this_radiusSegments this
   = default 10%Z (RocketInit.radiusSegments params')).
Proof.
  intros H15 H1 H30 H25. cbv zeta. unfold RocketInit.init. cbn.
  split; [by apply number_or_truthy|]. split; [by apply number_or_truthy|].
  split.
  { eexists _, _, _. split; [done|]. split; [by apply number_or_truthy|].
    split; [done|]. split; [by apply number_or_truthy|]. split; [done|].
    by apply string_or_nonempty. }
  split; [|split; [|split]].
  - intros Hq. by rewrite decide_True.
  - intros Hq. rewrite decide_False by (rewrite Hq; discriminate).
    by rewrite decide_True.
  - intros Hq. rewrite !decide_False by (rewrite Hq; discriminate).
    by rewrite decide_True.
  - intros Hl Hm Hh. rewrite !decide_False by done.
    by destruct (RocketInit.radiusSegments _).
Qed.

(** X25. After [init] of the distance representation the radius, the
    label size and the label color are truthy: a label color of zero,
    black, is replaced by white, and a label size or radius of zero by the
    default.  The font names are not empty.  A label visibility of false
    and an empty pair list are kept as they are passed. *)
Theorem distance_init_defaults (Browser : string)
    (params : option (DistanceInit.Params num)) :
  truthy (num_decimal 15 2) = true → truthy (num_decimal 2 0) = true →
  truthy (num_decimal 16777215 0) = true →
  let params' := default DistanceInit.empty params in
  let this := DistanceInit.init Browser params in
  truthy (DistanceInit.this_labelSize this) = true ∧
  truthy (DistanceInit.this_labelColor this) = true ∧
  (∃ radius,
     DistanceInit.radius (DistanceInit.p this) = Some radius ∧
     truthy radius = true) ∧
  (∀ labelColor,
     DistanceInit.labelColor params' = Some labelColor →
     truthy labelColor = false →
     DistanceInit.this_labelColor this = num_decimal 16777215 0) ∧
  DistanceInit.this_fontFamily this ≠ EmptyString ∧
  DistanceInit.this_fontStyle this ≠ EmptyString ∧
  DistanceInit.this_fontWeight this ≠ EmptyString ∧
  (∀ labelVisible,
     DistanceInit.labelVisible params' = Some labelVisible →
     DistanceInit.this_labelVisible this = labelVisible) ∧
  (∀ atomPair,
     DistanceInit.atomPair params' = Some atomPair →
     DistanceInit.this_atomPair this = atomPair).
Proof.
  intros H15 H2 Hwhite. cbv zeta. unfold DistanceInit.init. cbn.
  split; [by apply number_or_truthy|]. split; [by apply number_or_truthy|].
  split; [eexists; split; [done|]; by apply number_or_truthy|].
  split.
  { intros labelColor -> Hfalsy. cbn. by rewrite Hfalsy. }
  do 3 (split; [by apply string_or_nonempty|]).
  split; [by intros ? ->|by intros ? ->].
Qed.

End InitTheorems.

(** On the parameters [{ quality: "high", radiusSegments: 7, localAngle: 0 }]:
    the radial segments are 20 and the local angle is 30. *)
Lemma rocket_init_defaults_witness :
  truthy (num_decimal 30 0 : Z) = true ∧
  RocketInit.this_radiusSegments
    (RocketInit.init
       (Some {| RocketInit.colorScheme := None; RocketInit.radius := None;
                RocketInit.scale := None; RocketInit.quality := Some "high";
                RocketInit.radiusSegments := Some 7%Z;
                RocketInit.disableImpostor := None;
                RocketInit.localAngle := Some 0%Z;
                RocketInit.centerDist := None; RocketInit.ssBorder := None |}))
  = 20%Z ∧
  truthy (RocketInit.this_localAngle
    (RocketInit.init
       (Some {| RocketInit.colorScheme := None; RocketInit.radius := None;
                RocketInit.scale := None; RocketInit.quality := Some "high";
                RocketInit.radiusSegments := Some 7%Z;
                RocketInit.disableImpostor := None;
                RocketInit.localAngle := Some 0%Z;
                RocketInit.centerDist := None; RocketInit.ssBorder := None |})))
  = true.
Proof.
  split; [reflexivity|].
  destruct (@rocket_init_defaults Z Number_Z Truthiness_Z
    (Some {| RocketInit.colorScheme := None; RocketInit.radius := None;
             RocketInit.scale := None; RocketInit.quality := Some "high";
             RocketInit.radiusSegments := Some 7%Z;
             RocketInit.disableImpostor := None;
             RocketInit.localAngle := Some 0%Z;
             RocketInit.centerDist := None; RocketInit.ssBorder := None |})
    eq_refl eq_refl eq_refl eq_refl) as (Hangle & _ & _ & _ & _ & Hhigh & _).
  split; [exact (Hhigh eq_refl) | exact Hangle].
Defined.

(** Without parameters, on numbers read as thousandths: the label color
    is white and the label size is truthy. *)
Lemma distance_init_defaults_witness :
  truthy (@num_decimal Z numberMilliZ 15 2) = true ∧
  truthy (DistanceInit.this_labelColor
            (@DistanceInit.init Z numberMilliZ Truthiness_Z "Chrome" None)) = true ∧
  truthy (DistanceInit.this_labelSize
            (@DistanceInit.init Z numberMilliZ Truthiness_Z "Chrome" None)) = true.
Proof.
  split; [reflexivity|].
  destruct (@distance_init_defaults Z numberMilliZ Truthiness_Z "Chrome" None
              eq_refl eq_refl eq_refl) as (Hsize & Hcolor & _).
  split; [exact Hcolor | exact Hsize].
Defined.

End InitTheorems.
